(** * Route matching, locale stripping and request dispatch of satset-react

    A shallow embedding of the routing core of the framework:
    - [src/router/file-system.ts]: route discovery for API directories,
      [extractParams], [matchRoute], [matchDynamicRoute];
    - [src/server/dev.ts]: [stripLocaleFromPath], the route-matching stage of
      the request handler, the compiled-artifact paths and the staleness check
      of [handleApiRoute] and [handlePageRoute], [resolveHandler] and the
      method dispatch, the handling of values thrown while rendering a page;
    - [src/core/response.ts] and [src/server/response.ts]:
      [SatsetResponse.redirect] and [sendSatsetResponse];
    - [src/navigation/notFound.ts]: [redirect] and [notFound];
    - the page scan of [getRoutes] and the client-side [parseParamsFromPath]
      of [src/router/file-system.ts]; locale detection, cookie parsing,
      [runMiddleware], [resolveExportedComponent] and the [try] block of the
      page render (layouts, page node, rendering) of [src/server/dev.ts];
      the cookie setters of both response modules; [escapeHtml],
      [extractCodeSnippet] and the line labels of the error overlay.

    JavaScript strings are modelled as [string] (sequences of 8-bit
    characters), JavaScript numbers that carry HTTP status codes and
    modification times as [Z], plain objects used as dictionaries as
    [gmap string _], arrays as [list]. *)

From Stdlib Require Import String Ascii List ZArith Bool Lia DecimalString.
From stdpp Require Import gmap strings list.

Open Scope string_scope.
Open Scope list_scope.

(** ** JavaScript string primitives used by the sources *)

Module Js.

(** [s.split(c)] for a one-character separator [c]. *)
Fixpoint split (c : ascii) (s : string) : list string :=
  match s with
  | EmptyString => [EmptyString]
  | String a s' =>
      if Ascii.eqb a c then EmptyString :: split c s'
      else match split c s' with
           | [] => [String a EmptyString]
           | h :: t => String a h :: t
           end
  end.

(** [Boolean(s)] for a string: the empty string is the only falsy one. *)
Definition nonEmpty (s : string) : bool :=
  match s with EmptyString => false | String _ _ => true end.

(** [arr.join(sep)]. *)
Definition join (sep : string) (l : list string) : string := String.concat sep l.

(** [s.startsWith(p)]. *)
Definition startsWith (s p : string) : bool := String.prefix p s.

(** [s.endsWith(p)]. *)
Definition endsWith (s p : string) : bool :=
  (String.length p <=? String.length s)%nat &&
  String.eqb (substring (String.length s - String.length p) (String.length p) s) p.

(** [s.includes(c)] for a one-character needle. *)
Fixpoint includesChar (s : string) (c : ascii) : bool :=
  match s with
  | EmptyString => false
  | String a s' => Ascii.eqb a c || includesChar s' c
  end.

(** The character [c] does not occur in [s]. *)
Definition lacks (c : ascii) (s : string) : Prop := includesChar s c = false.

(** [s.includes(p)] for an arbitrary needle. *)
Fixpoint includes (s p : string) : bool :=
  String.prefix p s ||
  match s with
  | EmptyString => false
  | String _ s' => includes s' p
  end.

(** [s.slice(n)] for a non-negative [n]. *)
Definition sliceFrom (n : nat) (s : string) : string :=
  substring n (String.length s - n) s.

(** [s.slice(n, -m)] for non-negative [n] and positive [m]. *)
Definition sliceBetween (n m : nat) (s : string) : string :=
  substring n (String.length s - m - n) s.

(** [s.split(c)[0]]: the part of [s] before the first [c]. *)
Definition before (c : ascii) (s : string) : string :=
  match split c s with
  | [] => EmptyString
  | h :: _ => h
  end.

(** The character class [[a-zA-Z]]. *)
Definition isAlpha (a : ascii) : bool :=
  let n := nat_of_ascii a in
  ((65 <=? n) && (n <=? 90) || (97 <=? n) && (n <=? 122))%nat.

(** The character class [[0-9]]. *)
Definition isDigit (a : ascii) : bool :=
  let n := nat_of_ascii a in ((48 <=? n) && (n <=? 57))%nat.

(** [arr.findIndex(p)]; [None] stands for the result [-1]. *)
Fixpoint findIndex {A} (p : A -> bool) (l : list A) : option nat :=
  match l with
  | [] => None
  | x :: l' => if p x then Some 0%nat else option_map S (findIndex p l')
  end.

(** Template-literal rendering of an integral number whose magnitude is
    below 10^21, where JavaScript prints every digit. *)
Definition numberToString (z : Z) : string := NilZero.string_of_int (Z.to_int z).

(** [obj[key] = v] for a string [v], on an object that was made by the
    literal [{}] and is used as a dictionary. The key [__proto__] names the
    accessor inherited from [Object.prototype], whose setter ignores a value
    that is neither an object nor [null]: the assignment then creates no
    property. *)
Definition setProperty (key v : string) (obj : gmap string string)
  : gmap string string :=
  if String.eqb key "__proto__" then obj else <[key := v]> obj.

End Js.

(** ** JavaScript values *)

(** The values that reach the modelled code: primitives, functions (known by
    an identity and their declared [length]) and plain objects (own
    properties in insertion order). *)
#[warnings="-register-all"]
Inductive value : Type :=
| Undefined
| Null
| Bool (b : bool)
| Num (z : Z)
| Str (s : string)
| Fun (id arity : nat)
| Obj (fields : list (string * value)).

Module Val.

Definition isTruthy (v : value) : bool :=
  match v with
  | Undefined | Null => false
  | Bool b => b
  | Num z => negb (z =? 0)%Z
  | Str s => Js.nonEmpty s
  | Fun _ _ | Obj _ => true
  end.

(** [typeof v === 'function']. *)
Definition isFunction (v : value) : bool :=
  match v with Fun _ _ => true | _ => false end.

(** [typeof v === 'number']. *)
Definition isNumber (v : value) : bool :=
  match v with Num _ => true | _ => false end.

(** [v == null]. *)
Definition isNullish (v : value) : bool :=
  match v with Undefined | Null => true | _ => false end.

Fixpoint lookup (fields : list (string * value)) (key : string) : value :=
  match fields with
  | [] => Undefined
  | (k, v) :: fields' => if String.eqb k key then v else lookup fields' key
  end.

(** [v[key]] on a value that is not [null] or [undefined]; the modelled
    primitives and functions carry none of the properties that are read. *)
Definition get (v : value) (key : string) : value :=
  match v with
  | Obj fields => lookup fields key
  | _ => Undefined
  end.

(** [a && b]. *)
Definition and (a b : value) : value := if isTruthy a then b else a.

(** [a ?? b]. *)
Definition coalesce (a b : value) : value := if isNullish a then b else a.

(** [String(v)]. *)
Definition toString (v : value) : string :=
  match v with
  | Undefined => "undefined"
  | Null => "null"
  | Bool true => "true"
  | Bool false => "false"
  | Num z => Js.numberToString z
  | Str s => s
  | Fun _ _ => "function () { [native code] }"
  | Obj _ => "[object Object]"
  end.

(** [new Error(message)] with extra own properties, for a [message] that
    is not empty. The modelled code reads the properties of a thrown value
    and converts it with [String] only when its [message] is falsy, so such
    an error is told from a plain object with these properties by nothing
    the model does. *)
Definition error (message : string) (extra : list (string * value)) : value :=
  Obj (("message", Str message) :: extra).

End Val.

(** A JavaScript computation either returns or throws a value. *)
Inductive outcome (A : Type) : Type :=
| Returns (a : A)
| Throws (err : value).
Arguments Returns {A} a.
Arguments Throws {A} err.

(** Reading a property of [undefined]. *)
Definition typeErrorSlice : value :=
  Val.error "Cannot read properties of undefined (reading 'slice')" [("name", Str "TypeError")].

(** ** Locale prefix ([src/server/dev.ts]) *)

Module Locale.

(** The regular expression [/^[a-zA-Z]{2}(?:-[a-zA-Z]{2})?$/]. *)
Definition localePattern (s : string) : bool :=
  match s with
  | String a (String b EmptyString) => Js.isAlpha a && Js.isAlpha b
  | String a (String b (String d (String e (String f EmptyString)))) =>
      Js.isAlpha a && Js.isAlpha b && Ascii.eqb d "-" && Js.isAlpha e && Js.isAlpha f
  | _ => false
  end.

(** [raw.split('/').filter(Boolean)]. *)
Definition segmentsOf (raw : string) : list string :=
  List.filter Js.nonEmpty (Js.split "/" raw).

(** [pathname.split('?')[0].split('#')[0]]. *)
Definition rawOf (pathname : string) : string :=
  Js.before "#" (Js.before "?" pathname).

Definition stripLocaleFromPath (pathname : string) : string :=
  if negb (Js.nonEmpty pathname) then "/"
  else
    let raw := rawOf pathname in
    let segments := segmentsOf raw in
    match segments with
    | [] => "/"
    | first :: rest =>
        if localePattern first then
          match rest with
          | [] => "/"
          | _ :: _ => "/" +:+ Js.join "/" rest
          end
        else if Js.startsWith raw "/" then raw else "/" +:+ raw
    end.

(** Whether the first path segment of [pathname] has the shape of a locale. *)
Definition startsWithLocale (pathname : string) : bool :=
  match segmentsOf (rawOf pathname) with
  | [] => false
  | first :: _ => localePattern first
  end.

End Locale.

(** ** Route discovery and matching ([src/router/file-system.ts]) *)

Module Router.

(** [interface Route]; an optional field that is absent is [None]. *)
Record Route : Type := mkRoute {
  path : string;
  component : string;
  exact : option bool;
  dynamic : option bool;
  params : option (list string);
  catchAllOptional : option bool
}.

(** Truthiness of an optional boolean field ([undefined] is falsy). *)
Definition truthy (b : option bool) : bool :=
  match b with Some true => true | _ => false end.

(** [Record<string, string>]. *)
Abbreviation Params := (gmap string string).

(** A directory listing: what [fs.readdirSync] and [fs.statSync] report. *)
#[warnings="-register-all"]
Inductive entry : Type :=
| File (name : string)
| Dir (name : string) (children : list entry).

(** [path.join(dir, file)] for a directory and one of its entries. *)
Definition pathJoin (dir file : string) : string := dir +:+ "/" +:+ file.

Definition extractParams (routePath : string) : list string :=
  let segments := Js.split "/" routePath in
  flat_map (fun segment =>
    if Js.startsWith segment ":" then [Js.sliceFrom 1 segment]
    else if Js.startsWith segment "*" then [Js.sliceFrom 1 segment]
    else []) segments.

(** [file.replace(/\.(ts|js)$/, '')]. *)
Definition stripTsJs (file : string) : string :=
  if Js.endsWith file ".ts" || Js.endsWith file ".js"
  then substring 0 (String.length file - 3) file
  else file.

(** The body of the [for] loop of [scanApiDirectory] for one entry [e] of
    [dir]; the result lists the routes pushed onto [apiRoutes], in order. *)
Fixpoint scanApiEntry (dir prefix : string) (e : entry) : list Route :=
  match e with
  | Dir file children =>
      let fullPath := pathJoin dir file in
      if Js.startsWith file "[[..." && Js.endsWith file "]]" then
        let paramName := Js.sliceBetween 5 2 file in
        let newPrefix := prefix +:+ "/*?" +:+ paramName in
        flat_map (scanApiEntry fullPath newPrefix) children
      else if Js.startsWith file "[..." && Js.endsWith file "]" then
        let paramName := Js.sliceBetween 4 1 file in
        let newPrefix := prefix +:+ "/*" +:+ paramName in
        flat_map (scanApiEntry fullPath newPrefix) children
      else if Js.startsWith file "[" && Js.endsWith file "]" then
        let paramName := Js.sliceBetween 1 1 file in
        let newPrefix := prefix +:+ "/:" +:+ paramName in
        flat_map (scanApiEntry fullPath newPrefix) children
      else
        let newPrefix := prefix +:+ "/" +:+ file in
        flat_map (scanApiEntry fullPath newPrefix) children
  | File file =>
      let fullPath := pathJoin dir file in
      if (Js.endsWith file ".ts" || Js.endsWith file ".js")
         && negb (Js.endsWith file ".d.ts") then
        let fileName := stripTsJs file in
        let '(routePath, params0) :=
          if String.eqb fileName "route" then
            (if Js.nonEmpty prefix then prefix else "/", [])
          else if Js.startsWith fileName "[" && Js.endsWith fileName "]"
                  && negb (Js.startsWith fileName "[...") then
            let paramName := Js.sliceBetween 1 1 fileName in
            (prefix +:+ "/:" +:+ paramName, [paramName])
          else if Js.startsWith fileName "[..." && Js.endsWith fileName "]" then
            let paramName := Js.sliceBetween 4 1 fileName in
            (prefix +:+ "/*" +:+ paramName, [paramName])
          else if Js.startsWith fileName "[[..." && Js.endsWith fileName "]]" then
            let paramName := Js.sliceBetween 5 2 fileName in
            (prefix +:+ "/*" +:+ paramName, [paramName])
          else (prefix +:+ "/" +:+ fileName, []) in
        let isDynamic := Js.includesChar routePath ":" || Js.includesChar routePath "*" in
        let params1 :=
          match params0 with
          | [] => if isDynamic then extractParams routePath else params0
          | _ :: _ => params0
          end in
        [ {| path := routePath; component := fullPath; exact := None;
             dynamic := Some isDynamic; params := Some params1;
             catchAllOptional := None |} ]
      else []
  end.

Definition scanApiDirectory (dir prefix : string) (files : list entry) : list Route :=
  flat_map (scanApiEntry dir prefix) files.

(** [pathname.split('/').filter(Boolean)]. *)
Definition segmentsOf (pathname : string) : list string :=
  List.filter Js.nonEmpty (Js.split "/" pathname).

(** [pathSegments[i] !== routeSegments[i]] is false: both reads agree
    ([None] is [undefined]). *)
Definition sameAt (pathSegments routeSegments : list string) (i : nat) : bool :=
  match nth_error pathSegments i, nth_error routeSegments i with
  | Some a, Some b => String.eqb a b
  | None, None => true
  | _, _ => false
  end.

(** The parameter name of a catch-all segment: [slice(1)], then the ['?']
    marker left by the scan is dropped. *)
Definition catchAllName (segment : string) : string :=
  let paramName := Js.sliceFrom 1 segment in
  if Js.startsWith paramName "?" then Js.sliceFrom 1 paramName else paramName.

(** The second [for] loop of [matchDynamicRoute]; it is entered with
    [routeSegments] and [pathSegments] of equal length. *)
Fixpoint bindSegments (routeSegments pathSegments : list string) (params : Params)
  : option Params :=
  match routeSegments, pathSegments with
  | [], _ => Some params
  | routeSegment :: routeSegments', pathSegment :: pathSegments' =>
      if Js.startsWith routeSegment ":" then
        bindSegments routeSegments' pathSegments'
          (Js.setProperty (Js.sliceFrom 1 routeSegment) pathSegment params)
      else if negb (String.eqb routeSegment pathSegment) then None
      else bindSegments routeSegments' pathSegments' params
  | _ :: _, [] => None
  end.

Definition matchDynamicRoute (pathname routePath : string) (catchAllOptional : bool)
  : outcome (option Params) :=
  let pathSegments := segmentsOf pathname in
  let routeSegments := segmentsOf routePath in
  if Js.includesChar routePath "*" then
    match Js.findIndex (fun s => Js.startsWith s "*") routeSegments with
    | None =>
        (* catchAllIndex = -1: the loop is skipped and routeSegments[-1] is undefined *)
        Throws typeErrorSlice
    | Some catchAllIndex =>
        if negb (forallb (sameAt pathSegments routeSegments) (seq 0 catchAllIndex))
        then Returns None
        else
          match nth_error routeSegments catchAllIndex with
          | None => Throws typeErrorSlice
          | Some segment =>
              let paramName := catchAllName segment in
              if (List.length pathSegments <=? catchAllIndex)%nat && catchAllOptional
              then Returns (Some (Js.setProperty paramName "" (∅ : Params)))
              else Returns (Some (Js.setProperty paramName
                       (Js.join "/" (skipn catchAllIndex pathSegments)) (∅ : Params)))
          end
    end
  else if negb (List.length pathSegments =? List.length routeSegments)%nat then Returns None
  else Returns (bindSegments routeSegments pathSegments ∅).

(** The body of the [for] loop of [matchRoute] for one route: [Some params]
    when the loop returns at this route, [None] when it moves on. *)
Definition tryRoute (pathname : string) (route : Route) : outcome (option Params) :=
  if truthy (dynamic route) then
    matchDynamicRoute pathname (path route) (truthy (catchAllOptional route))
  else if truthy (exact route) then
    if String.eqb pathname (path route) then Returns (Some ∅) else Returns None
  else
    if Js.startsWith pathname (path route) then Returns (Some ∅) else Returns None.

Fixpoint matchRoute (pathname : string) (routes : list Route)
  : outcome (option (Route * Params)) :=
  match routes with
  | [] => Returns None
  | route :: routes' =>
      match tryRoute pathname route with
      | Throws e => Throws e
      | Returns (Some params) => Returns (Some (route, params))
      | Returns None => matchRoute pathname routes'
      end
  end.

End Router.


(** ** Effects of the request handler ([src/server/dev.ts]) *)

(** What the handler does to the outside world, in order: calls of the
    compiler collaborator [bundler.bundleServer], wiping the artifact
    directory, [require] of an artifact, calls of the rendering engine
    through [renderComponentToHtml], and the response written on [res]:
    its head, then either its end or the call [body.pipe(res)] that hands
    the response to a stream. *)
Inductive effect : Type :=
| BundleServer (entryPoint outfile : string) (sourcemap : bool)
| WipeTempDir
| RequireModule (file : string)
| RenderToHtml (comp props : value)
| WriteHead (status : Z) (headers : gmap string string)
| End (body : option string)
| Pipe (body : value).

(** A computation with its trace of effects. *)
Definition eff (A : Type) : Type := (list effect * outcome A)%type.

#[global] Instance eff_ret : MRet eff := fun A a => ([], Returns a).

#[global] Instance eff_bind : MBind eff := fun A B f m =>
  match m with
  | (t, Returns a) => let '(t', r) := f a in (t ++ t', r)
  | (t, Throws e) => (t, Throws e)
  end.

Module Eff.

Definition emit (e : effect) : eff unit := ([e], Returns tt).

Definition throw {A} (err : value) : eff A := ([], Throws err).

(** One call of a collaborator: the call is recorded, its result is [r]. *)
Definition call {A} (e : effect) (r : outcome A) : eff A := ([e], r).

(** [try { m } catch (err) { h err }]. *)
Definition tryCatch {A} (m : eff A) (h : value -> eff A) : eff A :=
  match m with
  | (t, Throws e) => let '(t', r) := h e in (t ++ t', r)
  | (t, Returns a) => (t, Returns a)
  end.

Definition trace {A} (m : eff A) : list effect := fst m.

Definition isBundle (e : effect) : bool :=
  match e with BundleServer _ _ _ => true | _ => false end.

Definition isRender (e : effect) : bool :=
  match e with RenderToHtml _ _ => true | _ => false end.

(** Whether the compiler collaborator is invoked at all. *)
Definition invokesCompiler {A} (m : eff A) : bool := existsb isBundle (trace m).

(** Whether the rendering engine is invoked at all. *)
Definition invokesRenderer {A} (m : eff A) : bool := existsb isRender (trace m).

End Eff.

(** ** Artifact paths of compiled modules *)

Module Artifact.

Fixpoint mapChars (f : ascii -> ascii) (s : string) : string :=
  match s with
  | EmptyString => EmptyString
  | String a s' => String (f a) (mapChars f s')
  end.

(** [path.basename(p)] of a file path. *)
Definition basename (p : string) : string := List.last (Js.split "/" p) EmptyString.

(** [s.replace(/\.[^.]+$/, '')]: a last extension with at least one
    character is dropped. *)
Definition stripExtension (s : string) : string :=
  let parts := Js.split "." s in
  match parts with
  | _ :: _ :: _ =>
      if Js.nonEmpty (List.last parts EmptyString)
      then Js.join "." (removelast parts)
      else s
  | _ => s
  end.

(** [path.relative(root, p)] for a file [p] below the directory [root],
    where [root] is an absolute normalised path other than [/]: it does not
    end in a slash. *)
Definition relative (root p : string) : string :=
  if Js.startsWith p (root +:+ "/")
  then Js.sliceFrom (String.length root + 1) p
  else p.

(** [s.replace(/\\/g, '/')]. *)
Definition slashes (s : string) : string :=
  mapChars (fun a => if Ascii.eqb a "\" then "/"%char else a) s.

(** [s.replace(/[^a-zA-Z0-9_-]/g, '_')]. *)
Definition sanitize (s : string) : string :=
  mapChars (fun a =>
    if Js.isAlpha a || Js.isDigit a || Ascii.eqb a "_" || Ascii.eqb a "-"
    then a else "_"%char) s.

(** [handleApiRoute]: [safeComponentKey]. *)
Definition safeComponentKey (root component : string) : string :=
  let relComponentPath := stripExtension (slashes (relative root component)) in
  sanitize relComponentPath.

(** [handleApiRoute]: [compiledApiPath]. *)
Definition compiledApiPath (root tempDir component : string) : string :=
  Router.pathJoin tempDir (safeComponentKey root component +:+ ".api.server.js").

(** [handlePageRoute]: [compiledServerPath]. *)
Definition compiledServerPath (tempDir component : string) : string :=
  let baseName := stripExtension (basename component) in
  Router.pathJoin tempDir (baseName +:+ ".server.js").

(** [handlePageRoute]: [layoutCompiled]; [md5hex] is the hex digest
    computed by [crypto.createHash('md5')]. *)
Definition layoutCompiled (md5hex : string -> string) (tempDir layoutFile : string) : string :=
  let layoutBase := stripExtension (basename layoutFile) in
  let hash := substring 0 8 (md5hex layoutFile) in
  Router.pathJoin tempDir (layoutBase +:+ "." +:+ hash +:+ ".layout.server.js").

End Artifact.

(** ** Responses ([src/core/response.ts], [src/server/response.ts]) *)

Module Response.

(** [class SatsetResponse]. *)
Record SatsetResponse : Type := mkSatsetResponse {
  body : value;
  status : Z;
  headers : gmap string string
}.

(** [new SatsetResponse(body, init)]. *)
Definition new (body : value) (initStatus : option Z)
  (initHeaders : option (gmap string string)) : SatsetResponse :=
  {| body := body;
     status := match initStatus with
               | Some st => st
               | None => if Val.isNullish body then 204%Z else 200%Z
               end;
     headers := match initHeaders with Some h => h | None => ∅ end |}.

(** [SatsetResponse.redirect(url, status = 307)]. *)
Definition redirect (url : string) (status : option Z) : SatsetResponse :=
  new Null (Some (match status with Some st => st | None => 307%Z end))
      (Some {[ "Location" := url ]}).


(** Truthiness of [headers[name]]. *)
Definition hasHeader (h : gmap string string) (name : string) : bool :=
  match h !! name with
  | Some v => Js.nonEmpty v
  | None => false
  end.

(** The duck-typed stream test of [sendSatsetResponse]:
    [typeof body.pipe === 'function' && body.on]. *)
Definition isStreamLike (body : value) : bool :=
  Val.isFunction (Val.get body "pipe") && Val.isTruthy (Val.get body "on").

(** [sendSatsetResponse(nodeRes, satRes)] for the bodies of the model:
    nothing, a string, an object that passes the stream test, or a value
    sent through [JSON.stringify] or [String]. Buffers, typed arrays, blobs
    and instances of [Stream] or [ReadableStream] are not values of the
    model. The modelled callers do not await the call, so what it does to
    the response is all they observe of it. *)
Definition sendSatsetResponse (jsonStringify : value -> string)
  (satRes : SatsetResponse) : eff unit :=
  let headers := headers satRes in
  let status := if (status satRes =? 0)%Z then 200%Z else status satRes in
  if hasHeader headers "Location" then
    _ ← Eff.emit (WriteHead status headers); Eff.emit (End None)
  else
    match body satRes with
    | Null | Undefined =>
        _ ← Eff.emit (WriteHead status headers); Eff.emit (End None)
    | Str text =>
        let headers' :=
          if hasHeader headers "Content-Type" then headers
          else <["Content-Type" := "text/plain; charset=utf-8"]> headers in
        _ ← Eff.emit (WriteHead status headers'); Eff.emit (End (Some text))
    | other =>
        if isStreamLike other then
          let headers' :=
            if hasHeader headers "Content-Type" then headers
            else <["Content-Type" := "application/octet-stream"]> headers in
          _ ← Eff.emit (WriteHead status headers'); Eff.emit (Pipe other)
        else
          let bodyStr := match other with
                         | Obj _ => jsonStringify other
                         | _ => Val.toString other
                         end in
          let headers' :=
            if hasHeader headers "Content-Type" then headers
            else <["Content-Type" := "application/json"]> headers in
          _ ← Eff.emit (WriteHead status headers'); Eff.emit (End (Some bodyStr))
    end.

End Response.

(** ** Navigation signals ([src/navigation/notFound.ts]) *)

Module Navigation.

(** [notFound()]: the value that is thrown. *)
Definition notFound : value :=
  Val.error "Not Found" [("__SATSET_NOT_FOUND", Bool true)].

(** [redirect(url, status = 307)]: the value that is thrown. *)
Definition redirect (url : string) (status : option Z) : value :=
  Val.error "Redirect"
    [("__SATSET_REDIRECT",
      Obj [("url", Str url);
           ("status", Num (match status with Some st => st | None => 307%Z end))])].

End Navigation.

(** ** The development server ([src/server/dev.ts]) *)

Module Server.

Import Router.

Fixpoint toLowerCase (s : string) : string :=
  match s with
  | EmptyString => EmptyString
  | String a s' =>
      let n := nat_of_ascii a in
      String (if (65 <=? n)%nat && (n <=? 90)%nat then ascii_of_nat (n + 32) else a)
             (toLowerCase s')
  end.

Fixpoint toUpperCase (s : string) : string :=
  match s with
  | EmptyString => EmptyString
  | String a s' =>
      let n := nat_of_ascii a in
      String (if (97 <=? n)%nat && (n <=? 122)%nat then ascii_of_nat (n - 32) else a)
             (toUpperCase s')
  end.

(** [/ENOSPC|not enough space|There is not enough space/i.test(msg)]. *)
Definition isDiskSpaceError (msg : string) : bool :=
  let m := toLowerCase msg in
  Js.includes m "enospc" || Js.includes m "not enough space"
  || Js.includes m "there is not enough space".

(** [String(err && err.message ? err.message : err)]. *)
Definition errorMessage (err : value) : string :=
  Val.toString (if Val.isTruthy (Val.and err (Val.get err "message"))
                then Val.get err "message" else err).

(** [routes.find(r => r.path === p)]. *)
Definition findRoute (routes : list Route) (p : string) : option Route :=
  List.find (fun r => String.eqb (path r) p) routes.

(** [a || b] on the results of [find]. *)
Definition orElse {A} (a b : option A) : option A :=
  match a with Some _ => a | None => b end.

(** *** Request path and the route-matching stage *)

(** [url.split('?')[0].split('#')[0] || '/']. *)
Definition rawPathOf (url : string) : string :=
  let r := Js.before "#" (Js.before "?" url) in
  if Js.nonEmpty r then r else "/".

(** The path used for routing: the locale prefix of the URL is stripped when
    the first segment has the shape of a locale. *)
Definition effectivePathOf (rawPath : string) : string :=
  match Router.segmentsOf rawPath with
  | firstSegment :: _ =>
      if Locale.localePattern firstSegment
      then Locale.stripLocaleFromPath rawPath
      else rawPath
  | [] => rawPath
  end.

(** Which route table a call of [matchRoute] reads. *)
Inductive lookupEvent : Type :=
| MatchApiRoutes
| MatchPageRoutes
| FindNotFoundRoute.

(** What the request handler does once middleware has passed the request on. *)
Inductive decision : Type :=
| HandleApi (route : Route) (params : Params)
| ApiNotFound (status : Z) (contentType : string)
| HandlePage (route : Route) (params : Params)
| HandleNotFoundPage (route : Route)
| PlainNotFound (status : Z) (body : string)
| Crash (err : value).

(** The tail of the request handler of [startDevServer], from
    [const apiMatch = matchRoute(effectivePath, apiRoutes)] on. The first
    component lists the table lookups in the order they are made. *)
Definition routeStage (effectivePath : string) (apiRoutes routes : list Route)
  : list lookupEvent * decision :=
  match matchRoute effectivePath apiRoutes with
  | Throws e => ([MatchApiRoutes], Crash e)
  | Returns (Some (route, params)) => ([MatchApiRoutes], HandleApi route params)
  | Returns None =>
      if Js.startsWith effectivePath "/api/" then
        ([MatchApiRoutes], ApiNotFound 404 "application/json")
      else
        match matchRoute effectivePath routes with
        | Throws e => ([MatchApiRoutes; MatchPageRoutes], Crash e)
        | Returns (Some (route, params)) =>
            ([MatchApiRoutes; MatchPageRoutes], HandlePage route params)
        | Returns None =>
            match orElse (findRoute routes "/404") (findRoute routes "/not-found") with
            | Some notFoundRoute =>
                ([MatchApiRoutes; MatchPageRoutes; FindNotFoundRoute],
                 HandleNotFoundPage notFoundRoute)
            | None =>
                ([MatchApiRoutes; MatchPageRoutes; FindNotFoundRoute],
                 PlainNotFound 404 "<h1>404 - Page Not Found</h1>")
            end
        end
  end.

(** *** Choice of the exported API handler *)

Definition methods : list string := ["GET"; "POST"; "PUT"; "PATCH"; "DELETE"; "OPTIONS"].

(** [resolveHandler(mod)]; [Null] is the result [null]. *)
Definition resolveHandler (mod_ : value) : value :=
  if negb (Val.isTruthy mod_) then Null
  else if Val.isFunction mod_ then Obj [("default", mod_)]
  else
    match mod_ with
    | Obj _ =>
        if Val.isFunction (Val.get mod_ "default") then Obj [("default", Val.get mod_ "default")]
        else
          let out := flat_map (fun m =>
                       if Val.isFunction (Val.get mod_ m) then [(m, Val.get mod_ m)] else [])
                     methods in
          match out with
          | [] => Null
          | _ :: _ => Obj out
          end
    | _ => Null
    end.

(** Which export [handleApiRoute] calls. *)
Inductive handlerChoice : Type :=
| CallMethodExport (method : string) (fn : value)
| CallDefaultExport (fn : value)
| MethodNotAllowed.

(** [req.method || 'GET'], upper-cased. *)
Definition methodOf (reqMethod : option string) : string :=
  toUpperCase (match reqMethod with
               | Some m => if Js.nonEmpty m then m else "GET"
               | None => "GET"
               end).

(** The method dispatch at the end of [handleApiRoute]. *)
Definition chooseHandler (ApiModule : value) (reqMethod : option string) : handlerChoice :=
  let handlerObj := resolveHandler ApiModule in
  let method := methodOf reqMethod in
  if Val.isTruthy handlerObj && Val.isFunction (Val.get handlerObj method) then
    CallMethodExport method (Val.get handlerObj method)
  else if Val.isTruthy handlerObj && Val.isFunction (Val.get handlerObj "default") then
    CallDefaultExport (Val.get handlerObj "default")
  else MethodNotAllowed.

(** *** Loading modules and recovering from render errors *)

(** Where the handler stands after the [try]/[catch] around the render:
    the response has been sent, or a page body and its status are ready to
    be wrapped in the HTML document. *)
Inductive renderStep : Type :=
| Responded
| Page (statusCode : Z) (pageHTML : string).

(** [err?.message || String(err)]. *)
Definition overlayMessage (err : value) : string :=
  let m := if Val.isNullish err then Undefined else Val.get err "message" in
  if Val.isTruthy m then Val.toString m else Val.toString err.

(** [maybeStatus] of the generic branch. *)
Definition maybeStatus (err : value) : value :=
  Val.coalesce
    (Val.coalesce (Val.and err (Val.get err "statusCode"))
                  (Val.and err (Val.get err "status")))
    (if Val.isTruthy (Val.and err (Bool (Val.isNumber (Val.get err "code"))))
     then Val.get err "code" else Undefined).

(** [statusCode] of the generic branch. *)
Definition statusCodeOf (err : value) : Z :=
  match maybeStatus err with
  | Num z => if (400 <=? z)%Z && (z <=? 599)%Z then z else 500%Z
  | _ => 500%Z
  end.

(** [candidatePaths] of the generic branch. *)
Definition candidatePaths (statusCode : Z) : list string :=
  ["/" +:+ Js.numberToString statusCode]
  ++ (if (statusCode =? 404)%Z then ["/404"; "/not-found"] else [])
  ++ (if (statusCode =? 500)%Z then ["/500"] else [])
  ++ ["/error"].

(** [errorRoute]: the first candidate path that is a registered route. *)
Fixpoint errorRouteFor (candidates : list string) (allRoutes : list Route) : option Route :=
  match candidates with
  | [] => None
  | p :: candidates' =>
      match findRoute allRoutes p with
      | Some found => Some found
      | None => errorRouteFor candidates' allRoutes
      end
  end.

(** A module's component: the module itself or its default export. *)
Definition defaultComponent (m : value) : value :=
  if Val.isFunction m then m
  else if Val.isTruthy m && Val.isFunction (Val.get m "default") then Val.get m "default"
  else Null.

Section Collaborators.

(** Project root and artifact directory. *)
Variables root tempDir : string.
(** [fs.statSync(p).mtimeMs]; [None] when [p] does not exist. *)
Variable statMtime : string -> option Z.
(** The compiler collaborator: entry point, output file, sourcemap flag. *)
Variable bundler : string -> string -> bool -> outcome unit.
(** [require(file)] after the cache entry is dropped. *)
Variable requireModule : string -> outcome value.
(** The rendering engine: component and props to markup. *)
Variable renderToString : value -> value -> outcome string.
Variable jsonStringify : value -> string.
(** The diagnostic overlay for a message and an offending file. *)
Variable generateErrorOverlayHTML : string -> string -> string.

Definition existsSync (p : string) : bool :=
  match statMtime p with Some _ => true | None => false end.

Definition bundleServer (entryPoint outfile : string) (sourcemap : bool) : eff unit :=
  Eff.call (BundleServer entryPoint outfile sourcemap) (bundler entryPoint outfile sourcemap).

Definition require (file : string) : eff value :=
  Eff.call (RequireModule file) (requireModule file).

(** [safeBundleApi] of [handleApiRoute]. *)
Definition safeBundleApi (entry outfile : string) : eff unit :=
  Eff.tryCatch (bundleServer entry outfile true) (fun err =>
    if isDiskSpaceError (errorMessage err) then
      _ ← Eff.emit WipeTempDir; bundleServer entry outfile false
    else Eff.throw err).

(** [safeBundleServer] of [handlePageRoute]. *)
Definition safeBundleServer (entry outfile : string) : eff unit :=
  Eff.tryCatch (bundleServer entry outfile true) (fun err =>
    if isDiskSpaceError (errorMessage err) then
      _ ← Eff.emit WipeTempDir; bundleServer entry outfile false
    else Eff.throw err).

(** [needsBundle] of [handleApiRoute]; a failing [statSync] is swallowed. *)
Definition needsBundle (component compiledApiPath : string) : bool :=
  if existsSync compiledApiPath then
    match statMtime component, statMtime compiledApiPath with
    | Some srcMtime, Some outMtime => negb (outMtime >=? srcMtime)%Z
    | _, _ => true
    end
  else true.

(** [handleApiRoute], up to [ApiModule = require(compiledApiPath)];
    [None] when the failure response has been sent. *)
Definition loadApiModule (route : Route) : eff (option value) :=
  let compiledApiPath := Artifact.compiledApiPath root tempDir (component route) in
  Eff.tryCatch
    (_ ← (if needsBundle (component route) compiledApiPath
          then safeBundleApi (component route) compiledApiPath
          else mret tt);
     ApiModule ← require compiledApiPath;
     mret (Some ApiModule))
    (fun err =>
       let message :=
         if isDiskSpaceError (errorMessage err)
         then "API bundling failed: not enough disk space. Free disk space or delete .satset/temp"
         else "API bundling failed" in
       _ ← Eff.emit (WriteHead 500 {[ "Content-Type" := "application/json" ]});
       _ ← Eff.emit (End (Some (jsonStringify
              (Obj [("error", Obj [("code", Num 500); ("message", Str message)]);
                    ("file", Str (component route))]))));
       mret None).

(** [handleApiRoute], up to the choice of the export to call; [None]
    when a response has been sent. *)
Definition handleApiRoute (route : Route) (reqMethod : option string)
  : eff (option handlerChoice) :=
  loaded ← loadApiModule route;
  match loaded with
  | None => mret None
  | Some ApiModule =>
      match chooseHandler ApiModule reqMethod with
      | MethodNotAllowed =>
          _ ← Eff.emit (WriteHead 405 {[ "Content-Type" := "application/json" ]});
          _ ← Eff.emit (End (Some (jsonStringify
                 (Obj [("error", Obj [("code", Num 405);
                                      ("message", Str "Method not allowed")])]))));
          mret None
      | choice => mret (Some choice)
      end
  end.

(** [handlePageRoute], from [compiledServerPath] up to
    [PageModule = require(compiledServerPath)]; [None] when the overlay
    has been sent. *)
Definition loadPageModule (route : Route) : eff (option value) :=
  let compiledServerPath := Artifact.compiledServerPath tempDir (component route) in
  Eff.tryCatch
    (_ ← safeBundleServer (component route) compiledServerPath;
     PageModule ← require compiledServerPath;
     mret (Some PageModule))
    (fun err =>
       let message :=
         if isDiskSpaceError (errorMessage err)
         then "SSR bundling failed: not enough disk space. Try freeing disk space or deleting the .satset/temp folder."
         else "SSR bundling failed" in
       _ ← Eff.emit (WriteHead 500 {[ "Content-Type" := "text/html" ]});
       _ ← Eff.emit (End (Some (generateErrorOverlayHTML message (component route))));
       mret None).

(** [renderComponentToHtml(Comp, props)]. *)
Definition renderComponentToHtml (Comp props : value) : eff string :=
  if negb (Val.isTruthy Comp) || negb (Val.isFunction Comp)
  then Eff.throw (Val.error "Invalid component to render" [])
  else Eff.call (RenderToHtml Comp props) (renderToString Comp props).

Definition notFoundLiteral : string := "<h1>404 - Page Not Found</h1>".

(** The [catch (err)] block around the render in [handlePageRoute]. *)
Definition onRenderError (route : Route) (allRoutes : list Route)
  (initialParams : value) (err : value) : eff renderStep :=
  if Val.isTruthy (Val.and err (Val.get err "__SATSET_REDIRECT")) then
    let info := Val.get err "__SATSET_REDIRECT" in
    let url := match Val.get info "url" with
               | Str u => if Js.nonEmpty u then u else "/"
               | _ => "/"
               end in
    let status := match Val.get info "status" with
                  | Num z => z
                  | _ => 307%Z
                  end in
    let sat := Response.redirect url (Some status) in
    _ ← Response.sendSatsetResponse jsonStringify sat;
    mret Responded
  else if Val.isTruthy (Val.and err (Val.get err "__SATSET_NOT_FOUND")) then
    let errorPayload := Obj [("code", Num 404); ("message", Str "Page not found")] in
    pageHTML ← Eff.tryCatch
      (match orElse (findRoute allRoutes "/404") (findRoute allRoutes "/not-found") with
       | Some nf =>
           if Js.nonEmpty (component nf) then
             let nfBase := Artifact.stripExtension (Artifact.basename (component nf)) in
             let nfCompiled := pathJoin tempDir (nfBase +:+ ".notfound.server.js") in
             _ ← bundleServer (component nf) nfCompiled true;
             NfModule ← require nfCompiled;
             let NfComp := defaultComponent NfModule in
             if Val.isTruthy NfComp then
               renderComponentToHtml NfComp
                 (Obj [("params", initialParams); ("error", errorPayload)])
             else mret notFoundLiteral
           else mret notFoundLiteral
       | None => mret notFoundLiteral
       end)
      (fun _ => mret notFoundLiteral);
    mret (Page 404 pageHTML)
  else
    let statusCode := statusCodeOf err in
    let errorPayload :=
      Obj [("code", Num statusCode);
           ("message",
            if Val.isTruthy (Val.and err (Val.get err "message"))
            then Val.get err "message"
            else Str (if (statusCode =? 404)%Z then "Page not found" else "Server error"))] in
    let errorRoute := errorRouteFor (candidatePaths statusCode) allRoutes in
    Eff.tryCatch
      (match errorRoute with
       | Some er =>
           if Js.nonEmpty (component er) then
             let erBase := Artifact.stripExtension (Artifact.basename (component er)) in
             let erCompiled := pathJoin tempDir (erBase +:+ ".error.server.js") in
             _ ← bundleServer (component er) erCompiled true;
             ErModule ← require erCompiled;
             let ErComp := defaultComponent ErModule in
             if Val.isTruthy ErComp then
               pageHTML ← renderComponentToHtml ErComp
                            (Obj [("error", errorPayload); ("reset", Fun 0 0)]);
               mret (Page statusCode pageHTML)
             else Eff.throw err
           else Eff.throw err
       | None => Eff.throw err
       end)
      (fun _ =>
         _ ← Eff.emit (WriteHead 500 {[ "Content-Type" := "text/html" ]});
         _ ← Eff.emit (End (Some (generateErrorOverlayHTML (overlayMessage err)
                                                           (component route))));
         mret Responded).

(** The [try]/[catch] around the render in [handlePageRoute]: [attempt]
    is the [try] block (layouts, page component, rendering engine), which
    returns the page markup or throws. *)
Definition renderOrRecover (route : Route) (allRoutes : list Route)
  (initialParams : value) (attempt : eff string) : eff renderStep :=
  Eff.tryCatch (pageHTML ← attempt; mret (Page 200 pageHTML))
               (onRenderError route allRoutes initialParams).

End Collaborators.

End Server.

(** ** Sample projects used to exercise the definitions *)

Module Examples.

Import Router.

(** [src/app/blog/[slug]/page.tsx], as pushed by the page scan. *)
Definition blogSlug : Route :=
  {| path := "/blog/:slug"; component := "/p/src/app/blog/[slug]/page.tsx";
     exact := Some false; dynamic := Some true; params := Some ["slug"];
     catchAllOptional := Some false |}.

(** [src/app/blog/featured/page.tsx], as pushed by the page scan. *)
Definition blogFeatured : Route :=
  {| path := "/blog/featured"; component := "/p/src/app/blog/featured/page.tsx";
     exact := Some true; dynamic := Some false; params := Some [];
     catchAllOptional := Some false |}.

(** [src/app/api/users/route.ts]. *)
Definition apiTree : list entry := [Dir "users" [File "route.ts"]].

Definition apiUsers : Route :=
  {| path := "/api/users"; component := "/p/src/app/api/users/route.ts";
     exact := None; dynamic := Some false; params := Some [];
     catchAllOptional := None |}.

(** [src/app/404.tsx], as pushed by the page scan. *)
Definition page404 : Route :=
  {| path := "/404"; component := "/p/src/app/404.tsx";
     exact := Some true; dynamic := None; params := None;
     catchAllOptional := None |}.

(** [src/app/page.tsx] and [src/app/about/page.tsx]. *)
Definition homePage : Route :=
  {| path := "/"; component := "/p/src/app/page.tsx";
     exact := Some true; dynamic := Some false; params := Some [];
     catchAllOptional := Some false |}.

Definition aboutPage : Route :=
  {| path := "/about"; component := "/p/src/app/about/page.tsx";
     exact := Some true; dynamic := Some false; params := Some [];
     catchAllOptional := Some false |}.

(** A handler module with [export function GET] and [export default]. *)
Definition getAndDefault : value :=
  Obj [("GET", Fun 1 1); ("default", Fun 2 1)].

(** A project directory and its artifact directory. *)
Definition root : string := "/p".
Definition tempDir : string := "/p/.satset/temp".

(** A file system in which the artifact of the about page is newer than
    its source. *)
Definition freshStat (p : string) : option Z :=
  if String.eqb p (component aboutPage) then Some 100%Z
  else if String.eqb p (Artifact.compiledServerPath tempDir (component aboutPage))
  then Some 200%Z
  else if String.eqb p (component apiUsers) then Some 100%Z
  else if String.eqb p (Artifact.compiledApiPath root tempDir (component apiUsers))
  then Some 100%Z
  else None.

(** Collaborators that always succeed. *)
Definition okBundler (entryPoint outfile : string) (sourcemap : bool) : outcome unit :=
  Returns tt.
Definition emptyModule (file : string) : outcome value := Returns (Obj []).
Definition noMarkup (comp props : value) : outcome string := Returns "".
Definition noJson (v : value) : string := "".
Definition noOverlay (message file : string) : string := "".


End Examples.

(** ** Page discovery ([src/router/file-system.ts]) *)

Module Discovery.

Import Router.

(** The [type] argument of [scanDirectory]. *)
Inductive routerType : Type :=
| AppRouter
| PagesRouter.

(** [s.replace(pat, rep)] for a string pattern: the first occurrence only. *)
Fixpoint replaceFirst (s pat rep : string) : string :=
  if String.prefix pat s then rep +:+ Js.sliceFrom (String.length pat) s
  else match s with
       | EmptyString => EmptyString
       | String a s' => String a (replaceFirst s' pat rep)
       end.

(** [file.replace(/\.(tsx|jsx|ts|js)$/, '')]. *)
Definition stripSourceExt (file : string) : string :=
  if Js.endsWith file ".tsx" || Js.endsWith file ".jsx"
  then substring 0 (String.length file - 4) file
  else if Js.endsWith file ".ts" || Js.endsWith file ".js"
  then substring 0 (String.length file - 3) file
  else file.

Definition isUtilityFolder (file : string) : bool :=
  String.eqb file "lib" || String.eqb file "styles"
  || String.eqb file "assets" || String.eqb file "types".

Definition isPageFile (file : string) : bool :=
  String.eqb file "page.tsx" || String.eqb file "page.jsx"
  || String.eqb file "page.ts" || String.eqb file "page.js".

Definition isNotFoundFile (file : string) : bool :=
  String.eqb file "not-found.tsx" || String.eqb file "not-found.jsx"
  || String.eqb file "not-found.ts" || String.eqb file "not-found.js"
  || String.eqb file "404.tsx" || String.eqb file "404.jsx"
  || String.eqb file "404.ts" || String.eqb file "404.js".

(** The route pushed for a [page.*] file found under [prefix]. *)
Definition pageRoute (prefix fullPath : string) : Route :=
  let routePath0 := if negb (Js.nonEmpty prefix) then "/" else prefix in
  let optional := Js.includes routePath0 "/*?" in
  let routePath := if optional then replaceFirst routePath0 "/*?" "/*" else routePath0 in
  let isDynamic := Js.includesChar routePath ":" || Js.includesChar routePath "*" in
  {| path := routePath; component := fullPath; exact := Some (negb isDynamic);
     dynamic := Some isDynamic; params := Some (extractParams routePath);
     catchAllOptional := Some optional |}.

(** The route pushed for a source file of a pages-style directory. *)
Definition pagesFileRoute (prefix fullPath file : string) : Route :=
  let fileName := stripSourceExt file in
  if Js.startsWith fileName "[" && Js.endsWith fileName "]"
     && negb (Js.startsWith fileName "[...") then
    let paramName := Js.sliceBetween 1 1 fileName in
    {| path := prefix +:+ "/:" +:+ paramName; component := fullPath;
       exact := Some false; dynamic := Some true; params := Some [paramName];
       catchAllOptional := None |}
  else if Js.startsWith fileName "[..." && Js.endsWith fileName "]" then
    let paramName := Js.sliceBetween 4 1 fileName in
    {| path := prefix +:+ "/*" +:+ paramName; component := fullPath;
       exact := Some false; dynamic := Some true; params := Some [paramName];
       catchAllOptional := None |}
  else if Js.startsWith fileName "[[..." && Js.endsWith fileName "]]" then
    let paramName := Js.sliceBetween 5 2 fileName in
    {| path := prefix +:+ "/*" +:+ paramName; component := fullPath;
       exact := Some false; dynamic := Some true; params := Some [paramName];
       catchAllOptional := Some true |}
  else
    let routePath := prefix +:+ "/" +:+ fileName in
    {| path := if String.eqb routePath "/index" then "/" else routePath;
       component := fullPath; exact := Some true; dynamic := None; params := None;
       catchAllOptional := None |}.

(** Both arrays that [scanDirectory] pushes onto: page routes and API routes. *)
Definition found : Type := (list Route * list Route)%type.

Definition both (a b : found) : found := (fst a ++ fst b, snd a ++ snd b).

Definition collect {A} (f : A -> found) (l : list A) : found :=
  fold_right (fun x acc => both (f x) acc) ([], []) l.

(** The body of the [for] loop of [scanDirectory] for one entry of [dir]. *)
Fixpoint scanEntry (type : routerType) (dir prefix : string) (e : entry) : found :=
  match e with
  | Dir file children =>
      let fullPath := pathJoin dir file in
      if isUtilityFolder file then ([], [])
      else if String.eqb file "api" then ([], scanApiDirectory fullPath "/api" children)
      else if Js.startsWith file "(" && Js.endsWith file ")" then
        fold_right (fun x acc => both (scanEntry type fullPath prefix x) acc) ([], []) children
      else if Js.startsWith file "[[..." && Js.endsWith file "]]" then
        let newPrefix := prefix +:+ "/*?" +:+ Js.sliceBetween 5 2 file in
        fold_right (fun x acc => both (scanEntry type fullPath newPrefix x) acc) ([], []) children
      else if Js.startsWith file "[..." && Js.endsWith file "]" then
        let newPrefix := prefix +:+ "/*" +:+ Js.sliceBetween 4 1 file in
        fold_right (fun x acc => both (scanEntry type fullPath newPrefix x) acc) ([], []) children
      else if Js.startsWith file "[" && Js.endsWith file "]" then
        let newPrefix := prefix +:+ "/:" +:+ Js.sliceBetween 1 1 file in
        fold_right (fun x acc => both (scanEntry type fullPath newPrefix x) acc) ([], []) children
      else
        let newPrefix := prefix +:+ "/" +:+ file in
        fold_right (fun x acc => both (scanEntry type fullPath newPrefix x) acc) ([], []) children
  | File file =>
      let fullPath := pathJoin dir file in
      if isPageFile file then ([pageRoute prefix fullPath], [])
      else if isNotFoundFile file then
        ([ {| path := prefix +:+ "/" +:+ Js.before "." file; component := fullPath;
              exact := Some true; dynamic := None; params := None;
              catchAllOptional := None |} ], [])
      else
        match type with
        | PagesRouter =>
            if (Js.endsWith file ".tsx" || Js.endsWith file ".jsx"
                || Js.endsWith file ".ts" || Js.endsWith file ".js")
               && negb (Js.startsWith file "_") && negb (Js.endsWith file ".d.ts")
            then ([pagesFileRoute prefix fullPath file], [])
            else ([], [])
        | AppRouter => ([], [])
        end
  end.

Definition scanDirectory (type : routerType) (dir prefix : string) (files : list entry) : found :=
  collect (scanEntry type dir prefix) files.

(** The entry called [name] of a listing, if any. *)
Definition child (name : string) (files : list entry) : option entry :=
  List.find (fun e => match e with
                      | File n | Dir n _ => String.eqb n name
                      end) files.

(** [fs.readdirSync] on a path that is not a directory. *)
Definition notADirectory : value :=
  Val.error "ENOTDIR: not a directory, scandir" [("code", Str "ENOTDIR")].

(** [scanDirectory] on the entry [name] of [files], when it exists. *)
Definition scanChild (type : routerType) (parent name : string) (files : list entry)
  (acc : found) : outcome found :=
  match child name files with
  | None => Returns acc
  | Some (File _) => Throws notADirectory
  | Some (Dir _ children) =>
      Returns (both acc (scanDirectory type (pathJoin parent name) "" children))
  end.

(** [getRoutes(appDir)]: [src] is the listing of [appDir/src], [None] when
    that directory does not exist. *)
Definition getRoutes (appDir : string) (src : option (list entry)) : outcome found :=
  match src with
  | None => Returns ([], [])
  | Some files =>
      let srcPath := pathJoin appDir "src" in
      match scanChild AppRouter srcPath "app" files ([], []) with
      | Throws e => Throws e
      | Returns afterApp =>
          match scanChild PagesRouter srcPath "pages" files afterApp with
          | Throws e => Throws e
          | Returns afterPages =>
              match fst afterPages with
              | [] => Returns (both afterPages (scanDirectory PagesRouter srcPath "" files))
              | _ :: _ => Returns afterPages
              end
          end
      end
  end.

(** A scan prefix is empty or begins with a slash. *)
Definition rooted (prefix : string) : Prop :=
  prefix = EmptyString \/ Js.startsWith prefix "/" = true.

End Discovery.

(** ** Client-side parameters (router hooks, [src/router/file-system.ts]) *)

Module Client.

Import Router.

(** The [for] loop of [parseParamsFromPath] over [window.__SATSET_ROUTES__];
    its inner loop over the segments is the one of [matchDynamicRoute]. *)
Fixpoint parseLoop (pathSegments : list string) (queryParams : Params)
  (routePaths : list string) : outcome Params :=
  match routePaths with
  | [] => Returns queryParams
  | routePath :: routePaths' =>
      let routeSegments := segmentsOf routePath in
      if Js.includesChar routePath "*" then
        match Js.findIndex (fun s => Js.startsWith s "*") routeSegments with
        | None => Throws typeErrorSlice
        | Some catchIndex =>
            match nth_error routeSegments catchIndex with
            | None => Throws typeErrorSlice
            | Some segment =>
                Returns (Js.setProperty (Js.sliceFrom 1 segment)
                           (Js.join "/" (skipn catchIndex pathSegments)) (∅ : Params)
                         ∪ queryParams)
            end
        end
      else if negb (List.length routeSegments =? List.length pathSegments)%nat
      then parseLoop pathSegments queryParams routePaths'
      else
        match bindSegments routeSegments pathSegments ∅ with
        | Some params => Returns (params ∪ queryParams)
        | None => parseLoop pathSegments queryParams routePaths'
        end
  end.

(** [parseParamsFromPath(path)]: [queryParams] are the entries of
    [window.location.search], [routePaths] is [window.__SATSET_ROUTES__]
    when it is an array. The result is [{...queryParams, ...params}]. *)
Definition parseParamsFromPath (path : string) (queryParams : Params)
  (routePaths : option (list string)) : outcome Params :=
  match routePaths with
  | None => Returns queryParams
  | Some routePaths => parseLoop (segmentsOf path) queryParams routePaths
  end.

(** A route path seen as a dynamic route of the server's table. *)
Definition asDynamicRoute (routePath : string) : Route :=
  {| path := routePath; component := ""; exact := None; dynamic := Some true;
     params := None; catchAllOptional := None |}.

End Client.

(** ** Request parsing ([src/server/dev.ts]) *)

Module Request.

(** White space removed by [String.prototype.trim], among the 8-bit
    characters. *)
Definition isSpace (a : ascii) : bool :=
  let n := nat_of_ascii a in
  ((9 <=? n) && (n <=? 13) || (n =? 32) || (n =? 160))%nat.

Fixpoint trimStart (s : string) : string :=
  match s with
  | EmptyString => EmptyString
  | String a s' => if isSpace a then trimStart s' else s
  end.

Fixpoint trimEnd (s : string) : string :=
  match s with
  | EmptyString => EmptyString
  | String a s' =>
      match trimEnd s' with
      | EmptyString => if isSpace a then EmptyString else String a EmptyString
      | t => String a t
      end
  end.

(** [s.trim()]. *)
Definition trim (s : string) : string := trimEnd (trimStart s).

(** [s.indexOf(c)]; [None] stands for [-1]. *)
Fixpoint indexOf (s : string) (c : ascii) : option nat :=
  match s with
  | EmptyString => None
  | String a s' => if Ascii.eqb a c then Some 0%nat else option_map S (indexOf s' c)
  end.

(** [accept.match(/^[a-zA-Z]{2}(?:-[a-zA-Z]{2})?/)]: the matched text. *)
Definition localePrefix (accept : string) : option string :=
  match accept with
  | String a (String b rest) =>
      if Js.isAlpha a && Js.isAlpha b then
        match rest with
        | String d (String e (String f _)) =>
            if Ascii.eqb d "-" && Js.isAlpha e && Js.isAlpha f
            then Some (String a (String b (String d (String e (String f EmptyString)))))
            else Some (String a (String b EmptyString))
        | _ => Some (String a (String b EmptyString))
        end
      else None
  | _ => None
  end.

(** The locale and routed path computed by the request handler of
    [startDevServer] from the raw path, the parsed cookies and the
    [accept-language] header. *)
Definition detectLocale (rawPath : string) (cookieStore : option (gmap string string))
  (acceptLanguage : option string) : string * string :=
  let fromCookieOrHeader :=
    match match cookieStore with
          | Some store => match store !! "SATSET_LANG" with
                          | Some lang => if Js.nonEmpty lang then Some lang else None
                          | None => None
                          end
          | None => None
          end
    with
    | Some lang => lang
    | None =>
        match acceptLanguage with
        | Some header =>
            if Js.nonEmpty header then
              let accept := trim (Js.before "," header) in
              match localePrefix accept with
              | Some matched => matched
              | None => "en-US"
              end
            else "en-US"
        | None => "en-US"
        end
    end in
  match Router.segmentsOf rawPath with
  | firstSegment :: _ =>
      if Locale.localePattern firstSegment
      then (firstSegment, Locale.stripLocaleFromPath rawPath)
      else (fromCookieOrHeader, rawPath)
  | [] => (fromCookieOrHeader, rawPath)
  end.

(** One iteration of the loop of [parseRequestCookies]. *)
Definition cookiePart (decodeURIComponent : string -> outcome string)
  (store : gmap string string) (part : string) : gmap string string :=
  let trimmed := trim part in
  if negb (Js.nonEmpty trimmed) then store
  else
    match indexOf trimmed "=" with
    | None => store
    | Some eqIndex =>
        let name := trim (substring 0 eqIndex trimmed) in
        if negb (Js.nonEmpty name) then store
        else
          let value := trim (Js.sliceFrom (eqIndex + 1) trimmed) in
          match decodeURIComponent value with
          | Returns decoded => Js.setProperty name decoded store
          | Throws _ => Js.setProperty name value store
          end
    end.

(** [parseRequestCookies(req)] for the [cookie] header, [None] when the
    header is not a string. *)
Definition parseRequestCookies (decodeURIComponent : string -> outcome string)
  (header : option string) : option (gmap string string) :=
  match header with
  | None => None
  | Some header =>
      if negb (Js.nonEmpty header) then None
      else Some (fold_left (cookiePart decodeURIComponent) (Js.split ";" header) ∅)
  end.

End Request.

(** ** Middleware ([src/server/dev.ts]) *)

Module Middleware.

Import Router Server.

Definition candidates : list string :=
  ["middleware.ts"; "middleware.tsx"; "middleware.js"; "middleware.jsx"].

(** The pass-through test of [runMiddleware] on a [SatsetResponse]. *)
Definition isNext (result : Response.SatsetResponse) : bool :=
  (Response.status result =? 204)%Z
  && negb (Response.hasHeader (Response.headers result) "Location")
  && negb (Response.hasHeader (Response.headers result) "X-Satset-Rewrite")
  && Val.isNullish (Response.body result).

(** The function of the middleware module that is called. *)
Definition middlewareFunction (mod_ : value) : value :=
  Val.and mod_
    (if Val.isFunction (Val.get mod_ "middleware") then Val.get mod_ "middleware"
     else if Val.isFunction (Val.get mod_ "default") then Val.get mod_ "default"
     else Null).

Section Collaborators.

Variables root tempDir : string.
Variable statMtime : string -> option Z.
Variable bundler : string -> string -> bool -> outcome unit.
Variable requireModule : string -> outcome value.
Variable jsonStringify : value -> string.
Variable generateErrorOverlayHTML : string -> string -> string.
(** Calling the middleware function on the request: it throws, returns a
    [SatsetResponse] instance, or returns anything else ([None]). *)
Variable invoke : value -> outcome (option Response.SatsetResponse).

(** [safeBundle] of [runMiddleware]. *)
Definition safeBundle (entry outfile : string) : eff unit :=
  Eff.tryCatch (bundleServer bundler entry outfile true) (fun err =>
    if isDiskSpaceError (errorMessage err) then
      _ ← Eff.emit WipeTempDir; bundleServer bundler entry outfile false
    else Eff.throw err).

(** [runMiddleware]: the result tells whether the request has been
    answered. A thrown [null] or [undefined] makes the reading of
    [err.stack] in the handler throw, which the outer [catch] turns into
    [false]. *)
Definition runMiddleware : eff bool :=
  match List.find (existsSync statMtime) (map (pathJoin root) candidates) with
  | None => mret false
  | Some srcPath =>
      let baseName := Artifact.stripExtension (Artifact.basename srcPath) in
      let compiledPath := pathJoin tempDir (baseName +:+ ".middleware.server.js") in
      Eff.tryCatch
        (_ ← safeBundle srcPath compiledPath;
         mod_ ← require requireModule compiledPath;
         let fn := middlewareFunction mod_ in
         if negb (Val.isTruthy fn) then mret false
         else
           result ← (([], invoke fn) : eff (option Response.SatsetResponse));
           match result with
           | Some satRes =>
               if isNext satRes then mret false
               else _ ← Response.sendSatsetResponse jsonStringify satRes; mret true
           | None => mret false
           end)
        (fun err =>
           if Val.isNullish err then mret false
           else
             _ ← Eff.emit (WriteHead 500 {[ "Content-Type" := "text/html" ]});
             _ ← Eff.emit (End (Some (generateErrorOverlayHTML (errorMessage err) srcPath)));
             mret true)
  end.

End Collaborators.

End Middleware.

(** ** Cookies ([src/core/response.ts], [src/server/response.ts]) *)

Module Cookies.


Section Encoding.

Variable encodeURIComponent : string -> string.



(** [response.cookies.delete(name, opts)]. *)
Definition responseDelete (satRes : Response.SatsetResponse) (name : string)
  (path : option string) : Response.SatsetResponse :=
  {| Response.body := Response.body satRes;
     Response.status := Response.status satRes;
     Response.headers :=
       <["Set-Cookie" :=
           Js.join "; " ([name +:+ "="; "Max-Age=0"]
                         ++ match path with
                            | Some p => if Js.nonEmpty p then ["Path=" +:+ p] else []
                            | None => []
                            end)]> (Response.headers satRes) |}.





End Encoding.

End Cookies.

(** ** Error overlay ([src/server/error-overlay.ts]) *)

Module Overlay.

(** The double quote character. *)
Definition dquote : ascii := Eval cbv in ascii_of_nat 34.

(** [s.replace(/c/g, rep)] for a one-character pattern. *)
Fixpoint replaceAll (c : ascii) (rep : string) (s : string) : string :=
  match s with
  | EmptyString => EmptyString
  | String a s' =>
      if Ascii.eqb a c then rep +:+ replaceAll c rep s'
      else String a (replaceAll c rep s')
  end.

Definition escapeHtml (text : string) : string :=
  replaceAll "'" "&#039;"
    (replaceAll dquote "&quot;"
       (replaceAll ">" "&gt;"
          (replaceAll "<" "&lt;"
             (replaceAll "&" "&amp;" text)))).

(** [arr.slice(start, end)] with integral arguments. *)
Definition slice {A} (l : list A) (start finish : Z) : list A :=
  let len := Z.of_nat (List.length l) in
  let k := if (start <? 0)%Z then Z.max (len + start) 0 else Z.min start len in
  let final := if (finish <? 0)%Z then Z.max (len + finish) 0 else Z.min finish len in
  firstn (Z.to_nat (final - k)) (skipn (Z.to_nat k) l).

(** [extractCodeSnippet(filePath, errorLine, context)]: [content] is the
    text of the file, [None] when it cannot be read. *)
Definition extractCodeSnippet (content : option string) (errorLine context : Z)
  : list string :=
  match content with
  | None => []
  | Some content =>
      let lines := Js.split (ascii_of_nat 10) content in
      let start := Z.max 0 (errorLine - context) in
      let finish := Z.min (Z.of_nat (List.length lines)) (errorLine + context) in
      slice lines start finish
  end.

(** [generateErrorOverlayHTML]: the line number printed beside the entry
    [idx] of the snippet [code] for the error line [line]. *)
Definition lineNum (line : Z) (codeLength : nat) (idx : nat) : Z :=
  (line - Z.of_nat (codeLength / 2) + Z.of_nat idx)%Z.

End Overlay.

(** ** Exports of a page module ([src/server/dev.ts]) *)

Module PageExports.

(** The first own property that holds a function, in the order of
    [Object.keys]: insertion order, for keys that are not array indices. *)
Fixpoint firstFunction (fields : list (string * value)) : value :=
  match fields with
  | [] => Null
  | (_, v) :: fields' => if Val.isFunction v then v else firstFunction fields'
  end.

(** [resolveExportedComponent(mod)] of [handlePageRoute]. *)
Definition resolveExportedComponent (mod_ : value) : value :=
  if negb (Val.isTruthy mod_) then Null
  else if Val.isFunction mod_ then mod_
  else
    match mod_ with
    | Obj fields =>
        if Val.isFunction (Val.get mod_ "default") then Val.get mod_ "default"
        else if Val.isTruthy (Val.get mod_ "default")
                && (match Val.get mod_ "default" with Obj _ => true | _ => false end)
                && Val.isFunction (Val.get (Val.get mod_ "default") "default")
        then Val.get (Val.get mod_ "default") "default"
        else firstFunction fields
    | _ => Null
    end.

End PageExports.

(** ** Rendering a page ([src/server/dev.ts]) *)

Module PageRender.

Import Router Server.

(** [LayoutComp] of the layout loop: the module itself, its default
    export, or its first exported function. *)
Definition layoutComponent (LayoutModule : value) : value :=
  if Val.isFunction LayoutModule then LayoutModule
  else
    match LayoutModule with
    | Obj fields =>
        if Val.isFunction (Val.get LayoutModule "default")
        then Val.get LayoutModule "default"
        else PageExports.firstFunction fields
    | _ => Null
    end.

Section Collaborators.

Variable tempDir : string.
Variable bundler : string -> string -> bool -> outcome unit.
Variable requireModule : string -> outcome value.
Variable renderToString : value -> value -> outcome string.
Variable jsonStringify : value -> string.
Variable generateErrorOverlayHTML : string -> string -> string.
(** The hex digest computed by [crypto.createHash('md5')]. *)
Variable md5hex : string -> string.
(** [React.createElement(type, props, child)]. *)
Variable createElement : value -> value -> option value -> value.
(** [Comp.constructor && Comp.constructor.name === 'AsyncFunction']. *)
Variable isAsyncFunction : value -> bool.
(** [await Promise.resolve(Comp(props))] for an async component. *)
Variable callComponent : value -> value -> outcome value.
(** The provider component and the dictionaries handed to it. *)
Variables I18nProvider dictionaries : value.
(** The diagnostic page for a module without a component. *)
Variable diagHtml : string.

(** The layout loop of [handlePageRoute] over [layoutFiles], the result of
    [findLayoutFiles(pageDir)]: what it does, and the array [layouts]
    afterwards. A failure of the compiler or of [require] is caught around
    the loop: the layouts pushed so far are kept. *)
Fixpoint loadLayouts (layoutFiles : list string) (layouts : list value)
  : list effect * list value :=
  match layoutFiles with
  | [] => ([], layouts)
  | layoutFile :: layoutFiles' =>
      let layoutCompiled := Artifact.layoutCompiled md5hex tempDir layoutFile in
      match bundler layoutFile layoutCompiled true with
      | Throws _ => ([BundleServer layoutFile layoutCompiled true], layouts)
      | Returns _ =>
          match requireModule layoutCompiled with
          | Throws _ =>
              ([BundleServer layoutFile layoutCompiled true; RequireModule layoutCompiled],
               layouts)
          | Returns LayoutModule =>
              let LayoutComp := layoutComponent LayoutModule in
              let '(t, final) :=
                loadLayouts layoutFiles'
                  (if Val.isTruthy LayoutComp then layouts ++ [LayoutComp] else layouts) in
              (BundleServer layoutFile layoutCompiled true
               :: RequireModule layoutCompiled :: t, final)
          end
      end
  end.

(** The props of the page component and of a layout. *)
Definition pageProps (initialParams : value) : value :=
  Obj [("params", initialParams); ("searchParams", Obj [])].

Definition layoutProps (initialParams : value) (locale : string) : value :=
  Obj [("params", initialParams); ("locale", Str locale)].

(** [appElement]: the page node wrapped in the layouts, the first layout
    outermost. *)
Definition appElement (layouts : list value) (initialParams : value) (locale : string)
  (pageNode : value) : value :=
  fold_right (fun layout inner =>
                createElement layout (layoutProps initialParams locale) (Some inner))
             pageNode layouts.

(** The element that [Wrapper] returns. [Wrapper] is a synchronous
    function made by the handler, so [renderComponentToHtml(Wrapper)] is
    one call of the rendering engine on it; the call is recorded with this
    element and the empty props. *)
Definition wrapperElement (locale : string) (app : value) : value :=
  createElement I18nProvider
    (Obj [("initialLocale", Str locale); ("dictionaries", dictionaries)]) (Some app).

(** The [try] block of the render, after the check of the component:
    layouts, page node, rendering. An async page component is called by the
    handler; a synchronous one only becomes an element here and runs when
    the rendering engine renders it. *)
Definition pageMarkup (PageComponent initialParams : value) (locale : string)
  (layoutFiles : list string) : eff string :=
  let '(loaded, layouts) := loadLayouts layoutFiles [] in
  _ ← ((loaded, Returns tt) : eff unit);
  pageNode ← (([], if isAsyncFunction PageComponent
                   then callComponent PageComponent (pageProps initialParams)
                   else Returns (createElement PageComponent (pageProps initialParams) None))
              : eff value);
  let app := wrapperElement locale (appElement layouts initialParams locale pageNode) in
  Eff.call (RenderToHtml app (Obj [])) (renderToString app (Obj [])).

(** The render of [handlePageRoute], from the check of the resolved
    component to the end of the [catch] block. *)
Definition renderPage (route : Route) (allRoutes : list Route)
  (initialParams : value) (locale : string) (PageComponent : value)
  (layoutFiles : list string) : eff renderStep :=
  if negb (Val.isTruthy PageComponent) || negb (Val.isFunction PageComponent) then
    _ ← Eff.emit (WriteHead 500 {[ "Content-Type" := "text/html" ]});
    _ ← Eff.emit (End (Some diagHtml));
    mret Responded
  else
    renderOrRecover tempDir bundler requireModule renderToString jsonStringify
      generateErrorOverlayHTML route allRoutes initialParams
      (pageMarkup PageComponent initialParams locale layoutFiles).

End Collaborators.

End PageRender.

(** ** Character classes of whole strings *)

Module Text.

(** Every character of [s] passes the test [p]. *)
Fixpoint allChars (p : ascii -> bool) (s : string) : bool :=
  match s with
  | EmptyString => true
  | String a s' => p a && allChars p s'
  end.

(** Letters, digits, the dash and the slash: the characters of a relative
    path of plainly named directories and files. *)
Definition plainChar (a : ascii) : bool :=
  Js.isAlpha a || Js.isDigit a || Ascii.eqb a "-" || Ascii.eqb a "/".

(** Letters and digits. *)
Definition alnum (a : ascii) : bool := Js.isAlpha a || Js.isDigit a.

(** The characters that [safeComponentKey] keeps. *)
Definition keyChar (a : ascii) : bool :=
  Js.isAlpha a || Js.isDigit a || Ascii.eqb a "_" || Ascii.eqb a "-".

End Text.

(** ** More sample data *)

Module Samples.

Import Router.

(** An app-style project: a home page, a not-found page, a route group with
    a dynamic blog page, an optional catch-all shop page, a utility folder
    and an API handler. *)
Definition appProject : list entry :=
  [Dir "app"
     [File "page.tsx"; File "not-found.tsx";
      Dir "(site)" [Dir "blog" [Dir "[slug]" [File "page.tsx"]]];
      Dir "shop" [Dir "[[...path]]" [File "page.tsx"]];
      Dir "lib" [File "page.tsx"];
      Dir "api" [Dir "users" [File "route.ts"]]]].

(** A flat project scanned in pages style. *)
Definition flatProject : list entry :=
  [File "index.tsx"; File "about.tsx"; File "_app.tsx";
   Dir "docs" [File "[...rest].tsx"; File "[[...x]].tsx"; File "[id].tsx"];
   Dir "api" [File "health.ts"]].


Definition decodeOk (s : string) : outcome string := Returns s.



(** A synchronous page that calls [redirect('/login')]: the signal is
    thrown while the rendering engine renders the page. *)
Definition syncPage : value := Fun 1 1.
Definition neverAsync (comp : value) : bool := false.
Definition redirectingEngine (comp props : value) : outcome string :=
  Throws (Navigation.redirect "/login" None).
Definition element (type props : value) (child : option value) : value :=
  Obj ([("type", type); ("props", props)]
       ++ match child with Some c => [("children", c)] | None => [] end).
Definition notCalled (comp props : value) : outcome value := Returns Undefined.
Definition noHash (s : string) : string := "".

End Samples.

(** ** The text of a [cookie] request header *)

Module CookieText.

(** A character of a cookie value sent unquoted: no white space and no
    semicolon. *)
Definition valueChar (a : ascii) : bool :=
  negb (Request.isSpace a) && negb (Ascii.eqb a ";").

(** A character of a cookie name: as for a value, and no equals sign. *)
Definition nameChar (a : ascii) : bool := valueChar a && negb (Ascii.eqb a "=").

(** [name=value]. *)
Definition pairText (p : string * string) : string := fst p +:+ "=" +:+ snd p.

(** The header a browser sends for the cookies [pairs]. *)
Definition header (pairs : list (string * string)) : string :=
  Js.join "; " (map pairText pairs).

(** [store[name] = decodeURIComponent(value)], with the raw value when the
    decoding throws. *)
Definition assign (decodeURIComponent : string -> outcome string)
  (store : gmap string string) (p : string * string) : gmap string string :=
  Js.setProperty (fst p)
    match decodeURIComponent (snd p) with
    | Returns decoded => decoded
    | Throws _ => snd p
    end store.

End CookieText.

(** * Properties *)

(** ** Assignment to a dictionary object *)

Section Assignment.

Implicit Types (key name v : string) (obj : gmap string string).

Lemma setProperty_insert key v obj :
  key <> "__proto__" -> Js.setProperty key v obj = <[key := v]> obj.
Proof.
  intros H. unfold Js.setProperty. now destruct (String.eqb_spec key "__proto__").
Qed.

Lemma setProperty_proto v obj : Js.setProperty "__proto__" v obj = obj.
Proof. reflexivity. Qed.

Lemma lookup_setProperty_ne key name v obj :
  key <> name -> Js.setProperty key v obj !! name = obj !! name.
Proof.
  intros H. unfold Js.setProperty. destruct (String.eqb key "__proto__"); [reflexivity|].
  now apply lookup_insert_ne.
Qed.

Lemma lookup_setProperty_eq key v obj :
  key <> "__proto__" -> Js.setProperty key v obj !! key = Some v.
Proof. intros H. rewrite (setProperty_insert _ _ _ H). apply lookup_insert_eq. Qed.

(** No assignment creates a property named [__proto__]. *)
Lemma lookup_setProperty_proto key v obj :
  Js.setProperty key v obj !! "__proto__" = obj !! "__proto__".
Proof.
  unfold Js.setProperty. destruct (String.eqb_spec key "__proto__") as [->|H];
    [reflexivity|]. now apply lookup_insert_ne.
Qed.

End Assignment.

(** ** Splitting and joining *)

Section SplitJoin.

Implicit Types (c d : ascii) (s t : string) (l : list string).

Import Js.

Lemma split_not_nil c s : Js.split c s <> [].
Proof.
  destruct s as [|a s]; simpl; [discriminate|].
  destruct (Ascii.eqb a c); [discriminate|].
  destruct (Js.split c s); discriminate.
Qed.

Lemma length_app s t : String.length (s +:+ t) = (String.length s + String.length t)%nat.
Proof. induction s as [|a s IH]; simpl; [reflexivity|]. now rewrite IH. Qed.

Lemma includesChar_app s t c :
  Js.includesChar (s +:+ t) c = Js.includesChar s c || Js.includesChar t c.
Proof.
  induction s as [|a s IH]; simpl; [reflexivity|].
  rewrite IH. now rewrite orb_assoc.
Qed.

(** The pieces of [s.split(d)] only hold characters of [s]. *)
Lemma split_lacks c d s : lacks c s -> Forall (lacks c) (Js.split d s).
Proof.
  unfold lacks. induction s as [|a s IH]; simpl; intros H.
  - constructor; [reflexivity|constructor].
  - apply orb_false_iff in H as [Ha Hs]. specialize (IH Hs).
    destruct (Ascii.eqb a d).
    + constructor; [reflexivity|assumption].
    + destruct (Js.split d s) as [|h t] eqn:E.
      * constructor; [simpl; now rewrite Ha|constructor].
      * inversion IH; subst. constructor; [simpl; rewrite Ha; assumption|assumption].
Qed.

(** The pieces of [s.split(c)] do not contain [c]. *)
Lemma split_lacks_sep c s : Forall (lacks c) (Js.split c s).
Proof.
  unfold lacks. induction s as [|a s IH]; simpl.
  - constructor; [reflexivity|constructor].
  - destruct (Ascii.eqb a c) eqn:Ea.
    + constructor; [reflexivity|assumption].
    + destruct (Js.split c s) as [|h t] eqn:E.
      * constructor; [simpl; now rewrite Ea|constructor].
      * inversion IH; subst. constructor; [simpl; rewrite Ea; assumption|assumption].
Qed.

Lemma split_without_sep c s : lacks c s -> Js.split c s = [s].
Proof.
  unfold lacks. induction s as [|a s IH]; simpl; intros H; [reflexivity|].
  apply orb_false_iff in H as [Ha Hs]. rewrite Ha, (IH Hs). reflexivity.
Qed.

Lemma split_app_sep c s t :
  lacks c s -> Js.split c (s +:+ String c t) = s :: Js.split c t.
Proof.
  unfold lacks. induction s as [|a s IH]; simpl; intros H.
  - now rewrite Ascii.eqb_refl.
  - apply orb_false_iff in H as [Ha Hs]. rewrite Ha, (IH Hs). reflexivity.
Qed.

Lemma before_lacks_sep c s : lacks c (Js.before c s).
Proof.
  unfold Js.before. pose proof (split_lacks_sep c s) as H.
  destruct (Js.split c s); [reflexivity|]. now inversion H.
Qed.

Lemma before_lacks c d s : lacks c s -> lacks c (Js.before d s).
Proof.
  intros Hs. unfold Js.before. pose proof (split_lacks c d s Hs) as H.
  destruct (Js.split d s); [reflexivity|]. now inversion H.
Qed.

Lemma before_without_sep c s : lacks c s -> Js.before c s = s.
Proof. intros H. unfold Js.before. now rewrite split_without_sep. Qed.

Lemma join_lacks c sep l :
  lacks c sep -> Forall (lacks c) l -> lacks c (Js.join sep l).
Proof.
  intros Hsep. induction 1 as [|x l Hx Hl IH]; [reflexivity|].
  unfold lacks, Js.join in *. simpl. destruct l as [|y l]; [assumption|].
  rewrite !includesChar_app, Hx, Hsep, IH. reflexivity.
Qed.

(** Splitting a joined list gives the list back. *)
Lemma split_join c l :
  l <> [] -> Forall (lacks c) l -> Js.split c (Js.join (String c EmptyString) l) = l.
Proof.
  intros Hne H. induction H as [|x l Hx Hl IH]; [congruence|].
  unfold Js.join in *. simpl. destruct l as [|y l].
  - now apply split_without_sep.
  - change (x +:+ String c EmptyString +:+ String.concat (String c EmptyString) (y :: l))
      with (x +:+ String c (String.concat (String c EmptyString) (y :: l))).
    rewrite split_app_sep by assumption. f_equal. apply IH. discriminate.
Qed.

Lemma filter_all {A} (p : A -> bool) (l : list A) :
  Forall (fun x => p x = true) l -> List.filter p l = l.
Proof. induction 1 as [|x l Hx _ IH]; simpl; [reflexivity|]. now rewrite Hx, IH. Qed.

Lemma filter_Forall {A} (p : A -> bool) (l : list A) :
  Forall (fun x => p x = true) (List.filter p l).
Proof.
  induction l as [|x l IH]; simpl; [constructor|].
  destruct (p x) eqn:E; [constructor; assumption|assumption].
Qed.

Lemma filter_keeps {A} (P : A -> Prop) (p : A -> bool) (l : list A) :
  Forall P l -> Forall P (List.filter p l).
Proof.
  induction 1 as [|x l Hx _ IH]; simpl; [constructor|].
  destruct (p x); [constructor; assumption|assumption].
Qed.

End SplitJoin.

(** ** Locale stripping *)

Section StripLocale.

Import Js Locale.

Lemma rawOf_lacks_query pathname : lacks "?" (rawOf pathname).
Proof. unfold rawOf. apply before_lacks, before_lacks_sep. Qed.

Lemma rawOf_lacks_hash pathname : lacks "#" (rawOf pathname).
Proof. unfold rawOf. apply before_lacks_sep. Qed.

Lemma rawOf_fixed q : lacks "?" q -> lacks "#" q -> rawOf q = q.
Proof. intros H1 H2. unfold rawOf. now rewrite (before_without_sep "?"), before_without_sep. Qed.

Lemma segmentsOf_slash s : segmentsOf ("/" +:+ s) = segmentsOf s.
Proof. reflexivity. Qed.

Lemma segmentsOf_sound c s :
  lacks c s ->
  Forall (fun x => nonEmpty x = true /\ lacks "/" x /\ lacks c x) (segmentsOf s).
Proof.
  intros Hs. unfold segmentsOf.
  pose proof (filter_Forall nonEmpty (split "/" s)) as H1.
  pose proof (filter_keeps _ nonEmpty _ (split_lacks_sep "/" s)) as H2.
  pose proof (filter_keeps _ nonEmpty _ (split_lacks c "/" s Hs)) as H3.
  rewrite !Forall_forall in *. intros x Hx. auto.
Qed.

(** A path that is already in stripped form is left alone. *)
Lemma strip_fixed q :
  nonEmpty q = true -> lacks "?" q -> lacks "#" q ->
  startsWith q "/" = true ->
  startsWithLocale q = false ->
  (segmentsOf q = [] -> q = "/") ->
  stripLocaleFromPath q = q.
Proof.
  intros Hne Hq Hh Hs Hl Hroot. unfold stripLocaleFromPath, startsWithLocale in *.
  rewrite Hne. simpl. rewrite (rawOf_fixed q Hq Hh) in *.
  destruct (segmentsOf q) as [|first rest].
  - symmetry. now apply Hroot.
  - now rewrite Hl, Hs.
Qed.

Lemma startsWith_slash s : startsWith ("/" +:+ s) "/" = true.
Proof. destruct s; reflexivity. Qed.

Lemma segments_of_join rest :
  rest <> [] ->
  Forall (fun x => nonEmpty x = true /\ lacks "/" x) rest ->
  segmentsOf ("/" +:+ join "/" rest) = rest.
Proof.
  intros Hne H. rewrite segmentsOf_slash. unfold segmentsOf.
  rewrite split_join; [|assumption|].
  - apply filter_all. eapply Forall_impl; [exact H|]. now intros x [Hx _].
  - eapply Forall_impl; [exact H|]. now intros x [_ Hx].
Qed.

End StripLocale.

(** C1, as the code has it: stripping is idempotent on every path whose
    stripped form does not itself begin with a locale-shaped segment.
    [stripLocaleFromPath] removes one leading locale segment only. *)
Theorem stripLocaleFromPath_idempotent_one_locale (p : string) :
  Locale.startsWithLocale (Locale.stripLocaleFromPath p) = false ->
  Locale.stripLocaleFromPath (Locale.stripLocaleFromPath p) = Locale.stripLocaleFromPath p.
Proof.
  intros Hloc. revert Hloc. unfold Locale.stripLocaleFromPath at 1 3 4.
  destruct (negb (Js.nonEmpty p)); [reflexivity|]. simpl.
  pose proof (rawOf_lacks_query p) as Hq. pose proof (rawOf_lacks_hash p) as Hh.
  pose proof (segmentsOf_sound "?" _ Hq) as Sq.
  pose proof (segmentsOf_sound "#" _ Hh) as Sh.
  set (raw := Locale.rawOf p) in *.
  destruct (Locale.segmentsOf raw) as [|first rest] eqn:Eseg; [reflexivity|].
  destruct (Locale.localePattern first) eqn:Efirst.
  - destruct rest as [|r rest]; [reflexivity|]. intros Hloc.
    inversion Sq as [|? ? _ Sq']; inversion Sh as [|? ? _ Sh']; subst.
    apply strip_fixed.
    + reflexivity.
    + unfold Js.lacks. rewrite includesChar_app. apply orb_false_iff. split; [reflexivity|].
      apply (join_lacks "?" "/"); [reflexivity|].
      eapply Forall_impl; [exact Sq'|]. now intros x (_ & _ & Hx).
    + unfold Js.lacks. rewrite includesChar_app. apply orb_false_iff. split; [reflexivity|].
      apply (join_lacks "#" "/"); [reflexivity|].
      eapply Forall_impl; [exact Sh'|]. now intros x (_ & _ & Hx).
    + apply startsWith_slash.
    + exact Hloc.
    + rewrite segments_of_join; [discriminate|discriminate|].
      eapply Forall_impl; [exact Sq'|]. now intros x (H1 & H2 & _).
  - intros _. destruct (Js.startsWith raw "/") eqn:Eslash.
    + apply strip_fixed; try assumption.
      * destruct raw; [discriminate Eseg|reflexivity].
      * unfold Locale.startsWithLocale. rewrite (rawOf_fixed raw Hq Hh), Eseg. exact Efirst.
      * rewrite Eseg. discriminate.
    + assert (Hq' : Js.lacks "?" ("/" +:+ raw)) by exact Hq.
      assert (Hh' : Js.lacks "#" ("/" +:+ raw)) by exact Hh.
      apply strip_fixed; try assumption.
      * reflexivity.
      * apply startsWith_slash.
      * unfold Locale.startsWithLocale. rewrite (rawOf_fixed _ Hq' Hh').
        rewrite segmentsOf_slash, Eseg. exact Efirst.
      * rewrite segmentsOf_slash, Eseg. discriminate.
Qed.

Lemma stripLocaleFromPath_idempotent_one_locale_witness :
  Locale.startsWithLocale (Locale.stripLocaleFromPath "/en/about?tab=1") = false /\
  Locale.stripLocaleFromPath (Locale.stripLocaleFromPath "/en/about?tab=1")
  = Locale.stripLocaleFromPath "/en/about?tab=1".
Proof.
  split; [reflexivity|].
  apply (stripLocaleFromPath_idempotent_one_locale "/en/about?tab=1"). reflexivity.
Defined.

(** The hypothesis of the theorem is needed: when the stripped path begins
    with a locale-shaped segment, the second application removes it. *)
Lemma stripLocaleFromPath_strips_second_locale (p : string) :
  Locale.startsWithLocale (Locale.stripLocaleFromPath p) = true ->
  Locale.stripLocaleFromPath (Locale.stripLocaleFromPath p) <> Locale.stripLocaleFromPath p.
Proof.
  unfold Locale.stripLocaleFromPath at 1 3 4.
  destruct (negb (Js.nonEmpty p)); [discriminate|]. simpl.
  pose proof (rawOf_lacks_query p) as Hq. pose proof (rawOf_lacks_hash p) as Hh.
  pose proof (segmentsOf_sound "?" _ Hq) as Sq.
  pose proof (segmentsOf_sound "#" _ Hh) as Sh.
  set (raw := Locale.rawOf p) in *.
  destruct (Locale.segmentsOf raw) as [|first rest] eqn:Eseg; [discriminate|].
  destruct (Locale.localePattern first) eqn:Efirst.
  - destruct rest as [|r rest]; [discriminate|].
    inversion Sq as [|? ? _ Sq']; inversion Sh as [|? ? _ Sh']; subst.
    set (q := "/" +:+ Js.join "/" (r :: rest)).
    assert (Hq' : Js.lacks "?" q).
    { unfold Js.lacks, q. rewrite includesChar_app. apply orb_false_iff. split; [reflexivity|].
      apply (join_lacks "?" "/"); [reflexivity|].
      eapply Forall_impl; [exact Sq'|]. now intros x (_ & _ & Hx). }
    assert (Hh' : Js.lacks "#" q).
    { unfold Js.lacks, q. rewrite includesChar_app. apply orb_false_iff. split; [reflexivity|].
      apply (join_lacks "#" "/"); [reflexivity|].
      eapply Forall_impl; [exact Sh'|]. now intros x (_ & _ & Hx). }
    assert (Hsegs : Locale.segmentsOf q = r :: rest).
    { apply segments_of_join; [discriminate|].
      eapply Forall_impl; [exact Sq'|]. now intros x (H1 & H2 & _). }
    unfold Locale.startsWithLocale, Locale.stripLocaleFromPath.
    rewrite (rawOf_fixed q Hq' Hh'), Hsegs. intros Hr.
    change (negb (Js.nonEmpty q)) with false. cbn [negb]. rewrite Hr.
    inversion Sq' as [|? ? (Hne & _) _]; subst.
    destruct rest as [|r2 rest]; unfold q, Js.join; cbn [String.concat].
    + destruct r; [discriminate Hne|discriminate].
    + intros Heq. apply (f_equal String.length) in Heq.
      cbn [String.app String.length] in Heq.
      rewrite !length_app in Heq. cbn [String.length] in Heq. lia.
  - destruct (Js.startsWith raw "/") eqn:Eslash; unfold Locale.startsWithLocale.
    + rewrite (rawOf_fixed raw Hq Hh), Eseg, Efirst. discriminate.
    + assert (Hq' : Js.lacks "?" ("/" +:+ raw)) by exact Hq.
      assert (Hh' : Js.lacks "#" ("/" +:+ raw)) by exact Hh.
      rewrite (rawOf_fixed _ Hq' Hh'), segmentsOf_slash, Eseg, Efirst. discriminate.
Qed.

(** C1 as stated fails: a second locale-shaped segment is stripped by the
    second application. *)
Lemma stripLocaleFromPath_not_idempotent :
  Locale.stripLocaleFromPath "/en/fr/about" = "/fr/about" /\
  Locale.stripLocaleFromPath (Locale.stripLocaleFromPath "/en/fr/about") = "/about" /\
  Locale.stripLocaleFromPath (Locale.stripLocaleFromPath "/en/fr/about")
  <> Locale.stripLocaleFromPath "/en/fr/about".
Proof. repeat split. discriminate. Qed.

(** ** Route matching *)

Section Matching.

Import Js Router.

Lemma findIndex_Some {A} (p : A -> bool) (l : list A) (i : nat) :
  findIndex p l = Some i ->
  exists x, nth_error l i = Some x /\ p x = true /\ (i < List.length l)%nat.
Proof.
  revert i. induction l as [|a l IH]; simpl; intros i H; [discriminate|].
  destruct (p a) eqn:Ea.
  - inversion H; subst. exists a. repeat split; [assumption|lia].
  - destruct (findIndex p l) as [j|]; [|discriminate].
    inversion H; subst. destruct (IH j eq_refl) as (x & Hx & Hp & Hlt).
    exists x. repeat split; [assumption|assumption|simpl; lia].
Qed.

Lemma findIndex_None {A} (p : A -> bool) (l : list A) :
  Forall (fun x => p x = false) l -> findIndex p l = None.
Proof. induction 1 as [|x l Hx _ IH]; simpl; [reflexivity|]. now rewrite Hx, IH. Qed.

Lemma startsWith_star_includes s : startsWith s "*" = true -> includesChar s "*" = true.
Proof.
  unfold startsWith. destruct s as [|a s]; cbn -[ascii_dec]; intros H; [discriminate H|].
  destruct (ascii_dec "*" a) as [Ha|]; [|discriminate H].
  now rewrite <- Ha.
Qed.

(** A route path with a catch-all segment contains a star. *)
Lemma catch_all_includes routePath i :
  findIndex (fun s => startsWith s "*") (segmentsOf routePath) = Some i ->
  includesChar routePath "*" = true.
Proof.
  intros H. destruct (includesChar routePath "*") eqn:E; [reflexivity|exfalso].
  rewrite findIndex_None in H; [discriminate|].
  unfold segmentsOf. apply filter_keeps.
  eapply Forall_impl; [exact (split_lacks "*" "/" routePath E)|].
  intros x Hx. destruct (startsWith x "*") eqn:Es; [|reflexivity].
  apply startsWith_star_includes in Es. unfold lacks in Hx. congruence.
Qed.



Lemma matchRoute_app pathname before route after params :
  Forall (fun r => tryRoute pathname r = Returns None) before ->
  tryRoute pathname route = Returns (Some params) ->
  matchRoute pathname (before ++ route :: after) = Returns (Some (route, params)).
Proof.
  induction 1 as [|r before Hr _ IH]; intros Hm; simpl.
  - now rewrite Hm.
  - rewrite Hr. now apply IH.
Qed.

Lemma matchRoute_inv pathname routes route params :
  matchRoute pathname routes = Returns (Some (route, params)) ->
  exists before after,
    routes = before ++ route :: after /\
    Forall (fun r => tryRoute pathname r = Returns None) before /\
    tryRoute pathname route = Returns (Some params).
Proof.
  induction routes as [|r routes IH]; simpl; intros H; [discriminate|].
  destruct (tryRoute pathname r) as [[ps|]|e] eqn:E; [| |discriminate].
  - inversion H; subst. exists [], routes. repeat split; [constructor|assumption].
  - destruct (IH H) as (before & after & -> & Hb & Hm).
    exists (r :: before), after. repeat split; [constructor; assumption|assumption].
Qed.

(** Every route pushed by [scanApiDirectory] leaves [exact] unset. *)
Lemma scanApiEntry_exact_unset :
  forall e dir prefix, Forall (fun r => exact r = None) (scanApiEntry dir prefix e).
Proof.
  fix IH 1. intros [file|file children] dir prefix.
  - cbn [scanApiEntry].
    destruct ((endsWith file ".ts" || endsWith file ".js") && negb (endsWith file ".d.ts"));
      [|constructor].
    repeat match goal with
           | |- context [if ?b then _ else _] => destruct b
           end; cbn; repeat constructor.
  - assert (Hall : forall d p, Forall (fun r => exact r = None)
                                 (flat_map (scanApiEntry d p) children)).
    { intros d p. induction children as [|c children IHc]; simpl; [constructor|].
      apply Forall_app. split; [apply IH|apply IHc]. }
    cbn [scanApiEntry].
    repeat match goal with
           | |- context [if ?b then _ else _] => destruct b
           end; apply Hall.
Qed.

Lemma scanApiDirectory_exact_unset dir prefix files :
  Forall (fun r => exact r = None) (scanApiDirectory dir prefix files).
Proof.
  unfold scanApiDirectory. induction files as [|e files IH]; simpl; [constructor|].
  apply Forall_app. split; [apply scanApiEntry_exact_unset|exact IH].
Qed.

End Matching.




(** C7: [matchRoute] returns a route exactly when no earlier route of the
    table accepts the pathname and this one does, so the first compatible
    route in table order wins. With [/blog/:slug] registered before
    [/blog/featured], the request [/blog/featured] is given to the dynamic
    route with [slug = "featured"]. *)
Theorem matchRoute_first_match_wins :
  (forall (pathname : string) (routes : list Router.Route)
          (route : Router.Route) (params : gmap string string),
     Router.matchRoute pathname routes = Returns (Some (route, params)) <->
     exists before after,
       routes = before ++ route :: after /\
       Forall (fun r => Router.tryRoute pathname r = Returns None) before /\
       Router.tryRoute pathname route = Returns (Some params))
  /\ Router.matchRoute "/blog/featured" [Examples.blogSlug; Examples.blogFeatured]
     = Returns (Some (Examples.blogSlug, {[ "slug" := "featured" ]}))
  /\ Router.tryRoute "/blog/featured" Examples.blogFeatured = Returns (Some ∅).
Proof.
  split; [|split; reflexivity].
  intros pathname routes route params. split.
  - apply matchRoute_inv.
  - intros (before & after & -> & Hb & Hm). now apply matchRoute_app.
Qed.

(** C10: a route that is neither dynamic nor exact accepts every pathname
    that has the route path as a string prefix, with no parameters, as soon
    as no earlier route of the table accepts it; and no route pushed by
    [scanApiDirectory] has [exact] set. *)
Theorem matchRoute_prefix_when_not_exact
  (pathname : string) (before after : list Router.Route) (route : Router.Route) :
  Router.truthy (Router.dynamic route) = false ->
  Router.truthy (Router.exact route) = false ->
  Forall (fun r => Router.tryRoute pathname r = Returns None) before ->
  Js.startsWith pathname (Router.path route) = true ->
  Router.matchRoute pathname (before ++ route :: after) = Returns (Some (route, ∅))
  /\ (forall dir prefix files r,
        In r (Router.scanApiDirectory dir prefix files) -> Router.exact r = None).
Proof.
  intros Hdyn Hexact Hbefore Hprefix. split.
  - apply matchRoute_app; [assumption|].
    unfold Router.tryRoute. now rewrite Hdyn, Hexact, Hprefix.
  - intros dir prefix files r Hin.
    pose proof (scanApiDirectory_exact_unset dir prefix files) as H.
    rewrite Forall_forall in H. apply H. now apply list_elem_of_In.
Qed.

Lemma matchRoute_prefix_when_not_exact_witness :
  Router.scanApiDirectory "/p/src/app/api" "/api" Examples.apiTree = [Examples.apiUsers] /\
  Router.matchRoute "/api/users-admin" [Examples.apiUsers]
  = Returns (Some (Examples.apiUsers, ∅)).
Proof.
  split; [reflexivity|].
  apply (matchRoute_prefix_when_not_exact "/api/users-admin" [] [] Examples.apiUsers);
    [reflexivity|reflexivity|constructor|reflexivity].
Defined.

(** ** The route-matching stage *)

Section RouteStage.

Import Js Router Server.

Lemma api_path_not_localized rest : effectivePathOf ("/api/" +:+ rest) = "/api/" +:+ rest.
Proof. reflexivity. Qed.

Lemma routeStage_api_first pathname apiRoutes routes :
  exists later, fst (routeStage pathname apiRoutes routes) = MatchApiRoutes :: later.
Proof.
  unfold routeStage.
  destruct (matchRoute pathname apiRoutes) as [[[r ps]|]|e]; [eexists; reflexivity| |eexists; reflexivity].
  destruct (startsWith pathname "/api/"); [eexists; reflexivity|].
  destruct (matchRoute pathname routes) as [[[r ps]|]|e]; [eexists; reflexivity| |eexists; reflexivity].
  destruct (orElse _ _); eexists; reflexivity.
Qed.

End RouteStage.

(** C5: the API table is consulted first for every path and an API match
    is final; a path under ["/api/"] that no API route accepts is answered
    with the JSON 404 and the page table is never consulted. A request path
    that starts with ["/api/"] is routed unchanged (it carries no locale). *)
Theorem api_namespace_closure
  (effectivePath : string) (apiRoutes routes : list Router.Route) :
  Js.startsWith effectivePath "/api/" = true ->
  Router.matchRoute effectivePath apiRoutes = Returns None ->
  Server.routeStage effectivePath apiRoutes routes
  = ([Server.MatchApiRoutes], Server.ApiNotFound 404 "application/json")
  /\ ~ In Server.MatchPageRoutes (fst (Server.routeStage effectivePath apiRoutes routes))
  /\ (forall pathname apis pages,
        (exists later,
           fst (Server.routeStage pathname apis pages) = Server.MatchApiRoutes :: later) /\
        (forall route params,
           Router.matchRoute pathname apis = Returns (Some (route, params)) ->
           Server.routeStage pathname apis pages
           = ([Server.MatchApiRoutes], Server.HandleApi route params)))
  /\ (forall rest, Server.effectivePathOf ("/api/" +:+ rest) = "/api/" +:+ rest).
Proof.
  intros Hapi Hnone.
  assert (Hstage : Server.routeStage effectivePath apiRoutes routes
                   = ([Server.MatchApiRoutes], Server.ApiNotFound 404 "application/json")).
  { unfold Server.routeStage. now rewrite Hnone, Hapi. }
  split; [exact Hstage|]. split.
  - rewrite Hstage. simpl. intros [H|[]]. discriminate H.
  - split; [|exact api_path_not_localized].
    intros pathname apis pages. split; [apply routeStage_api_first|].
    intros route params Hm. unfold Server.routeStage. now rewrite Hm.
Qed.

Lemma api_namespace_closure_witness :
  (Js.startsWith "/api/missing" "/api/" = true /\
   Router.matchRoute "/api/missing" [Examples.apiUsers] = Returns None) /\
  Server.routeStage "/api/missing" [Examples.apiUsers] [Examples.homePage; Examples.page404]
  = ([Server.MatchApiRoutes], Server.ApiNotFound 404 "application/json").
Proof.
  split; [split; reflexivity|].
  exact (proj1 (api_namespace_closure "/api/missing" [Examples.apiUsers]
                  [Examples.homePage; Examples.page404] eq_refl eq_refl)).
Defined.

(** ** Choice of the API handler export *)

(** C3 on the code: as soon as the module has a default-exported function,
    [resolveHandler] returns an object that holds the default export only,
    so the method dispatch finds no method-named entry and calls the default
    export, also when an export named after the request method exists. *)
Theorem default_export_shadows_method_export (method : string) (named dflt : value) :
  In method Server.methods ->
  Val.isFunction named = true ->
  Val.isFunction dflt = true ->
  Server.resolveHandler (Obj [(method, named); ("default", dflt)]) = Obj [("default", dflt)]
  /\ Server.chooseHandler (Obj [(method, named); ("default", dflt)]) (Some method)
     = Server.CallDefaultExport dflt.
Proof.
  intros Hin Hnamed Hdflt.
  destruct named; try discriminate Hnamed. destruct dflt; try discriminate Hdflt.
  simpl in Hin.
  repeat (destruct Hin as [<-|Hin]; [split; reflexivity|]).
  contradiction.
Qed.

Lemma default_export_shadows_method_export_witness :
  (In "GET" Server.methods /\ Val.isFunction (Fun 1 1) = true /\ Val.isFunction (Fun 2 1) = true) /\
  Server.chooseHandler Examples.getAndDefault (Some "GET") = Server.CallDefaultExport (Fun 2 1).
Proof.
  split; [split; [left; reflexivity|split; reflexivity]|].
  exact (proj2 (default_export_shadows_method_export "GET" (Fun 1 1) (Fun 2 1)
                  (or_introl eq_refl) eq_refl eq_refl)).
Defined.

(** Without a default export the method-named export is the one called. *)
Example method_export_without_default :
  Server.chooseHandler (Obj [("GET", Fun 1 1); ("POST", Fun 3 1)]) (Some "post")
  = Server.CallMethodExport "POST" (Fun 3 1).
Proof. reflexivity. Qed.

(** ** Artifact paths *)

Section ArtifactPaths.

Import Js Artifact.

Lemma split_app c s t : split c (s +:+ String c t) = split c s ++ split c t.
Proof.
  induction s as [|a s IH]; simpl.
  - now rewrite Ascii.eqb_refl.
  - rewrite IH. destruct (Ascii.eqb a c); [reflexivity|].
    pose proof (split_not_nil c s) as Hne.
    destruct (split c s) as [|h tl]; [congruence|reflexivity].
Qed.

Lemma last_app_cons {A} (l : list A) (x : A) (l' : list A) (d : A) :
  List.last (l ++ x :: l') d = List.last (x :: l') d.
Proof.
  induction l as [|a l IH]; [reflexivity|].
  simpl. rewrite IH. destruct (l ++ x :: l') eqn:E; [|reflexivity].
  now destruct l.
Qed.

(** The base name of a file in a directory is the file name. *)
Lemma basename_pathJoin dir file :
  lacks "/" file -> basename (Router.pathJoin dir file) = file.
Proof.
  intros H. unfold basename, Router.pathJoin.
  change (dir +:+ "/" +:+ file) with (dir +:+ String "/" file).
  rewrite split_app, (split_without_sep "/" file H).
  now rewrite last_app_cons.
Qed.

End ArtifactPaths.

(** C2 on the code: the artifact of a page is named after the base name of
    its source alone, so two pages with the same file name in different
    directories are compiled to the same artifact path. *)
Theorem page_artifact_ignores_directory (tempDir dir1 dir2 file : string) :
  Js.lacks "/" file ->
  Artifact.compiledServerPath tempDir (Router.pathJoin dir1 file)
  = Artifact.compiledServerPath tempDir (Router.pathJoin dir2 file).
Proof.
  intros H. unfold Artifact.compiledServerPath.
  now rewrite !basename_pathJoin.
Qed.

Lemma page_artifact_ignores_directory_witness :
  (Js.lacks "/" "page.tsx" /\
   Router.component Examples.homePage <> Router.component Examples.aboutPage) /\
  Artifact.compiledServerPath Examples.tempDir (Router.component Examples.homePage)
  = Artifact.compiledServerPath Examples.tempDir (Router.component Examples.aboutPage).
Proof.
  split; [split; [reflexivity|discriminate]|].
  exact (page_artifact_ignores_directory Examples.tempDir "/p/src/app" "/p/src/app/about"
           "page.tsx" eq_refl).
Defined.

(** The key of an API handler keeps the directories, but the replacement of
    every character outside [[a-zA-Z0-9_-]] by an underscore maps distinct
    sources to one key. *)
Example api_artifacts_distinct :
  Artifact.compiledApiPath "/p" "/p/.satset/temp" "/p/src/app/api/users/route.ts"
  <> Artifact.compiledApiPath "/p" "/p/.satset/temp" "/p/src/app/api/posts/route.ts".
Proof. discriminate. Qed.

Example api_artifacts_collide :
  Artifact.compiledApiPath "/p" "/p/.satset/temp" "/p/src/app/api/a/b/route.ts"
  = Artifact.compiledApiPath "/p" "/p/.satset/temp" "/p/src/app/api/a_b/route.ts".
Proof. reflexivity. Qed.

(** ** Traces *)

Section Traces.

Lemma trace_bind {A B} (m : eff A) (f : A -> eff B) :
  exists t, Eff.trace (m ≫= f) = Eff.trace m ++ t.
Proof.
  destruct m as [t [a|e]]; unfold mbind, eff_bind, Eff.trace; simpl.
  - destruct (f a) as [t' r]. now exists t'.
  - exists []. now rewrite app_nil_r.
Qed.

Lemma trace_tryCatch {A} (m : eff A) (h : value -> eff A) :
  exists t, Eff.trace (Eff.tryCatch m h) = Eff.trace m ++ t.
Proof.
  destruct m as [t [a|e]]; unfold Eff.tryCatch, Eff.trace; simpl.
  - exists []. now rewrite app_nil_r.
  - destruct (h e) as [t' r]. now exists t'.
Qed.

Lemma invokesCompiler_bind {A B} (m : eff A) (f : A -> eff B) :
  Eff.invokesCompiler m = true -> Eff.invokesCompiler (m ≫= f) = true.
Proof.
  unfold Eff.invokesCompiler. destruct (trace_bind m f) as [t ->].
  rewrite existsb_app. now intros ->.
Qed.

Lemma invokesCompiler_tryCatch {A} (m : eff A) (h : value -> eff A) :
  Eff.invokesCompiler m = true -> Eff.invokesCompiler (Eff.tryCatch m h) = true.
Proof.
  unfold Eff.invokesCompiler. destruct (trace_tryCatch m h) as [t ->].
  rewrite existsb_app. now intros ->.
Qed.

End Traces.

(** ** Staleness check and compilation *)

Section Compilation.

Import Server.

Variables root tempDir : string.
Variable statMtime : string -> option Z.
Variable bundler : string -> string -> bool -> outcome unit.
Variable requireModule : string -> outcome value.
Variable jsonStringify : value -> string.
Variable generateErrorOverlayHTML : string -> string -> string.

Lemma needsBundle_fresh component compiled srcMtime outMtime :
  statMtime component = Some srcMtime ->
  statMtime compiled = Some outMtime ->
  (srcMtime <= outMtime)%Z ->
  needsBundle statMtime component compiled = false.
Proof.
  intros Hs Ho Hle. unfold needsBundle, existsSync. rewrite Ho, Hs.
  apply negb_false_iff. apply Z.geb_le. lia.
Qed.

Lemma loadApiModule_fresh route srcMtime outMtime :
  statMtime (Router.component route) = Some srcMtime ->
  statMtime (Artifact.compiledApiPath root tempDir (Router.component route)) = Some outMtime ->
  (srcMtime <= outMtime)%Z ->
  Eff.invokesCompiler
    (loadApiModule root tempDir statMtime bundler requireModule jsonStringify route) = false.
Proof.
  intros Hs Ho Hle. unfold loadApiModule.
  rewrite (needsBundle_fresh _ _ _ _ Hs Ho Hle).
  unfold require, Eff.call, Eff.invokesCompiler, Eff.trace. cbn.
  destruct (requireModule _); reflexivity.
Qed.

Lemma loadPageModule_compiles route :
  Eff.invokesCompiler
    (loadPageModule tempDir bundler requireModule generateErrorOverlayHTML route) = true.
Proof.
  unfold loadPageModule, safeBundleServer.
  apply invokesCompiler_tryCatch, invokesCompiler_bind, invokesCompiler_tryCatch.
  reflexivity.
Qed.

End Compilation.

(** C4, as the code has it: resolving an API handler whose artifact exists
    with a modification time equal to or newer than the source's does not
    invoke the compiler collaborator; resolving a page module invokes it on
    every request, whatever the modification times are. *)
Theorem api_resolution_skips_fresh_artifact
  (root tempDir : string) (statMtime : string -> option Z)
  (bundler : string -> string -> bool -> outcome unit)
  (requireModule : string -> outcome value) (jsonStringify : value -> string)
  (generateErrorOverlayHTML : string -> string -> string)
  (route : Router.Route) (srcMtime outMtime : Z) :
  statMtime (Router.component route) = Some srcMtime ->
  statMtime (Artifact.compiledApiPath root tempDir (Router.component route)) = Some outMtime ->
  (srcMtime <= outMtime)%Z ->
  Eff.invokesCompiler
    (Server.loadApiModule root tempDir statMtime bundler requireModule jsonStringify route)
  = false
  /\ (forall page,
        Eff.invokesCompiler
          (Server.loadPageModule tempDir bundler requireModule generateErrorOverlayHTML page)
        = true).
Proof.
  intros Hs Ho Hle. split.
  - now apply (loadApiModule_fresh root tempDir statMtime bundler requireModule
                 jsonStringify route srcMtime outMtime).
  - intros page. apply loadPageModule_compiles.
Qed.

Lemma api_resolution_skips_fresh_artifact_witness :
  (Examples.freshStat (Router.component Examples.apiUsers) = Some 100%Z /\
   Examples.freshStat (Artifact.compiledApiPath Examples.root Examples.tempDir
                         (Router.component Examples.apiUsers)) = Some 100%Z /\
   (100 <= 100)%Z) /\
  Eff.invokesCompiler
    (Server.loadApiModule Examples.root Examples.tempDir Examples.freshStat
       Examples.okBundler Examples.emptyModule Examples.noJson Examples.apiUsers) = false.
Proof.
  split; [split; [reflexivity|split; [reflexivity|lia]]|].
  apply (api_resolution_skips_fresh_artifact Examples.root Examples.tempDir
           Examples.freshStat Examples.okBundler Examples.emptyModule Examples.noJson
           Examples.noOverlay Examples.apiUsers 100 100); [reflexivity|reflexivity|lia].
Defined.

(** C4 as stated fails for pages: the artifact of the about page is newer
    than its source, and resolving the page still calls the compiler. *)
Lemma page_resolution_recompiles_fresh_artifact :
  Examples.freshStat (Router.component Examples.aboutPage) = Some 100%Z /\
  Examples.freshStat (Artifact.compiledServerPath Examples.tempDir
                        (Router.component Examples.aboutPage)) = Some 200%Z /\
  (100 <= 200)%Z /\
  Eff.trace (Server.loadPageModule Examples.tempDir Examples.okBundler Examples.emptyModule
               Examples.noOverlay Examples.aboutPage)
  = [BundleServer "/p/src/app/about/page.tsx" "/p/.satset/temp/page.server.js" true;
     RequireModule "/p/.satset/temp/page.server.js"] /\
  Eff.invokesCompiler
    (Server.loadPageModule Examples.tempDir Examples.okBundler Examples.emptyModule
       Examples.noOverlay Examples.aboutPage) = true.
Proof. split; [reflexivity|]. split; [reflexivity|]. split; [lia|]. split; reflexivity. Qed.

(** ** Values thrown while rendering a page *)

Section RenderErrors.

Import Server.

Variable tempDir : string.
Variable bundler : string -> string -> bool -> outcome unit.
Variable requireModule : string -> outcome value.
Variable renderToString : value -> value -> outcome string.
Variable jsonStringify : value -> string.
Variable generateErrorOverlayHTML : string -> string -> string.

Let recover := onRenderError tempDir bundler requireModule renderToString jsonStringify
                 generateErrorOverlayHTML.

Lemma onRenderError_redirect route allRoutes initialParams url status :
  Js.nonEmpty url = true ->
  status <> 0%Z ->
  recover route allRoutes initialParams (Navigation.redirect url (Some status))
  = ([WriteHead status {[ "Location" := url ]}; End None], Returns Responded).
Proof.
  intros Hurl Hst. unfold recover, onRenderError. cbn.
  rewrite Hurl. unfold Response.sendSatsetResponse, Response.redirect, Response.new.
  cbn [Response.headers Response.status Response.body].
  unfold Response.hasHeader. rewrite lookup_singleton_eq, Hurl.
  apply Z.eqb_neq in Hst. rewrite Hst. reflexivity.
Qed.













End RenderErrors.

Section RenderAttempt.

Import Server PageRender.

Variable tempDir : string.
Variable bundler : string -> string -> bool -> outcome unit.
Variable requireModule : string -> outcome value.
Variable md5hex : string -> string.

(** The layout loop compiles and requires; it never renders. *)
Lemma loadLayouts_no_render layoutFiles layouts :
  existsb Eff.isRender (fst (loadLayouts tempDir bundler requireModule md5hex
                               layoutFiles layouts)) = false.
Proof.
  revert layouts. induction layoutFiles as [|f files IH]; intros layouts; [reflexivity|].
  cbn [loadLayouts]. destruct (bundler _ _ _); [|reflexivity].
  destruct (requireModule _) as [m|]; [|reflexivity].
  specialize (IH (if Val.isTruthy (layoutComponent m)
                  then layouts ++ [layoutComponent m] else layouts)).
  destruct (loadLayouts _ _ _ _ files _). exact IH.
Qed.

End RenderAttempt.

(** C8, as the code has it: when the render of a page throws the redirect
    signal for [url] and [status], the handler writes the status and a
    [Location] header equal to [url] and ends the response without a body;
    after the signal is thrown neither the compiler nor the rendering engine
    is called, so no markup is sent. When the page component is an async
    function, which the handler calls itself, and the call throws the
    signal, the rendering engine is never invoked. A synchronous page
    component runs inside the call of the rendering engine: when that call
    throws the signal, the engine has been invoked once. *)
Theorem redirect_signal_short_circuits
  (tempDir : string) (bundler : string -> string -> bool -> outcome unit)
  (requireModule : string -> outcome value)
  (renderToString : value -> value -> outcome string)
  (jsonStringify : value -> string)
  (generateErrorOverlayHTML : string -> string -> string)
  (md5hex : string -> string)
  (createElement : value -> value -> option value -> value)
  (isAsyncFunction : value -> bool)
  (callComponent : value -> value -> outcome value)
  (I18nProvider dictionaries : value) (diagHtml : string)
  (route : Router.Route) (allRoutes : list Router.Route) (initialParams : value)
  (locale : string) (PageComponent : value) (layoutFiles : list string)
  (url : string) (status : Z) :
  Js.nonEmpty url = true ->
  status <> 0%Z ->
  Val.isFunction PageComponent = true ->
  let signal := Navigation.redirect url (Some status) in
  let answer := [WriteHead status {[ "Location" := url ]}; End None] in
  let run := PageRender.renderPage tempDir bundler requireModule renderToString
               jsonStringify generateErrorOverlayHTML md5hex createElement
               isAsyncFunction callComponent I18nProvider dictionaries diagHtml
               route allRoutes initialParams locale PageComponent layoutFiles in
  let loaded := PageRender.loadLayouts tempDir bundler requireModule md5hex layoutFiles [] in
  (forall done,
     Server.renderOrRecover tempDir bundler requireModule renderToString jsonStringify
       generateErrorOverlayHTML route allRoutes initialParams (done, Throws signal)
     = (done ++ answer, Returns Server.Responded))
  /\ Eff.invokesRenderer
       (Server.onRenderError tempDir bundler requireModule renderToString jsonStringify
          generateErrorOverlayHTML route allRoutes initialParams signal) = false
  /\ Eff.invokesCompiler
       (Server.onRenderError tempDir bundler requireModule renderToString jsonStringify
          generateErrorOverlayHTML route allRoutes initialParams signal) = false
  /\ (isAsyncFunction PageComponent = true ->
      callComponent PageComponent (PageRender.pageProps initialParams) = Throws signal ->
      run = (fst loaded ++ answer, Returns Server.Responded)
      /\ Eff.invokesRenderer run = false)
  /\ (forall pageNode,
        (if isAsyncFunction PageComponent
         then callComponent PageComponent (PageRender.pageProps initialParams)
              = Returns pageNode
         else pageNode
              = createElement PageComponent (PageRender.pageProps initialParams) None) ->
        let app := PageRender.wrapperElement createElement I18nProvider dictionaries locale
                     (PageRender.appElement createElement (snd loaded) initialParams locale
                        pageNode) in
        renderToString app (Obj []) = Throws signal ->
        run = (fst loaded ++ RenderToHtml app (Obj []) :: answer, Returns Server.Responded)
        /\ Eff.invokesRenderer run = true).
Proof.
  intros Hurl Hst Hfun. cbv zeta.
  pose proof (onRenderError_redirect tempDir bundler requireModule renderToString
                jsonStringify generateErrorOverlayHTML route allRoutes initialParams
                url status Hurl Hst) as H. cbv zeta in H.
  assert (Hrun : PageRender.renderPage tempDir bundler requireModule renderToString
                   jsonStringify generateErrorOverlayHTML md5hex createElement
                   isAsyncFunction callComponent I18nProvider dictionaries diagHtml
                   route allRoutes initialParams locale PageComponent layoutFiles
                 = Server.renderOrRecover tempDir bundler requireModule renderToString
                     jsonStringify generateErrorOverlayHTML route allRoutes initialParams
                     (PageRender.pageMarkup tempDir bundler requireModule renderToString
                        md5hex createElement isAsyncFunction callComponent I18nProvider
                        dictionaries PageComponent initialParams locale layoutFiles)).
  { unfold PageRender.renderPage.
    destruct PageComponent; try discriminate Hfun. reflexivity. }
  pose proof (loadLayouts_no_render tempDir bundler requireModule md5hex layoutFiles [])
    as Hlayouts.
  split; [|split; [|split; [|split]]].
  - intros done. unfold Server.renderOrRecover. cbn [mbind eff_bind Eff.tryCatch].
    now rewrite H.
  - now rewrite H.
  - now rewrite H.
  - intros Hasync Hcall. rewrite Hrun.
    unfold Server.renderOrRecover, PageRender.pageMarkup.
    destruct (PageRender.loadLayouts _ _ _ _ layoutFiles []) as [t layouts].
    rewrite Hasync, Hcall.
    cbn [mbind eff_bind Eff.tryCatch fst snd]. revert H.
    generalize (Server.onRenderError tempDir bundler requireModule renderToString
                  jsonStringify generateErrorOverlayHTML route allRoutes initialParams
                  (Navigation.redirect url (Some status))).
    intros recovered ->. cbn [fst snd] in *.
    rewrite (List.app_nil_r t). split; [reflexivity|].
    unfold Eff.invokesRenderer, Eff.trace. cbn [fst].
    rewrite existsb_app, Hlayouts. reflexivity.
  - intros pageNode Hnode Hrender. rewrite Hrun.
    unfold Server.renderOrRecover, PageRender.pageMarkup.
    destruct (PageRender.loadLayouts _ _ _ _ layoutFiles []) as [t layouts].
    cbn [fst snd] in *.
    assert (Hpage : (if isAsyncFunction PageComponent
                     then callComponent PageComponent (PageRender.pageProps initialParams)
                     else Returns (createElement PageComponent
                                     (PageRender.pageProps initialParams) None))
                    = Returns pageNode).
    { destruct (isAsyncFunction PageComponent); [exact Hnode|now rewrite Hnode]. }
    rewrite Hpage. cbn [mbind eff_bind]. unfold Eff.call.
    rewrite Hrender. cbn [mbind eff_bind Eff.tryCatch]. revert H.
    generalize (Server.onRenderError tempDir bundler requireModule renderToString
                  jsonStringify generateErrorOverlayHTML route allRoutes initialParams
                  (Navigation.redirect url (Some status))).
    intros recovered ->.
    cbn [app]. split; [now rewrite <- app_assoc|].
    unfold Eff.invokesRenderer, Eff.trace. cbn [fst].
    rewrite !existsb_app. cbn. now rewrite orb_true_r.
Qed.

Lemma redirect_signal_short_circuits_witness :
  (Js.nonEmpty "/login" = true /\ 307%Z <> 0%Z /\ Val.isFunction Samples.syncPage = true) /\
  Server.renderOrRecover Examples.tempDir Examples.okBundler Examples.emptyModule
    Examples.noMarkup Examples.noJson Examples.noOverlay Examples.aboutPage
    [Examples.aboutPage] (Obj [])
    ([], Throws (Navigation.redirect "/login" (Some 307%Z)))
  = ([WriteHead 307 {[ "Location" := "/login" ]}; End None], Returns Server.Responded).
Proof.
  split; [split; [reflexivity|split; [discriminate|reflexivity]]|].
  exact (proj1 (redirect_signal_short_circuits Examples.tempDir Examples.okBundler
                  Examples.emptyModule Examples.noMarkup Examples.noJson Examples.noOverlay
                  Samples.noHash Samples.element Samples.neverAsync Samples.notCalled
                  Null Null EmptyString Examples.aboutPage [Examples.aboutPage] (Obj [])
                  "en-US" Samples.syncPage [] "/login" 307
                  eq_refl ltac:(discriminate) eq_refl) []).
Defined.

(** C8 as stated fails for a synchronous page: the page calls
    [redirect('/login')] while the rendering engine renders it, so the
    engine has been invoked when the redirect is sent. *)
Lemma redirect_signal_thrown_inside_renderer :
  PageRender.renderPage Examples.tempDir Examples.okBundler Examples.emptyModule
    Samples.redirectingEngine Examples.noJson Examples.noOverlay Samples.noHash
    Samples.element Samples.neverAsync Samples.notCalled Null Null EmptyString
    Examples.aboutPage [Examples.aboutPage] (Obj []) "en-US" Samples.syncPage []
  = ([RenderToHtml
        (Samples.element Null
           (Obj [("initialLocale", Str "en-US"); ("dictionaries", Null)])
           (Some (Samples.element Samples.syncPage
                    (Obj [("params", Obj []); ("searchParams", Obj [])]) None)))
        (Obj []);
      WriteHead 307 {[ "Location" := "/login" ]}; End None],
     Returns Server.Responded)
  /\ Eff.invokesRenderer
       (PageRender.renderPage Examples.tempDir Examples.okBundler Examples.emptyModule
          Samples.redirectingEngine Examples.noJson Examples.noOverlay Samples.noHash
          Samples.element Samples.neverAsync Samples.notCalled Null Null EmptyString
          Examples.aboutPage [Examples.aboutPage] (Obj []) "en-US" Samples.syncPage [])
     = true.
Proof. split; reflexivity. Qed.




(** ** Prefixes and suffixes *)

Section Affixes.

Import Js.

Lemma app_cons a s t : String a s +:+ t = String a (s +:+ t).
Proof. reflexivity. Qed.

Lemma prefix_empty s : String.prefix EmptyString s = true.
Proof. now destruct s. Qed.

Lemma prefix_cons c p a s :
  String.prefix (String c p) (String a s) = Ascii.eqb c a && String.prefix p s.
Proof.
  cbn -[ascii_dec]. destruct (ascii_dec c a) as [->|Hne].
  - now rewrite Ascii.eqb_refl.
  - apply Ascii.eqb_neq in Hne. now rewrite Hne.
Qed.

Lemma startsWith_app s t : startsWith (s +:+ t) s = true.
Proof.
  unfold startsWith. induction s as [|a s IH]; [apply prefix_empty|].
  change (String a s +:+ t) with (String a (s +:+ t)).
  now rewrite prefix_cons, Ascii.eqb_refl.
Qed.

Lemma startsWith_app_l s t p : startsWith s p = true -> startsWith (s +:+ t) p = true.
Proof.
  unfold startsWith. revert s. induction p as [|c p IH]; intros s H; [apply prefix_empty|].
  destruct s as [|a s]; [discriminate H|].
  change (String a s +:+ t) with (String a (s +:+ t)). rewrite prefix_cons in *.
  apply andb_true_iff in H as [-> H]. now rewrite (IH s H).
Qed.

Lemma startsWith_trans s p q :
  startsWith s (p +:+ q) = true -> startsWith s p = true.
Proof.
  unfold startsWith. revert s. induction p as [|c p IH]; intros s H; [apply prefix_empty|].
  destruct s as [|a s]; [discriminate H|].
  change (String c p +:+ q) with (String c (p +:+ q)) in H. rewrite prefix_cons in *.
  apply andb_true_iff in H as [-> H]. now rewrite (IH s H).
Qed.


Lemma substring_all s : substring 0 (String.length s) s = s.
Proof. induction s as [|a s IH]; [reflexivity|]. simpl. now rewrite IH. Qed.

Lemma substring_skip t p n : substring (String.length t) n (t +:+ p) = substring 0 n p.
Proof. induction t as [|a t IH]; [reflexivity|]. rewrite app_cons. simpl. exact IH. Qed.

Lemma substring_take t p : substring 0 (String.length t) (t +:+ p) = t.
Proof.
  induction t as [|a t IH]; [now destruct p|]. rewrite app_cons. simpl. now rewrite IH.
Qed.


Lemma sliceFrom_app t p : sliceFrom (String.length t) (t +:+ p) = p.
Proof.
  unfold sliceFrom. rewrite length_app, substring_skip.
  replace (String.length t + String.length p - String.length t)%nat
    with (String.length p) by lia.
  apply substring_all.
Qed.


Lemma app_assoc_string s t u : (s +:+ t) +:+ u = s +:+ (t +:+ u).
Proof. induction s as [|a s IH]; [reflexivity|]. rewrite !app_cons. now rewrite IH. Qed.


End Affixes.

(** ** More on dynamic routes *)

Section DynamicRoutes.

Import Js Router.

Lemma bindSegments_success rs ps acc :
  List.length rs = List.length ps ->
  (exists m, bindSegments rs ps acc = Some m) <->
  Forall2 (fun r s => startsWith r ":" = true \/ r = s) rs ps.
Proof.
  revert ps acc. induction rs as [|r rs IH]; intros [|s ps] acc Hlen;
    try discriminate Hlen.
  - split; [constructor|]. intros _. now exists acc.
  - simpl in Hlen. injection Hlen as Hlen. cbn [bindSegments].
    destruct (startsWith r ":") eqn:Er.
    + rewrite (IH ps _ Hlen). split.
      * intros H. constructor; [now left|exact H].
      * intros H. now inversion H.
    + destruct (String.eqb_spec r s) as [->|Hne]; cbn [negb].
      * rewrite (IH ps _ Hlen). split.
        -- intros H. constructor; [now right|exact H].
        -- intros H. now inversion H.
      * split; [intros [m Hm]; discriminate Hm|].
        intros H. inversion H as [|? ? ? ? [Hc|Hc] _]; subst; congruence.
Qed.

Lemma bindSegments_keeps rs ps acc m name :
  bindSegments rs ps acc = Some m ->
  Forall (fun r => startsWith r ":" = true -> sliceFrom 1 r <> name) rs ->
  m !! name = acc !! name.
Proof.
  revert ps acc. induction rs as [|r rs IH]; intros ps acc Hb Hall.
  - cbn in Hb. now injection Hb as <-.
  - destruct ps as [|s ps]; [discriminate Hb|]. cbn [bindSegments] in Hb.
    inversion Hall as [|? ? Hr Hrs]; subst.
    destruct (startsWith r ":") eqn:Er.
    + rewrite (IH _ _ Hb Hrs). apply lookup_setProperty_ne. now apply Hr.
    + destruct (negb (String.eqb r s)); [discriminate Hb|]. now apply (IH _ _ Hb Hrs).
Qed.

(** The loop never creates a property named [__proto__]. *)
Lemma bindSegments_proto rs ps acc m :
  bindSegments rs ps acc = Some m -> m !! "__proto__" = acc !! "__proto__".
Proof.
  revert ps acc. induction rs as [|r rs IH]; intros ps acc Hb.
  - cbn in Hb. now injection Hb as <-.
  - destruct ps as [|s ps]; [discriminate Hb|]. cbn [bindSegments] in Hb.
    destruct (startsWith r ":").
    + rewrite (IH _ _ Hb). apply lookup_setProperty_proto.
    + destruct (negb (String.eqb r s)); [discriminate Hb|]. now apply (IH _ _ Hb).
Qed.

Lemma bindSegments_binds rs ps acc m i r v :
  bindSegments rs ps acc = Some m ->
  nth_error rs i = Some r ->
  startsWith r ":" = true ->
  nth_error ps i = Some v ->
  Forall (fun r' => startsWith r' ":" = true -> sliceFrom 1 r' <> sliceFrom 1 r)
         (skipn (S i) rs) ->
  sliceFrom 1 r <> "__proto__" ->
  m !! sliceFrom 1 r = Some v.
Proof.
  revert ps acc i. induction rs as [|r0 rs IH];
    intros ps acc i Hb Hr Hc Hv Hlater Hname.
  - now destruct i.
  - destruct ps as [|s ps]; [now destruct i|]. cbn [bindSegments] in Hb.
    destruct i as [|i].
    + cbn in Hr, Hv. injection Hr as ->. injection Hv as ->. rewrite Hc in Hb.
      cbn [skipn] in Hlater. rewrite (bindSegments_keeps _ _ _ _ _ Hb Hlater).
      now apply lookup_setProperty_eq.
    + cbn in Hr, Hv. cbn [skipn] in Hlater.
      destruct (startsWith r0 ":").
      * now apply (IH _ _ _ Hb Hr Hc Hv).
      * destruct (negb (String.eqb r0 s)); [discriminate Hb|].
        now apply (IH _ _ _ Hb Hr Hc Hv).
Qed.

End DynamicRoutes.

(** X1: [matchDynamicRoute] throws exactly for a route path that contains a
    star while none of its segments begins with one; for every other route
    path it returns. *)
Theorem matchDynamicRoute_throws_iff (pathname routePath : string) (optional : bool) :
  (exists err, Router.matchDynamicRoute pathname routePath optional = Throws err) <->
  Js.includesChar routePath "*" = true /\
  Js.findIndex (fun s => Js.startsWith s "*") (Router.segmentsOf routePath) = None.
Proof.
  unfold Router.matchDynamicRoute.
  destruct (Js.includesChar routePath "*") eqn:Estar.
  - destruct (Js.findIndex _ (Router.segmentsOf routePath)) as [i|] eqn:Eidx.
    + destruct (findIndex_Some _ _ _ Eidx) as (x & Hx & _ & _). rewrite Hx.
      split; [|intros [_ H]; discriminate H].
      intros [err H]. destruct (negb _); [discriminate H|].
      destruct (_ && optional); discriminate H.
    + split; [now intros _|]. intros _. now eexists.
  - split; [|intros [H _]; discriminate H].
    intros [err H]. destruct (negb _); discriminate H.
Qed.

(** X2: a route path without a star accepts a pathname exactly when both
    have the same number of segments and every route segment either begins
    with a colon or equals the path segment at its position. *)
Theorem matchDynamicRoute_plain_accepts (pathname routePath : string) (optional : bool) :
  Js.includesChar routePath "*" = false ->
  ((exists params, Router.matchDynamicRoute pathname routePath optional
                   = Returns (Some params)) <->
   Forall2 (fun r s => Js.startsWith r ":" = true \/ r = s)
           (Router.segmentsOf routePath) (Router.segmentsOf pathname)).
Proof.
  intros Hstar. unfold Router.matchDynamicRoute. rewrite Hstar.
  destruct (List.length (Router.segmentsOf pathname)
            =? List.length (Router.segmentsOf routePath))%nat eqn:Elen; cbn [negb].
  - apply Nat.eqb_eq in Elen. symmetry in Elen.
    rewrite <- (bindSegments_success _ _ ∅ Elen). split.
    + intros [params H]. injection H as H. now exists params.
    + intros [m H]. exists m. now rewrite H.
  - apply Nat.eqb_neq in Elen. split; [intros [params H]; discriminate H|].
    intros H. apply Forall2_length in H. congruence.
Qed.

Lemma matchDynamicRoute_plain_accepts_witness :
  Js.includesChar "/users/:id/posts" "*" = false /\
  (exists params, Router.matchDynamicRoute "/users/42/posts/" "/users/:id/posts" false
                  = Returns (Some params)).
Proof.
  split; [reflexivity|].
  apply (matchDynamicRoute_plain_accepts "/users/42/posts/" "/users/:id/posts" false eq_refl).
  cbv [Router.segmentsOf]. cbn.
  constructor; [right; reflexivity|]. constructor; [left; reflexivity|].
  constructor; [right; reflexivity|]. constructor.
Defined.

(** X3: when a route path without a star accepts a pathname, the parameter
    named by the colon segment at position [i] is bound to the path segment
    at position [i], provided the name is not [__proto__] and no later colon
    segment carries the same name (a later one overwrites it). The returned
    object never has a property named [__proto__]: the assignment to that
    name creates none. *)
Theorem matchDynamicRoute_binds
  (pathname routePath : string) (optional : bool) (params : gmap string string)
  (i : nat) (routeSegment pathSegment : string) :
  Js.includesChar routePath "*" = false ->
  Router.matchDynamicRoute pathname routePath optional = Returns (Some params) ->
  nth_error (Router.segmentsOf routePath) i = Some routeSegment ->
  Js.startsWith routeSegment ":" = true ->
  nth_error (Router.segmentsOf pathname) i = Some pathSegment ->
  Forall (fun r => Js.startsWith r ":" = true ->
                   Js.sliceFrom 1 r <> Js.sliceFrom 1 routeSegment)
         (skipn (S i) (Router.segmentsOf routePath)) ->
  (Js.sliceFrom 1 routeSegment <> "__proto__" ->
   params !! Js.sliceFrom 1 routeSegment = Some pathSegment)
  /\ params !! "__proto__" = None.
Proof.
  intros Hstar Hm Hr Hc Hv Hlater. unfold Router.matchDynamicRoute in Hm.
  rewrite Hstar in Hm. destruct (negb _); [discriminate Hm|].
  injection Hm as Hm. split.
  - intros Hname. now apply (bindSegments_binds _ _ _ _ _ _ _ Hm Hr Hc Hv).
  - rewrite (bindSegments_proto _ _ _ _ Hm). apply lookup_empty.
Qed.

Lemma matchDynamicRoute_binds_witness :
  (Js.includesChar "/users/:id/posts/:post" "*" = false /\
   Router.matchDynamicRoute "/users/42/posts/7" "/users/:id/posts/:post" false
   = Returns (Some {[ "id" := "42"; "post" := "7" ]})) /\
  ({[ "id" := "42"; "post" := "7" ]} : gmap string string) !! "id" = Some "42".
Proof.
  split; [split; reflexivity|].
  refine (proj1 (matchDynamicRoute_binds "/users/42/posts/7" "/users/:id/posts/:post" false
                   {[ "id" := "42"; "post" := "7" ]} 1 ":id" "42"
                   eq_refl eq_refl eq_refl eq_refl eq_refl _) _).
  - repeat constructor; intros _; discriminate.
  - discriminate.
Defined.

(** ** Discovery *)

Section DiscoveryFacts.

Import Js Router Discovery.

Lemma entry_nested_ind (P : entry -> Prop) :
  (forall name, P (File name)) ->
  (forall name children, Forall P children -> P (Dir name children)) ->
  forall e, P e.
Proof.
  intros HF HD. fix IH 1. intros [name|name children]; [apply HF|].
  apply HD. induction children as [|c children IHc]; constructor; [apply IH|exact IHc].
Qed.

Lemma fst_collect {A} (f : A -> found) l :
  fst (collect f l) = flat_map (fun x => fst (f x)) l.
Proof. induction l as [|x l IH]; [reflexivity|]. cbn. now rewrite <- IH. Qed.

Lemma snd_collect {A} (f : A -> found) l :
  snd (collect f l) = flat_map (fun x => snd (f x)) l.
Proof. induction l as [|x l IH]; [reflexivity|]. cbn. now rewrite <- IH. Qed.

Lemma Forall_flat_map_intro {A B} (Q : B -> Prop) (f : A -> list B) l :
  Forall (fun x => Forall Q (f x)) l -> Forall Q (flat_map f l).
Proof.
  induction 1 as [|x l Hx _ IH]; [constructor|]. cbn. apply Forall_app. now split.
Qed.

(** The shape of [scanEntry] on a directory: nothing, the API scan, or the
    scan of the children under a prefix that is the old one or extends it
    by a slash and more. *)
Lemma scanEntry_dir type dir prefix file children :
  scanEntry type dir prefix (Dir file children) = ([], [])
  \/ scanEntry type dir prefix (Dir file children)
     = ([], scanApiDirectory (pathJoin dir file) "/api" children)
  \/ scanEntry type dir prefix (Dir file children)
     = collect (scanEntry type (pathJoin dir file) prefix) children
  \/ exists rest,
       scanEntry type dir prefix (Dir file children)
       = collect (scanEntry type (pathJoin dir file) (prefix +:+ "/" +:+ rest)) children.
Proof.
  cbn [scanEntry].
  destruct (isUtilityFolder file); [now left|].
  destruct (String.eqb file "api"); [right; now left|].
  destruct (startsWith file "(" && endsWith file ")"); [right; right; now left|].
  right; right; right.
  destruct (startsWith file "[[..." && endsWith file "]]");
    [now exists ("*?" +:+ sliceBetween 5 2 file)|].
  destruct (startsWith file "[..." && endsWith file "]");
    [now exists ("*" +:+ sliceBetween 4 1 file)|].
  destruct (startsWith file "[" && endsWith file "]");
    [now exists (":" +:+ sliceBetween 1 1 file)|].
  now exists file.
Qed.

(** The shape of [scanEntry] on a file. *)
Lemma scanEntry_file type dir prefix file :
  scanEntry type dir prefix (File file) = ([], [])
  \/ scanEntry type dir prefix (File file) = ([pageRoute prefix (pathJoin dir file)], [])
  \/ scanEntry type dir prefix (File file)
     = ([ {| path := prefix +:+ "/" +:+ before "." file; component := pathJoin dir file;
             exact := Some true; dynamic := None; params := None;
             catchAllOptional := None |} ], [])
  \/ scanEntry type dir prefix (File file)
     = ([pagesFileRoute prefix (pathJoin dir file) file], []).
Proof.
  cbn [scanEntry].
  destruct (isPageFile file); [right; now left|].
  destruct (isNotFoundFile file); [right; right; now left|].
  destruct type; [now left|].
  destruct (_ && _); [right; right; now right|now left].
Qed.

(** A property of page routes that holds for the three kinds of pushed
    routes, under an invariant of the prefix, holds for every page route of
    a scan. *)
Lemma scanEntry_pages_all (Q : Route -> Prop) (I : string -> Prop) :
  (forall prefix rest, I prefix -> I (prefix +:+ "/" +:+ rest)) ->
  (forall prefix fullPath, I prefix -> Q (pageRoute prefix fullPath)) ->
  (forall prefix fullPath name c,
     I prefix ->
     Q {| path := prefix +:+ "/" +:+ name; component := fullPath;
          exact := Some true; dynamic := None; params := None; catchAllOptional := c |}) ->
  (forall prefix fullPath file, I prefix -> Q (pagesFileRoute prefix fullPath file)) ->
  forall e type dir prefix, I prefix -> Forall Q (fst (scanEntry type dir prefix e)).
Proof.
  intros Hext Hpage Hnf Hfile. induction e as [file|file children IH] using entry_nested_ind;
    intros type dir prefix Hp.
  - destruct (scanEntry_file type dir prefix file) as [E|[E|[E|E]]]; rewrite E; cbn;
      repeat constructor; auto.
  - assert (Hall : forall d p, I p -> Forall Q (fst (collect (scanEntry type d p) children))).
    { intros d p Hi. rewrite fst_collect. apply Forall_flat_map_intro.
      eapply Forall_impl; [exact IH|]. intros c Hc. now apply Hc. }
    destruct (scanEntry_dir type dir prefix file children) as [E|[E|[E|[rest E]]]];
      rewrite E; cbn [fst]; [constructor|constructor|now apply Hall|].
    apply Hall. now apply Hext.
Qed.

Lemma scanDirectory_pages_all (Q : Route -> Prop) (I : string -> Prop) :
  (forall prefix rest, I prefix -> I (prefix +:+ "/" +:+ rest)) ->
  (forall prefix fullPath, I prefix -> Q (pageRoute prefix fullPath)) ->
  (forall prefix fullPath name c,
     I prefix ->
     Q {| path := prefix +:+ "/" +:+ name; component := fullPath;
          exact := Some true; dynamic := None; params := None; catchAllOptional := c |}) ->
  (forall prefix fullPath file, I prefix -> Q (pagesFileRoute prefix fullPath file)) ->
  forall type dir prefix files,
    I prefix -> Forall Q (fst (scanDirectory type dir prefix files)).
Proof.
  intros Hext Hpage Hnf Hfile type dir prefix files Hp.
  unfold scanDirectory. rewrite fst_collect. apply Forall_flat_map_intro.
  apply Forall_forall. intros e _. now apply (scanEntry_pages_all Q I).
Qed.

(** The page routes of [getRoutes] come from scans that start at the empty
    prefix. *)
Lemma getRoutes_pages_all (Q : Route -> Prop) appDir src result :
  (forall type dir files, Forall Q (fst (scanDirectory type dir "" files))) ->
  getRoutes appDir src = Returns result ->
  Forall Q (fst result).
Proof.
  intros Hscan. unfold getRoutes. destruct src as [files|]; [|intros [= <-]; constructor].
  unfold scanChild.
  destruct (child "app" files) as [[?|? appFiles]|]; try discriminate;
  destruct (child "pages" files) as [[?|? pagesFiles]|]; try discriminate;
  cbn [both fst snd app];
  repeat match goal with
         | |- context [match ?l with [] => _ | _ :: _ => _ end] => destruct l eqn:?
         end;
  intros [= <-]; cbn [both fst snd app];
  repeat (apply Forall_app; split); try apply Hscan; try constructor;
  try (match goal with H : _ = _ :: _ |- _ => rewrite <- H end);
  repeat (apply Forall_app; split); try apply Hscan; try constructor.
Qed.

End DiscoveryFacts.

(** X4: every page route returned by [getRoutes] is exact exactly when it is
    not dynamic. *)
Theorem getRoutes_exact_iff_static
  (appDir : string) (src : option (list Router.entry)) (result : Discovery.found) :
  Discovery.getRoutes appDir src = Returns result ->
  Forall (fun r => Router.truthy (Router.exact r) = negb (Router.truthy (Router.dynamic r)))
         (fst result).
Proof.
  apply getRoutes_pages_all. intros type dir files.
  apply (scanDirectory_pages_all _ (fun _ => True)); auto.
  - intros prefix fullPath _. unfold Discovery.pageRoute. cbn.
    now destruct (_ || _).
  - intros prefix fullPath file _. unfold Discovery.pagesFileRoute.
    repeat match goal with
           | |- context [if ?b then _ else _] => destruct b
           end; reflexivity.
Qed.

Lemma getRoutes_exact_iff_static_witness :
  exists result,
    Discovery.getRoutes "/p" (Some Samples.appProject) = Returns result /\
    List.length (fst result) = 4%nat /\
    Forall (fun r => Router.truthy (Router.exact r) = negb (Router.truthy (Router.dynamic r)))
           (fst result).
Proof.
  eexists. split; [reflexivity|]. split; [reflexivity|].
  exact (getRoutes_exact_iff_static "/p" (Some Samples.appProject) _ eq_refl).
Defined.

Section DiscoveryPaths.

Import Js Router Discovery.

Lemma rooted_extend prefix rest : rooted prefix -> rooted (prefix +:+ "/" +:+ rest).
Proof.
  intros [->|H]; right; [exact (startsWith_slash rest)|]. now apply startsWith_app_l.
Qed.

Lemma rooted_slash prefix rest : rooted prefix -> startsWith (prefix +:+ "/" +:+ rest) "/" = true.
Proof. intros H. destruct (rooted_extend prefix rest H) as [E|E]; [|exact E]. now destruct prefix. Qed.

Lemma replaceFirst_slash s pat rep :
  startsWith s "/" = true -> startsWith rep "/" = true ->
  startsWith (replaceFirst s pat rep) "/" = true.
Proof.
  intros Hs Hrep. destruct s as [|a s]; [discriminate Hs|].
  cbn [replaceFirst]. destruct (String.prefix pat (String a s)).
  - now apply startsWith_app_l.
  - unfold startsWith in *. rewrite prefix_cons in *.
    apply andb_true_iff in Hs as [-> _]. now rewrite prefix_empty.
Qed.

Lemma pageRoute_slash prefix fullPath :
  rooted prefix -> startsWith (path (pageRoute prefix fullPath)) "/" = true.
Proof.
  intros H. unfold pageRoute. cbn [path].
  assert (H0 : startsWith (if negb (nonEmpty prefix) then "/" else prefix) "/" = true).
  { destruct H as [->|H]; [reflexivity|]. destruct prefix; [discriminate H|exact H]. }
  destruct (includes _ "/*?"); [|exact H0]. now apply replaceFirst_slash.
Qed.

Lemma pagesFileRoute_slash prefix fullPath file :
  rooted prefix -> startsWith (path (pagesFileRoute prefix fullPath file)) "/" = true.
Proof.
  intros H. unfold pagesFileRoute.
  repeat match goal with
         | |- context [if ?b then _ else _] => destruct b
         end; cbn [path]; try reflexivity;
    first [ apply (rooted_slash prefix (":" +:+ _) H)
          | apply (rooted_slash prefix ("*" +:+ _) H)
          | apply (rooted_slash prefix _ H) ].
Qed.

Lemma startsWith_refl s : startsWith s s = true.
Proof.
  unfold startsWith. induction s as [|a s IH]; [reflexivity|].
  now rewrite prefix_cons, Ascii.eqb_refl.
Qed.

(** Every route pushed by the API scan has a path that begins with the
    prefix the scan was started with. *)
Lemma scanApiEntry_under_prefix e :
  forall dir prefix,
    Forall (fun r => startsWith (path r) prefix = true) (scanApiEntry dir prefix e).
Proof.
  induction e as [file|file children IH] using entry_nested_ind; intros dir prefix.
  - cbn [scanApiEntry]. destruct (_ && negb _); [|constructor].
    repeat match goal with
           | |- context [if ?b then _ else _] => destruct b eqn:?
           end; cbn; (constructor; [|constructor]); cbn [path];
      first [ apply startsWith_refl
            | apply startsWith_app
            | destruct prefix; [reflexivity|discriminate] ].
  - assert (Hall : forall d rest,
               Forall (fun r => startsWith (path r) prefix = true)
                      (flat_map (scanApiEntry d (prefix +:+ rest)) children)).
    { intros d rest. apply Forall_flat_map_intro.
      eapply Forall_impl; [exact IH|]. intros c Hc. cbn beta.
      eapply Forall_impl; [apply (Hc d (prefix +:+ rest))|].
      intros r Hr. exact (startsWith_trans _ _ _ Hr). }
    cbn [scanApiEntry].
    repeat match goal with
           | |- context [if ?b then _ else _] => destruct b
           end; apply Hall.
Qed.

Lemma scanApiDirectory_under_prefix dir prefix files :
  Forall (fun r => startsWith (path r) prefix = true) (scanApiDirectory dir prefix files).
Proof.
  unfold scanApiDirectory. apply Forall_flat_map_intro.
  apply Forall_forall. intros e _. apply scanApiEntry_under_prefix.
Qed.

(** The API routes of a page scan all come from API scans started at
    ["/api"]. *)
Lemma scanEntry_api_all (Q : Route -> Prop) :
  (forall dir files, Forall Q (scanApiDirectory dir "/api" files)) ->
  forall e type dir prefix, Forall Q (snd (scanEntry type dir prefix e)).
Proof.
  intros Hapi. induction e as [file|file children IH] using entry_nested_ind;
    intros type dir prefix.
  - destruct (scanEntry_file type dir prefix file) as [E|[E|[E|E]]]; rewrite E; constructor.
  - assert (Hall : forall d p, Forall Q (snd (collect (scanEntry type d p) children))).
    { intros d p. rewrite snd_collect. apply Forall_flat_map_intro.
      eapply Forall_impl; [exact IH|]. intros c Hc. apply Hc. }
    destruct (scanEntry_dir type dir prefix file children) as [E|[E|[E|[rest E]]]];
      rewrite E; cbn [snd]; [constructor|apply Hapi|apply Hall|apply Hall].
Qed.

Lemma scanDirectory_api_all (Q : Route -> Prop) :
  (forall dir files, Forall Q (scanApiDirectory dir "/api" files)) ->
  forall type dir prefix files, Forall Q (snd (scanDirectory type dir prefix files)).
Proof.
  intros Hapi type dir prefix files. unfold scanDirectory. rewrite snd_collect.
  apply Forall_flat_map_intro. apply Forall_forall. intros e _.
  now apply scanEntry_api_all.
Qed.

Lemma getRoutes_api_all (Q : Route -> Prop) appDir src result :
  (forall dir files, Forall Q (scanApiDirectory dir "/api" files)) ->
  getRoutes appDir src = Returns result ->
  Forall Q (snd result).
Proof.
  intros Hapi. pose proof (scanDirectory_api_all Q Hapi) as Hscan.
  unfold getRoutes. destruct src as [files|]; [|intros [= <-]; constructor].
  unfold scanChild.
  destruct (child "app" files) as [[?|? appFiles]|]; try discriminate;
  destruct (child "pages" files) as [[?|? pagesFiles]|]; try discriminate;
  cbn [both fst snd app];
  repeat match goal with
         | |- context [match ?l with [] => _ | _ :: _ => _ end] => destruct l eqn:?
         end;
  intros [= <-]; cbn [both fst snd app];
  repeat (apply Forall_app; split); try apply Hscan; try constructor.
Qed.

End DiscoveryPaths.

(** X5: every page route and every API route returned by [getRoutes] has a
    path that begins with a slash, and every API route has a path that begins
    with ["/api"], however deep the [api] directory lies. *)
Theorem getRoutes_paths_rooted
  (appDir : string) (src : option (list Router.entry)) (result : Discovery.found) :
  Discovery.getRoutes appDir src = Returns result ->
  Forall (fun r => Js.startsWith (Router.path r) "/" = true) (fst result)
  /\ Forall (fun r => Js.startsWith (Router.path r) "/api" = true) (snd result).
Proof.
  intros H. split.
  - revert H. apply getRoutes_pages_all. intros type dir files.
    apply (scanDirectory_pages_all _ Discovery.rooted).
    + apply rooted_extend.
    + apply pageRoute_slash.
    + intros prefix fullPath name c Hp. exact (rooted_slash prefix name Hp).
    + apply pagesFileRoute_slash.
    + now left.
  - revert H. apply getRoutes_api_all. intros dir files.
    apply scanApiDirectory_under_prefix.
Qed.

Lemma getRoutes_paths_rooted_witness :
  exists result,
    Discovery.getRoutes "/p" (Some Samples.flatProject) = Returns result /\
    map Router.path (fst result) = ["/"; "/about"; "/docs/*rest"; "/docs/:[...x]"; "/docs/:id"] /\
    map Router.path (snd result) = ["/api/health"] /\
    Forall (fun r => Js.startsWith (Router.path r) "/api" = true) (snd result).
Proof.
  eexists. split; [reflexivity|]. split; [reflexivity|]. split; [reflexivity|].
  exact (proj2 (getRoutes_paths_rooted "/p" (Some Samples.flatProject) _ eq_refl)).
Defined.

Section DiscoveryLocations.

Import Js Router Discovery.










End DiscoveryLocations.




(** ** Client-side parameters *)

(** X8: over route paths without a star the client-side
    [parseParamsFromPath] agrees with the server: its result is the query
    parameters overlaid with the parameters that [matchRoute] gives when
    every route path is taken as a dynamic route, and the query parameters
    alone when no route matches. *)
Theorem parseParamsFromPath_agrees_with_matchRoute
  (path : string) (queryParams : gmap string string) (routePaths : list string) :
  Forall (fun routePath => Js.includesChar routePath "*" = false) routePaths ->
  Client.parseParamsFromPath path queryParams (Some routePaths)
  = match Router.matchRoute path (map Client.asDynamicRoute routePaths) with
    | Returns (Some (_, params)) => Returns (params ∪ queryParams)
    | Returns None => Returns queryParams
    | Throws err => Throws err
    end.
Proof.
  unfold Client.parseParamsFromPath.
  induction 1 as [|routePath routePaths Hstar _ IH]; [reflexivity|].
  cbn [Client.parseLoop map Router.matchRoute].
  unfold Router.tryRoute, Client.asDynamicRoute at 1. cbn.
  unfold Router.matchDynamicRoute. rewrite Hstar.
  rewrite (Nat.eqb_sym (List.length (Router.segmentsOf routePath))).
  destruct (negb _); [exact IH|].
  destruct (Router.bindSegments _ _ ∅); [reflexivity|exact IH].
Qed.

Lemma parseParamsFromPath_agrees_with_matchRoute_witness :
  Forall (fun routePath => Js.includesChar routePath "*" = false) ["/about"; "/blog/:slug"] /\
  Client.parseParamsFromPath "/blog/hello" {[ "slug" := "q"; "page" := "2" ]}
    (Some ["/about"; "/blog/:slug"])
  = Returns {[ "slug" := "hello"; "page" := "2" ]}.
Proof.
  split; [repeat constructor|].
  rewrite (parseParamsFromPath_agrees_with_matchRoute "/blog/hello"
             {[ "slug" := "q"; "page" := "2" ]} ["/about"; "/blog/:slug"]);
    [|repeat constructor].
  vm_compute. reflexivity.
Defined.

(** X9: on the client a route path with a catch-all segment accepts every
    path: the segments before the catch-all are not compared, and the route
    paths listed after it are never tried. The parameter is bound to the
    path segments from the catch-all position on and replaces a query
    parameter of the same name, unless it is named [__proto__]: the
    assignment then creates no property and the query parameters are
    returned as they are. *)
Theorem parseParamsFromPath_catch_all_accepts_all
  (path routePath : string) (later : list string) (queryParams : gmap string string)
  (i : nat) (segment : string) :
  Js.findIndex (fun s => Js.startsWith s "*") (Router.segmentsOf routePath) = Some i ->
  nth_error (Router.segmentsOf routePath) i = Some segment ->
  exists params,
    Client.parseParamsFromPath path queryParams (Some (routePath :: later)) = Returns params
    /\ (Js.sliceFrom 1 segment <> "__proto__" ->
        params !! Js.sliceFrom 1 segment
        = Some (Js.join "/" (skipn i (Router.segmentsOf path))))
    /\ (forall name, name <> Js.sliceFrom 1 segment -> params !! name = queryParams !! name)
    /\ (Js.sliceFrom 1 segment = "__proto__" -> params = queryParams).
Proof.
  intros Hidx Hseg. eexists. split; [|split; [|split]].
  - unfold Client.parseParamsFromPath. cbn [Client.parseLoop].
    rewrite (catch_all_includes _ _ Hidx), Hidx, Hseg. reflexivity.
  - intros Hname. apply lookup_union_Some_l. now apply lookup_setProperty_eq.
  - intros name Hne. rewrite lookup_union_r; [reflexivity|].
    rewrite lookup_setProperty_ne by congruence. apply lookup_empty.
  - intros ->. rewrite setProperty_proto. apply (left_id_L ∅ (∪)).
Qed.

Lemma parseParamsFromPath_catch_all_accepts_all_witness :
  (Js.findIndex (fun s => Js.startsWith s "*") (Router.segmentsOf "/docs/*path") = Some 1%nat /\
   nth_error (Router.segmentsOf "/docs/*path") 1 = Some "*path") /\
  Router.matchDynamicRoute "/blog/hello" "/docs/*path" false = Returns None /\
  exists params,
    Client.parseParamsFromPath "/blog/hello" ∅ (Some ["/docs/*path"; "/blog/:slug"])
    = Returns params /\
    params !! "path" = Some "hello".
Proof.
  split; [split; reflexivity|]. split; [reflexivity|].
  destruct (parseParamsFromPath_catch_all_accepts_all "/blog/hello" "/docs/*path"
              ["/blog/:slug"] ∅ 1 "*path" eq_refl eq_refl) as (params & H1 & H2 & _).
  exists params. split; [exact H1|]. apply H2. discriminate.
Defined.

(** ** Locale prefix: shape and round trip *)

Section LocaleShape.

Import Js Locale.

Lemma isAlpha_not_separator a :
  isAlpha a = true ->
  Ascii.eqb a "/" = false /\ Ascii.eqb a "?" = false /\ Ascii.eqb a "#" = false.
Proof.
  destruct a as [[] [] [] [] [] [] [] []]; intros H; try discriminate H;
    repeat split; reflexivity.
Qed.

(** A locale-shaped segment holds letters and a dash only. *)
Lemma localePattern_clean s :
  localePattern s = true -> nonEmpty s = true /\ lacks "/" s /\ lacks "?" s /\ lacks "#" s.
Proof.
  unfold localePattern, lacks.
  destruct s as [|a [|b [|d [|e [|f [|g s]]]]]]; try discriminate; intros H.
  - apply andb_true_iff in H as [Ha Hb].
    destruct (isAlpha_not_separator a Ha) as (A1 & A2 & A3).
    destruct (isAlpha_not_separator b Hb) as (B1 & B2 & B3).
    cbn [includesChar nonEmpty]. now rewrite A1, A2, A3, B1, B2, B3.
  - apply andb_true_iff in H as [H Hf]. apply andb_true_iff in H as [H He].
    apply andb_true_iff in H as [H Hd]. apply andb_true_iff in H as [Ha Hb].
    destruct (isAlpha_not_separator a Ha) as (A1 & A2 & A3).
    destruct (isAlpha_not_separator b Hb) as (B1 & B2 & B3).
    destruct (isAlpha_not_separator e He) as (E1 & E2 & E3).
    destruct (isAlpha_not_separator f Hf) as (F1 & F2 & F3).
    apply Ascii.eqb_eq in Hd. subst d.
    cbn [includesChar nonEmpty].
    now rewrite A1, A2, A3, B1, B2, B3, E1, E2, E3, F1, F2, F3.
Qed.

Lemma lacks_app c s t : lacks c s -> lacks c t -> lacks c (s +:+ t).
Proof. unfold lacks. intros Hs Ht. now rewrite includesChar_app, Hs, Ht. Qed.

End LocaleShape.

(** X10: whatever the input, [stripLocaleFromPath] returns a path that
    begins with a slash and holds neither a question mark nor a hash: query
    and fragment are dropped. *)
Theorem stripLocaleFromPath_shape (pathname : string) :
  Js.startsWith (Locale.stripLocaleFromPath pathname) "/" = true
  /\ Js.lacks "?" (Locale.stripLocaleFromPath pathname)
  /\ Js.lacks "#" (Locale.stripLocaleFromPath pathname).
Proof.
  unfold Locale.stripLocaleFromPath.
  destruct (negb (Js.nonEmpty pathname)); [repeat split|]. simpl.
  pose proof (rawOf_lacks_query pathname) as Hq.
  pose proof (rawOf_lacks_hash pathname) as Hh.
  pose proof (segmentsOf_sound "?" _ Hq) as Sq.
  pose proof (segmentsOf_sound "#" _ Hh) as Sh.
  set (raw := Locale.rawOf pathname) in *.
  destruct (Locale.segmentsOf raw) as [|first rest]; [repeat split|].
  destruct (Locale.localePattern first).
  - destruct rest as [|r rest]; [repeat split|].
    inversion Sq as [|? ? _ Sq']; inversion Sh as [|? ? _ Sh']; subst.
    split; [apply startsWith_slash|]. split.
    + apply lacks_app; [reflexivity|]. apply (join_lacks "?" "/"); [reflexivity|].
      eapply Forall_impl; [exact Sq'|]. now intros x (_ & _ & Hx).
    + apply lacks_app; [reflexivity|]. apply (join_lacks "#" "/"); [reflexivity|].
      eapply Forall_impl; [exact Sh'|]. now intros x (_ & _ & Hx).
  - destruct (Js.startsWith raw "/") eqn:E; [now repeat split|].
    split; [apply startsWith_slash|]. split; [exact Hq|exact Hh].
Qed.

(** X11: stripping undoes prefixing. For a locale-shaped [locale] and path
    segments [rest] that are not empty and hold no slash, question mark or
    hash, the path made of [locale] followed by [rest] is stripped to the
    path made of [rest] alone (to ["/"] when [rest] is empty). *)
Theorem stripLocaleFromPath_after_prefix (locale : string) (rest : list string) :
  Locale.localePattern locale = true ->
  Forall (fun x => Js.nonEmpty x = true /\ Js.lacks "/" x /\ Js.lacks "?" x /\ Js.lacks "#" x)
         rest ->
  Locale.stripLocaleFromPath ("/" +:+ locale +:+ "/" +:+ Js.join "/" rest)
  = match rest with
    | [] => "/"
    | _ :: _ => "/" +:+ Js.join "/" rest
    end.
Proof.
  intros Hloc Hrest.
  destruct (localePattern_clean locale Hloc) as (Hne & Hs & Hq & Hh).
  assert (HjQ : Js.lacks "?" (Js.join "/" rest)).
  { apply (join_lacks "?" "/"); [reflexivity|].
    eapply Forall_impl; [exact Hrest|]. now intros x (_ & _ & Hx & _). }
  assert (HjH : Js.lacks "#" (Js.join "/" rest)).
  { apply (join_lacks "#" "/"); [reflexivity|].
    eapply Forall_impl; [exact Hrest|]. now intros x (_ & _ & _ & Hx). }
  set (p := "/" +:+ locale +:+ "/" +:+ Js.join "/" rest).
  assert (HpQ : Js.lacks "?" p).
  { unfold p. repeat (apply lacks_app; [try reflexivity; assumption|]). exact HjQ. }
  assert (HpH : Js.lacks "#" p).
  { unfold p. repeat (apply lacks_app; [try reflexivity; assumption|]). exact HjH. }
  assert (Hsegs : Locale.segmentsOf p = locale :: rest).
  { unfold p. rewrite segmentsOf_slash. unfold Locale.segmentsOf.
    change (locale +:+ "/" +:+ Js.join "/" rest)
      with (locale +:+ String "/" (Js.join "/" rest)).
    rewrite split_app_sep by exact Hs. cbn [List.filter]. rewrite Hne. f_equal.
    destruct rest as [|r rest]; [reflexivity|].
    rewrite split_join; [|discriminate|].
    - apply filter_all. eapply Forall_impl; [exact Hrest|]. now intros x (Hx & _).
    - eapply Forall_impl; [exact Hrest|]. now intros x (_ & Hx & _). }
  unfold Locale.stripLocaleFromPath.
  change (negb (Js.nonEmpty p)) with false. cbn [negb].
  rewrite (rawOf_fixed p HpQ HpH), Hsegs, Hloc. reflexivity.
Qed.

Lemma stripLocaleFromPath_after_prefix_witness :
  (Locale.localePattern "id-ID" = true /\
   Forall (fun x => Js.nonEmpty x = true /\ Js.lacks "/" x /\ Js.lacks "?" x /\ Js.lacks "#" x)
          ["docs"; "intro"]) /\
  Locale.stripLocaleFromPath "/id-ID/docs/intro" = "/docs/intro".
Proof.
  split; [split; [reflexivity|repeat constructor]|].
  apply (stripLocaleFromPath_after_prefix "id-ID" ["docs"; "intro"]);
    [reflexivity|repeat constructor].
Defined.

(** ** Locale detection *)

Section LocaleDetection.

Import Js Request.

Lemma localePrefix_sound accept matched :
  localePrefix accept = Some matched -> Locale.localePattern matched = true.
Proof.
  unfold localePrefix. destruct accept as [|a [|b rest]]; try discriminate.
  destruct (isAlpha a && isAlpha b) eqn:Eab; [|discriminate].
  destruct rest as [|d [|e [|f rest]]];
    try (intros [= <-]; exact Eab).
  destruct (Ascii.eqb d "-" && isAlpha e && isAlpha f) eqn:Edef;
    intros [= <-]; [|exact Eab].
  cbn [Locale.localePattern]. apply andb_true_iff in Edef as [Hde Hf].
  apply andb_true_iff in Hde as [Hd He]. now rewrite Eab, Hd, He, Hf.
Qed.

End LocaleDetection.

(** X12: when the request carries no usable [SATSET_LANG] cookie, the
    detected locale always has the shape of a locale, whatever the URL and
    the [accept-language] header hold: it is the first URL segment, the
    matched head of the header's first tag, or ["en-US"]. *)
Theorem detectLocale_without_cookie_is_locale_shaped
  (rawPath : string) (cookieStore : option (gmap string string))
  (acceptLanguage : option string) :
  (forall store lang,
     cookieStore = Some store -> store !! "SATSET_LANG" = Some lang -> lang = EmptyString) ->
  Locale.localePattern (fst (Request.detectLocale rawPath cookieStore acceptLanguage)) = true.
Proof.
  intros Hcookie. unfold Request.detectLocale.
  set (fallback := match match cookieStore with Some _ => _ | None => _ end with
                   | Some lang => lang | None => _ end).
  assert (Hfb : Locale.localePattern fallback = true).
  { unfold fallback. destruct cookieStore as [store|].
    - destruct (store !! "SATSET_LANG") as [lang|] eqn:E.
      + rewrite (Hcookie store lang eq_refl E). cbn [Js.nonEmpty].
        destruct acceptLanguage as [header|]; [|reflexivity].
        destruct (Js.nonEmpty header); [|reflexivity].
        destruct (Request.localePrefix _) eqn:Ep; [|reflexivity].
        exact (localePrefix_sound _ _ Ep).
      + destruct acceptLanguage as [header|]; [|reflexivity].
        destruct (Js.nonEmpty header); [|reflexivity].
        destruct (Request.localePrefix _) eqn:Ep; [|reflexivity].
        exact (localePrefix_sound _ _ Ep).
    - destruct acceptLanguage as [header|]; [|reflexivity].
      destruct (Js.nonEmpty header); [|reflexivity].
      destruct (Request.localePrefix _) eqn:Ep; [|reflexivity].
      exact (localePrefix_sound _ _ Ep). }
  destruct (Router.segmentsOf rawPath) as [|first rest]; [exact Hfb|].
  destruct (Locale.localePattern first) eqn:E; [exact E|exact Hfb].
Qed.

Lemma detectLocale_without_cookie_is_locale_shaped_witness :
  (forall store lang,
     (None : option (gmap string string)) = Some store ->
     store !! "SATSET_LANG" = Some lang -> lang = EmptyString) /\
  Request.detectLocale "/docs" None (Some " fr-CA<script>, en;q=0.8") = ("fr-CA", "/docs") /\
  Locale.localePattern
    (fst (Request.detectLocale "/docs" None (Some " fr-CA<script>, en;q=0.8"))) = true.
Proof.
  split; [intros store lang H; discriminate H|]. split; [reflexivity|].
  apply detectLocale_without_cookie_is_locale_shaped. intros store lang H. discriminate H.
Defined.

(** ** Artifact keys *)

Section ArtifactKeys.

Import Js Artifact Text.

Lemma mapChars_lacks f c s :
  (forall a, Ascii.eqb (f a) c = false) -> lacks c (mapChars f s).
Proof.
  intros Hf. unfold lacks. induction s as [|a s IH]; [reflexivity|].
  cbn. now rewrite Hf, IH.
Qed.

Lemma mapChars_id f s :
  allChars (fun a => Ascii.eqb (f a) a) s = true -> mapChars f s = s.
Proof.
  induction s as [|a s IH]; [reflexivity|]. cbn. intros H.
  apply andb_true_iff in H as [Ha Hs]. apply Ascii.eqb_eq in Ha. now rewrite Ha, IH.
Qed.

Lemma allChars_impl (p q : ascii -> bool) s :
  (forall a, p a = true -> q a = true) -> allChars p s = true -> allChars q s = true.
Proof.
  intros Hpq. induction s as [|a s IH]; [reflexivity|]. cbn. intros H.
  apply andb_true_iff in H as [Ha Hs]. now rewrite (Hpq a Ha), IH.
Qed.

Lemma allChars_lacks (p : ascii -> bool) c s :
  p c = false -> allChars p s = true -> lacks c s.
Proof.
  intros Hc. unfold lacks. induction s as [|a s IH]; [reflexivity|]. cbn. intros H.
  apply andb_true_iff in H as [Ha Hs]. rewrite (IH Hs), orb_false_r.
  destruct (Ascii.eqb_spec a c) as [->|]; [congruence|reflexivity].
Qed.

Lemma allChars_app (p : ascii -> bool) s t :
  allChars p (s +:+ t) = allChars p s && allChars p t.
Proof.
  induction s as [|a s IH]; [reflexivity|]. rewrite app_cons. cbn.
  now rewrite IH, andb_assoc.
Qed.

(** What the replacement of [sanitize] does to a plain character: the slash
    becomes an underscore, every other one is kept and is no underscore. *)
Lemma sanitize_plainChar a :
  plainChar a = true ->
  let f := fun a => if isAlpha a || isDigit a || Ascii.eqb a "_" || Ascii.eqb a "-"
                    then a else "_"%char in
  (a = "/"%char /\ f a = "_"%char) \/ (f a = a /\ a <> "_"%char).
Proof.
  destruct a as [[] [] [] [] [] [] [] []]; intros H; try discriminate H;
    first [ left; split; reflexivity | right; split; [reflexivity|discriminate] ].
Qed.

Lemma sanitize_injective s1 s2 :
  allChars plainChar s1 = true -> allChars plainChar s2 = true ->
  sanitize s1 = sanitize s2 -> s1 = s2.
Proof.
  unfold sanitize. revert s2. induction s1 as [|a s1 IH]; intros [|b s2] H1 H2 Heq;
    try reflexivity; try discriminate Heq.
  cbn in H1, H2. apply andb_true_iff in H1 as [Ha H1]. apply andb_true_iff in H2 as [Hb H2].
  cbn [mapChars] in Heq. injection Heq as Hab Heq.
  f_equal; [|now apply IH].
  destruct (sanitize_plainChar a Ha) as [[-> Ea]|[Ea Na]];
    destruct (sanitize_plainChar b Hb) as [[-> Eb]|[Eb Nb]]; cbv zeta in *;
    try reflexivity; congruence.
Qed.

Lemma relative_below root rest :
  relative root (Router.pathJoin root rest) = rest.
Proof.
  unfold relative, Router.pathJoin.
  rewrite <- (app_assoc_string root "/" rest), startsWith_app.
  replace (String.length root + 1)%nat with (String.length (root +:+ "/"))
    by (rewrite length_app; reflexivity).
  apply sliceFrom_app.
Qed.

Lemma stripExtension_stem stem ext :
  lacks "." stem -> lacks "." ext -> nonEmpty ext = true ->
  stripExtension (stem +:+ "." +:+ ext) = stem.
Proof.
  intros Hs He Hne. unfold stripExtension.
  change (stem +:+ "." +:+ ext) with (stem +:+ String "." ext).
  rewrite split_app_sep by exact Hs. rewrite (split_without_sep "." ext He).
  cbn. now rewrite Hne.
Qed.

End ArtifactKeys.

(** X13: the key of an API artifact holds only letters, digits, underscores
    and dashes, so the artifact is a file directly inside the artifact
    directory, with the key as the stem of its name. *)
Theorem safeComponentKey_is_a_file_name (root tempDir component : string) :
  (forall c, Text.keyChar c = false ->
             Js.lacks c (Artifact.safeComponentKey root component))
  /\ Artifact.basename (Artifact.compiledApiPath root tempDir component)
     = Artifact.safeComponentKey root component +:+ ".api.server.js".
Proof.
  assert (Hsafe : forall c, Text.keyChar c = false ->
                            Js.lacks c (Artifact.safeComponentKey root component)).
  { intros c Hc. unfold Artifact.safeComponentKey, Artifact.sanitize.
    apply mapChars_lacks. intros a. unfold Text.keyChar in Hc.
    destruct (Js.isAlpha a || Js.isDigit a || Ascii.eqb a "_" || Ascii.eqb a "-") eqn:Ea.
    - destruct (Ascii.eqb_spec a c) as [->|]; [congruence|reflexivity].
    - destruct (Ascii.eqb_spec "_"%char c) as [<-|]; [discriminate Hc|reflexivity]. }
  split; [exact Hsafe|].
  unfold Artifact.compiledApiPath. apply basename_pathJoin.
  apply lacks_app; [now apply Hsafe|reflexivity].
Qed.

(** X14: keys do not collide on plainly named sources. When two sources
    below the root have relative paths made of letters, digits, dashes and
    slashes, followed by a dot and an extension of letters and digits, equal
    keys mean equal relative paths (up to the extension). *)
Theorem safeComponentKey_injective_on_plain_paths (root stem1 stem2 ext1 ext2 : string) :
  Text.allChars Text.plainChar stem1 = true ->
  Text.allChars Text.plainChar stem2 = true ->
  Text.allChars Text.alnum ext1 = true -> Js.nonEmpty ext1 = true ->
  Text.allChars Text.alnum ext2 = true -> Js.nonEmpty ext2 = true ->
  Artifact.safeComponentKey root (Router.pathJoin root (stem1 +:+ "." +:+ ext1))
  = Artifact.safeComponentKey root (Router.pathJoin root (stem2 +:+ "." +:+ ext2)) ->
  stem1 = stem2.
Proof.
  intros Hs1 Hs2 He1 Hn1 He2 Hn2.
  assert (Hkey : forall stem ext,
             Text.allChars Text.plainChar stem = true ->
             Text.allChars Text.alnum ext = true -> Js.nonEmpty ext = true ->
             Artifact.safeComponentKey root (Router.pathJoin root (stem +:+ "." +:+ ext))
             = Artifact.sanitize stem).
  { intros stem ext Hs He Hn. unfold Artifact.safeComponentKey.
    rewrite relative_below. unfold Artifact.slashes.
    rewrite mapChars_id.
    - rewrite stripExtension_stem; [reflexivity| | |exact Hn].
      + now apply (allChars_lacks Text.plainChar).
      + now apply (allChars_lacks Text.alnum).
    - rewrite !allChars_app. apply andb_true_iff. split; [|apply andb_true_iff; split].
      + revert Hs. apply allChars_impl. intros a Ha.
        destruct (Ascii.eqb_spec a "\"%char) as [->|]; [discriminate Ha|apply Ascii.eqb_refl].
      + reflexivity.
      + revert He. apply allChars_impl. intros a Ha.
        destruct (Ascii.eqb_spec a "\"%char) as [->|]; [discriminate Ha|apply Ascii.eqb_refl]. }
  rewrite (Hkey stem1 ext1 Hs1 He1 Hn1), (Hkey stem2 ext2 Hs2 He2 Hn2).
  now apply sanitize_injective.
Qed.

Lemma safeComponentKey_injective_on_plain_paths_witness :
  (Text.allChars Text.plainChar "src/app/api/users/route" = true /\
   Text.allChars Text.alnum "ts" = true /\ Js.nonEmpty "ts" = true) /\
  Artifact.safeComponentKey "/p" "/p/src/app/api/users/route.ts" = "src_app_api_users_route" /\
  (Artifact.safeComponentKey "/p" (Router.pathJoin "/p" ("src/app/api/users/route" +:+ "." +:+ "ts"))
   = Artifact.safeComponentKey "/p" (Router.pathJoin "/p" ("src/app/api/users/route" +:+ "." +:+ "js")) ->
   "src/app/api/users/route" = "src/app/api/users/route").
Proof.
  split; [repeat split|]. split; [reflexivity|].
  apply (safeComponentKey_injective_on_plain_paths "/p" "src/app/api/users/route"
           "src/app/api/users/route" "ts" "js"); reflexivity.
Defined.

(** ** Compiler calls *)

(** X15: one resolution of a page calls the compiler once, or twice when
    the first call failed for lack of disk space: the second call then
    follows the wipe of the artifact directory, has sourcemaps switched off
    and decides the result. There is never a third call. *)
Theorem safeBundleServer_attempts
  (bundler : string -> string -> bool -> outcome unit) (entry outfile : string) :
  let run := Server.safeBundleServer bundler entry outfile in
  (Eff.trace run = [BundleServer entry outfile true]
   /\ snd run = bundler entry outfile true
   /\ forall err, bundler entry outfile true = Throws err ->
                  Server.isDiskSpaceError (Server.errorMessage err) = false)
  \/ (exists err,
        bundler entry outfile true = Throws err
        /\ Server.isDiskSpaceError (Server.errorMessage err) = true
        /\ Eff.trace run
           = [BundleServer entry outfile true; WipeTempDir; BundleServer entry outfile false]
        /\ snd run = bundler entry outfile false).
Proof.
  cbv zeta. unfold Server.safeBundleServer, Server.bundleServer, Eff.call, Eff.tryCatch,
    Eff.trace.
  destruct (bundler entry outfile true) as [[]|err] eqn:E1.
  - left. repeat split. intros err H. discriminate H.
  - destruct (Server.isDiskSpaceError (Server.errorMessage err)) eqn:Ed.
    + right. exists err. repeat split; [exact Ed|..];
        cbn; destruct (bundler entry outfile false) as [[]|]; reflexivity.
    + left. cbn. repeat split. intros err' [= <-]. exact Ed.
Qed.

(** X16: a page artifact is required only after a compiler call for it has
    succeeded; when the compilation fails, the handler answers with status
    500 and the overlay and requires nothing. *)
Theorem loadPageModule_requires_only_compiled
  (tempDir : string) (bundler : string -> string -> bool -> outcome unit)
  (requireModule : string -> outcome value)
  (generateErrorOverlayHTML : string -> string -> string) (route : Router.Route) :
  let source := Router.component route in
  let artifact := Artifact.compiledServerPath tempDir source in
  let run := Server.loadPageModule tempDir bundler requireModule generateErrorOverlayHTML
               route in
  (forall file, In (RequireModule file) (Eff.trace run) ->
                file = artifact
                /\ (bundler source artifact true = Returns tt
                    \/ bundler source artifact false = Returns tt))
  /\ (forall err, snd (Server.safeBundleServer bundler source artifact) = Throws err ->
                  snd run = Returns None
                  /\ exists done overlay,
                       Eff.trace run = done ++ [WriteHead 500 {[ "Content-Type" := "text/html" ]};
                                                End (Some overlay)]).
Proof.
  cbv zeta. unfold Server.loadPageModule, Server.safeBundleServer, Server.bundleServer,
    Server.require, Eff.call, Eff.emit, Eff.tryCatch, Eff.trace.
  set (source := Router.component route).
  set (artifact := Artifact.compiledServerPath tempDir source).
  destruct (bundler source artifact true) as [[]|err1] eqn:E1.
  - split.
    + intros file. cbn. destruct (requireModule artifact); cbn;
        intros H; repeat (destruct H as [H|H]; try discriminate H);
        try contradiction; injection H as <-; auto.
    + intros err H. discriminate H.
  - destruct (Server.isDiskSpaceError (Server.errorMessage err1)) eqn:Ed.
    + destruct (bundler source artifact false) as [[]|err2] eqn:E2.
      * split.
        -- intros file. cbn. destruct (requireModule artifact); cbn;
             intros H; repeat (destruct H as [H|H]; try discriminate H);
             try contradiction; injection H as <-; auto.
        -- intros err H. discriminate H.
      * split.
        -- intros file. cbn. intros H.
           repeat (destruct H as [H|H]; try discriminate H). contradiction.
        -- intros err _. cbn. split; [reflexivity|].
           exists [BundleServer source artifact true; WipeTempDir;
                   BundleServer source artifact false].
           eexists. reflexivity.
    + split.
      * intros file. cbn. intros H.
        repeat (destruct H as [H|H]; try discriminate H). contradiction.
      * intros err _. cbn. split; [reflexivity|].
        exists [BundleServer source artifact true]. eexists. reflexivity.
Qed.

(** ** Method dispatch without a default export *)

Section MethodExports.

Import Server.

Lemma lookup_method_exports (fields : list (string * value)) (ms : list string) (k : string) :
  ~ In k ms ->
  Val.lookup
    (flat_map (fun m => if Val.isFunction (Val.get (Obj fields) m)
                        then [(m, Val.get (Obj fields) m)] else []) ms) k
  = Undefined.
Proof.
  induction ms as [|m ms IH]; intros Hin; [reflexivity|].
  cbn [flat_map]. destruct (Val.isFunction _).
  - cbn. destruct (String.eqb_spec m k) as [->|]; [exfalso; apply Hin; now left|].
    apply IH. intros H. apply Hin. now right.
  - cbn. apply IH. intros H. apply Hin. now right.
Qed.

End MethodExports.

(** X17: for a handler module without a default-exported function, the
    export named by the upper-cased request method is called when it is a
    function and the method is one of GET, POST, PUT, PATCH, DELETE and
    OPTIONS; for every other method, such as HEAD, the answer is 405 even
    when an export of that name exists. *)
Theorem chooseHandler_without_default
  (fields : list (string * value)) (reqMethod : option string) :
  Val.isFunction (Val.lookup fields "default") = false ->
  let method := Server.methodOf reqMethod in
  (In method Server.methods -> Val.isFunction (Val.lookup fields method) = true ->
   Server.chooseHandler (Obj fields) reqMethod
   = Server.CallMethodExport method (Val.lookup fields method))
  /\ (~ In method Server.methods \/ Val.isFunction (Val.lookup fields method) = false ->
      Server.chooseHandler (Obj fields) reqMethod = Server.MethodNotAllowed).
Proof.
  intros Hdef method.
  assert (Hcases : Server.chooseHandler (Obj fields) reqMethod
                   = if Val.isFunction (Val.lookup fields method)
                        && (if in_dec string_dec method Server.methods then true else false)
                     then Server.CallMethodExport method (Val.lookup fields method)
                     else Server.MethodNotAllowed).
  { unfold Server.chooseHandler, Server.resolveHandler. fold method.
    cbn [Val.isTruthy negb Val.isFunction Val.get]. rewrite Hdef.
    destruct (in_dec string_dec method Server.methods) as [Hin|Hnin].
    - rewrite andb_true_r.
      assert (Hd : forall k, In k Server.methods -> String.eqb k "default" = false).
      { intros k Hk. cbn in Hk.
        repeat (destruct Hk as [<-|Hk]; [reflexivity|]). contradiction. }
      cbn in Hin.
      repeat (destruct Hin as [Hm|Hin];
              [rewrite <- Hm; cbn [flat_map Server.methods app];
               destruct (Val.isFunction (Val.lookup fields "GET")) eqn:?;
               destruct (Val.isFunction (Val.lookup fields "POST")) eqn:?;
               destruct (Val.isFunction (Val.lookup fields "PUT")) eqn:?;
               destruct (Val.isFunction (Val.lookup fields "PATCH")) eqn:?;
               destruct (Val.isFunction (Val.lookup fields "DELETE")) eqn:?;
               destruct (Val.isFunction (Val.lookup fields "OPTIONS")) eqn:?;
               cbn; repeat match goal with H : Val.isFunction _ = _ |- _ => rewrite H end;
               reflexivity|]).
      contradiction.
    - rewrite andb_false_r.
      pose proof (lookup_method_exports fields Server.methods method Hnin) as Hm.
      assert (Hnd : ~ In "default" Server.methods).
      { cbn. intros H. repeat (destruct H as [H|H]; [discriminate H|]). exact H. }
      pose proof (lookup_method_exports fields Server.methods "default" Hnd) as Hdf.
      cbn [Val.get] in Hm, Hdf.
      destruct (flat_map _ Server.methods) as [|kv out] eqn:Eout; [reflexivity|].
      cbn [Val.isTruthy Val.get andb]. now rewrite Hm, Hdf. }
  rewrite Hcases. split.
  - intros Hin Hfn. rewrite Hfn.
    destruct (in_dec string_dec method Server.methods); [reflexivity|contradiction].
  - intros [Hnin|Hfn].
    + destruct (in_dec string_dec method Server.methods); [contradiction|].
      now rewrite andb_false_r.
    + now rewrite Hfn.
Qed.

Lemma chooseHandler_without_default_witness :
  Val.isFunction (Val.lookup [("GET", Fun 1 1); ("HEAD", Fun 2 1)] "default") = false /\
  Server.methodOf (Some "head") = "HEAD" /\
  Server.chooseHandler (Obj [("GET", Fun 1 1); ("HEAD", Fun 2 1)]) (Some "head")
  = Server.MethodNotAllowed.
Proof.
  split; [reflexivity|]. split; [reflexivity|].
  apply (chooseHandler_without_default [("GET", Fun 1 1); ("HEAD", Fun 2 1)] (Some "head")
           eq_refl).
  left. cbn. intros H. repeat (destruct H as [H|H]; [discriminate H|]). exact H.
Defined.

(** ** Sending responses *)

Section SendFacts.

Import Response.

(** The shape of what [sendSatsetResponse] does: one head, then the end of
    the response or the hand-over to a stream. *)
Lemma sendSatsetResponse_trace jsonStringify satRes :
  exists status headers last,
    sendSatsetResponse jsonStringify satRes
    = ([WriteHead status headers; last], Returns tt)
    /\ ((exists text, last = End text) \/ last = Pipe (body satRes)).
Proof.
  unfold sendSatsetResponse.
  destruct (hasHeader (Response.headers satRes) "Location");
    [do 3 eexists; split; [reflexivity|left; now eexists]|].
  destruct (body satRes) eqn:Eb;
    try (do 3 eexists; split; [reflexivity|left; now eexists]).
  destruct (isStreamLike _);
    do 3 eexists; (split; [reflexivity|]); [now right|left; now eexists].
Qed.

End SendFacts.


(** ** Middleware *)

(** X19: [runMiddleware] never throws, and it reports the request as
    answered exactly when it has written a response: with result [true] the
    trace ends with one head followed by the end of the response or by the
    hand-over of the response to a stream body, with result [false] nothing
    has been written on the response. *)
Theorem runMiddleware_answers_iff_handled
  (root tempDir : string) (statMtime : string -> option Z)
  (bundler : string -> string -> bool -> outcome unit)
  (requireModule : string -> outcome value) (jsonStringify : value -> string)
  (generateErrorOverlayHTML : string -> string -> string)
  (invoke : value -> outcome (option Response.SatsetResponse)) :
  exists done handled,
    Middleware.runMiddleware root tempDir statMtime bundler requireModule jsonStringify
      generateErrorOverlayHTML invoke = (done, Returns handled)
    /\ (handled = true ->
        exists before status headers last,
          done = before ++ [WriteHead status headers; last]
          /\ ((exists text, last = End text) \/ (exists body, last = Pipe body))
          /\ Forall (fun e => Eff.isBundle e = true \/ e = WipeTempDir
                              \/ exists f, e = RequireModule f) before)
    /\ (handled = false ->
        Forall (fun e => Eff.isBundle e = true \/ e = WipeTempDir
                         \/ exists f, e = RequireModule f) done).
Proof.
  unfold Middleware.runMiddleware.
  destruct (find _ _) as [srcPath|];
    [|exists [], false; split; [reflexivity|]; split; [discriminate|constructor]].
  set (out := Router.pathJoin tempDir _).
  unfold Middleware.safeBundle, Server.bundleServer, Server.require, Eff.call, Eff.emit,
    Eff.tryCatch, Eff.throw, mbind, eff_bind, mret, eff_ret.
  repeat
    (match goal with
     | |- context [bundler ?a ?b ?c] => destruct (bundler a b c) as [[]|?]
     | |- context [Server.isDiskSpaceError ?m] => destruct (Server.isDiskSpaceError m)
     | |- context [requireModule ?f] => destruct (requireModule f)
     | |- context [negb ?b] => destruct (negb b)
     | |- context [invoke ?f] => destruct (invoke f) as [[?|]|?]
     | |- context [Middleware.isNext ?r] => destruct (Middleware.isNext r)
     | |- context [Response.sendSatsetResponse ?j ?r] =>
         destruct (sendSatsetResponse_trace j r) as (? & ? & ? & -> & ?)
     | |- context [Val.isNullish ?e] => destruct (Val.isNullish e)
     end; cbn -[Response.sendSatsetResponse]);
    eexists _, _; (split; [reflexivity|]);
    (split;
     [ try (let Hd := fresh "Hd" in intros Hd; discriminate Hd); intros _;
       first [ exists (@nil effect); do 3 eexists; split; [reflexivity|]
             | eexists [_]; do 3 eexists; split; [reflexivity|]
             | eexists [_; _]; do 3 eexists; split; [reflexivity|]
             | eexists [_; _; _]; do 3 eexists; split; [reflexivity|]
             | eexists [_; _; _; _]; do 3 eexists; split; [reflexivity|] ];
       (split;
        [ first [ left; eexists; reflexivity
                | match goal with
                  | Hl : _ \/ _ |- _ =>
                      destruct Hl as [Hl|Hl]; [left; exact Hl|right; eexists; exact Hl]
                  end ]
        |])
     | try (let Hd := fresh "Hd" in intros Hd; discriminate Hd); intros _ ]);
    repeat (apply List.Forall_cons;
            [first [ left; reflexivity | right; left; reflexivity
                   | right; right; eexists; reflexivity ]|]);
    apply List.Forall_nil.
Qed.

(** ** Cookies *)

Section CookieFacts.

Import Cookies.

Variable encodeURIComponent : string -> string.

Lemma nonEmpty_app_r s t : Js.nonEmpty t = true -> Js.nonEmpty (s +:+ t) = true.
Proof. destruct s; [now intros H|reflexivity]. Qed.



End CookieFacts.




(** ** Error overlay *)

Section OverlayFacts.

Import Js Overlay.

Lemma replaceAll_lacks_self c rep s : lacks c rep -> lacks c (replaceAll c rep s).
Proof.
  intros Hrep. induction s as [|a s IH]; [reflexivity|]. cbn [replaceAll].
  destruct (Ascii.eqb a c) eqn:E; [now apply lacks_app|].
  unfold lacks in *. cbn. now rewrite E, IH.
Qed.

Lemma replaceAll_lacks_other c d rep s :
  lacks d rep -> lacks d s -> lacks d (replaceAll c rep s).
Proof.
  intros Hrep. unfold lacks. induction s as [|a s IH]; [reflexivity|].
  cbn [replaceAll includesChar]. intros H. apply orb_false_iff in H as [Ha Hs].
  destruct (Ascii.eqb a c); [apply lacks_app; [exact Hrep|now apply IH]|].
  cbn. now rewrite Ha, IH.
Qed.

Lemma replaceAll_absent c rep s : lacks c s -> replaceAll c rep s = s.
Proof.
  unfold lacks. induction s as [|a s IH]; [reflexivity|]. cbn. intros H.
  apply orb_false_iff in H as [Ha Hs]. now rewrite Ha, IH.
Qed.

End OverlayFacts.

(** X22: the text returned by [escapeHtml] never holds [<], [>], a double
    quote or a single quote, whatever the input; and a text that holds none
    of these nor an ampersand is returned unchanged. *)
Theorem escapeHtml_removes_markup (text : string) :
  (Js.lacks "<" (Overlay.escapeHtml text)
   /\ Js.lacks ">" (Overlay.escapeHtml text)
   /\ Js.lacks Overlay.dquote (Overlay.escapeHtml text)
   /\ Js.lacks "'" (Overlay.escapeHtml text))
  /\ (Js.lacks "&" text -> Js.lacks "<" text -> Js.lacks ">" text ->
      Js.lacks Overlay.dquote text -> Js.lacks "'" text ->
      Overlay.escapeHtml text = text).
Proof.
  unfold Overlay.escapeHtml. split; [repeat split|].
  - do 3 (apply replaceAll_lacks_other; [reflexivity|]).
    now apply replaceAll_lacks_self.
  - do 2 (apply replaceAll_lacks_other; [reflexivity|]).
    now apply replaceAll_lacks_self.
  - apply replaceAll_lacks_other; [reflexivity|]. now apply replaceAll_lacks_self.
  - now apply replaceAll_lacks_self.
  - intros Ha Hl Hg Hd Hs.
    now rewrite (replaceAll_absent "&" _ text Ha), (replaceAll_absent "<" _ text Hl),
      (replaceAll_absent ">" _ text Hg), (replaceAll_absent Overlay.dquote _ text Hd),
      (replaceAll_absent "'" _ text Hs).
Qed.

Section SnippetFacts.

Import Overlay.

(** Entry [i] of [l.slice(s, f)] for non-negative bounds. *)
Lemma slice_nth {A} (l : list A) (s f : Z) (i : nat) :
  (0 <= s)%Z -> (0 <= f)%Z ->
  nth_error (slice l s f) i
  = if (Z.of_nat i <? f - s)%Z then nth_error l (Z.to_nat s + i) else None.
Proof.
  intros Hs Hf. unfold slice.
  destruct (Z.ltb_spec s 0); [lia|]. destruct (Z.ltb_spec f 0); [lia|].
  rewrite nth_error_firstn, nth_error_skipn.
  destruct (Nat.ltb_spec i (Z.to_nat (Z.min f (Z.of_nat (length l))
                                      - Z.min s (Z.of_nat (length l)))));
    destruct (Z.ltb_spec (Z.of_nat i) (f - s)); try lia.
  - f_equal. lia.
  - symmetry. apply nth_error_None. lia.
  - reflexivity.
Qed.

Lemma slice_length {A} (l : list A) (s f : Z) :
  (0 <= s)%Z -> (0 <= f)%Z ->
  Z.of_nat (length (slice l s f))
  = Z.max 0 (Z.min f (Z.of_nat (length l)) - Z.min s (Z.of_nat (length l))).
Proof.
  intros Hs Hf. unfold slice.
  destruct (Z.ltb_spec s 0); [lia|]. destruct (Z.ltb_spec f 0); [lia|].
  rewrite length_firstn, length_skipn. lia.
Qed.

End SnippetFacts.

(** X23: for a readable file and non-negative arguments the snippet of
    [extractCodeSnippet] is a window of consecutive lines of the file: it
    holds at most [2 * context] lines, its entry [i] is the line of index
    [max 0 (errorLine - context) + i] of the file (counted from zero), and
    every line of the file whose index lies in
    [errorLine - context, errorLine + context) is in it. *)
Theorem extractCodeSnippet_window (content : string) (errorLine context : Z) :
  (0 <= context)%Z -> (0 <= errorLine)%Z ->
  let lines := Js.split (ascii_of_nat 10) content in
  let start := Z.to_nat (Z.max 0 (errorLine - context)) in
  let snippet := Overlay.extractCodeSnippet (Some content) errorLine context in
  (Z.of_nat (length snippet) <= 2 * context)%Z
  /\ (forall i x, nth_error snippet i = Some x -> nth_error lines (start + i) = Some x)
  /\ (forall i, (errorLine - context <= Z.of_nat i < errorLine + context)%Z ->
        nth_error snippet (i - start) = nth_error lines i).
Proof.
  intros Hc He lines start snippet. subst snippet start.
  unfold Overlay.extractCodeSnippet. fold lines.
  set (len := Z.of_nat (length lines)).
  assert (Hstart : (0 <= Z.max 0 (errorLine - context))%Z) by lia.
  assert (Hfinish : (0 <= Z.min len (errorLine + context))%Z) by lia.
  split; [|split].
  - rewrite slice_length by assumption. fold len. lia.
  - intros i x. rewrite slice_nth by assumption.
    destruct (Z.ltb_spec (Z.of_nat i)
                (Z.min len (errorLine + context) - Z.max 0 (errorLine - context)));
      [trivial|discriminate].
  - intros i Hi. rewrite slice_nth by assumption.
    destruct (Z.ltb_spec (Z.of_nat (i - Z.to_nat (Z.max 0 (errorLine - context))))
                (Z.min len (errorLine + context) - Z.max 0 (errorLine - context))).
    + f_equal. lia.
    + symmetry. apply nth_error_None. subst len. lia.
Qed.

Lemma extractCodeSnippet_window_witness :
  ((0 <= 1)%Z /\ (0 <= 2)%Z) /\
  nth_error (Overlay.extractCodeSnippet (Some "a
b
c
d") 2 1) 1 = Some "c".
Proof.
  split; [lia|].
  exact (proj2 (proj2 (extractCodeSnippet_window "a
b
c
d" 2 1 ltac:(lia) ltac:(lia))) 2%nat ltac:(lia)).
Defined.

(** X24: when the window of [extractCodeSnippet] is clipped by neither end
    of the file, the overlay labels entry [idx] of the snippet with the
    index, counted from zero, of its line in the file: the row printed with
    the number of the error line, which is the highlighted one, exists and
    holds the line that follows the error line. *)
Theorem overlay_labels_are_zero_based (content : string) (line context : Z) :
  (1 <= context)%Z -> (context <= line)%Z ->
  let lines := Js.split (ascii_of_nat 10) content in
  let code := Overlay.extractCodeSnippet (Some content) line context in
  (line + context <= Z.of_nat (length lines))%Z ->
  (forall idx, (idx < length code)%nat ->
     nth_error code idx
     = nth_error lines (Z.to_nat (Overlay.lineNum line (length code) idx)))
  /\ (forall idx, Overlay.lineNum line (length code) idx = line <-> idx = Z.to_nat context)
  /\ (Z.to_nat context < length code)%nat
  /\ nth_error code (Z.to_nat context) = nth_error lines (Z.to_nat line).
Proof.
  intros Hc Hl lines code Hlen. subst code.
  unfold Overlay.extractCodeSnippet. fold lines.
  assert (Hstart : (0 <= Z.max 0 (line - context))%Z) by lia.
  assert (Hfinish : (0 <= Z.min (Z.of_nat (length lines)) (line + context))%Z) by lia.
  set (code := Overlay.slice lines _ _).
  assert (Hcode : length code = (Z.to_nat context * 2)%nat).
  { pose proof (slice_length lines _ _ Hstart Hfinish) as H. fold code in H. lia. }
  assert (Hhalf : (length code / 2)%nat = Z.to_nat context).
  { rewrite Hcode. apply Nat.div_mul. discriminate. }
  unfold Overlay.lineNum. rewrite Hhalf.
  assert (Hnth : forall idx, (idx < length code)%nat ->
            nth_error code idx = nth_error lines (Z.to_nat (line - context) + idx)).
  { intros idx Hidx. unfold code. rewrite slice_nth by assumption.
    destruct (Z.ltb_spec (Z.of_nat idx)
                (Z.min (Z.of_nat (length lines)) (line + context)
                 - Z.max 0 (line - context))); [f_equal; lia|lia]. }
  split; [|split; [|split]].
  - intros idx Hidx. rewrite (Hnth idx Hidx). f_equal. lia.
  - intros idx. lia.
  - lia.
  - rewrite Hnth by lia. f_equal. lia.
Qed.

Lemma overlay_labels_are_zero_based_witness :
  ((1 <= 1)%Z /\ (1 <= 2)%Z /\ (2 + 1 <= 4)%Z) /\
  nth_error (Overlay.extractCodeSnippet (Some "a
b
c
d") 2 1) 1 = Some "c" /\
  Overlay.lineNum 2 2 1 = 2%Z.
Proof.
  split; [lia|].
  pose proof (overlay_labels_are_zero_based "a
b
c
d" 2 1 ltac:(lia) ltac:(lia) ltac:(vm_compute; intros H; discriminate H)) as H.
  split; [exact (proj2 (proj2 (proj2 H)))|].
  exact (proj2 (proj1 (proj2 H) 1%nat) eq_refl).
Defined.

(** ** Signals thrown while rendering *)

(** X25: a thrown not-found signal always ends in a page with status 404,
    whatever the compiler, [require] and the rendering engine do: the catch
    block neither throws nor writes on the response, the body is the markup
    the rendering engine returned for the not-found page or else the literal
    heading, and with no [/404] and no [/not-found] route nothing at all is
    called. *)
Theorem not_found_signal_yields_404
  (tempDir : string) (bundler : string -> string -> bool -> outcome unit)
  (requireModule : string -> outcome value)
  (renderToString : value -> value -> outcome string)
  (jsonStringify : value -> string)
  (generateErrorOverlayHTML : string -> string -> string)
  (route : Router.Route) (allRoutes : list Router.Route) (initialParams err : value) :
  Val.isTruthy (Val.and err (Val.get err "__SATSET_REDIRECT")) = false ->
  Val.isTruthy (Val.and err (Val.get err "__SATSET_NOT_FOUND")) = true ->
  exists done pageHTML,
    Server.onRenderError tempDir bundler requireModule renderToString jsonStringify
      generateErrorOverlayHTML route allRoutes initialParams err
    = (done, Returns (Server.Page 404 pageHTML))
    /\ Forall (fun e => Eff.isBundle e = true \/ (exists f, e = RequireModule f)
                        \/ Eff.isRender e = true) done
    /\ (pageHTML = Server.notFoundLiteral
        \/ exists comp props, In (RenderToHtml comp props) done
                              /\ renderToString comp props = Returns pageHTML)
    /\ (Server.findRoute allRoutes "/404" = None ->
        Server.findRoute allRoutes "/not-found" = None ->
        done = [] /\ pageHTML = Server.notFoundLiteral).
Proof.
  intros Hr Hn. unfold Server.onRenderError. rewrite Hr, Hn.
  destruct (Server.orElse _ _) as [nf|] eqn:Enf.
  - assert (Hroutes : Server.findRoute allRoutes "/404" = None ->
                      Server.findRoute allRoutes "/not-found" = None -> False).
    { intros H1 H2. rewrite H1, H2 in Enf. discriminate Enf. }
    unfold Server.bundleServer, Server.require, Server.renderComponentToHtml, Eff.call,
      Eff.throw.
    cbn zeta.
    repeat
      (match goal with
       | |- context [Js.nonEmpty (Router.component nf)] =>
           destruct (Js.nonEmpty (Router.component nf))
       | |- context [bundler ?a ?b ?c] => destruct (bundler a b c) as [[]|?]
       | |- context [requireModule ?f] => destruct (requireModule f) as [NfModule|?]
       | |- context [Val.isTruthy (Server.defaultComponent ?m)] =>
           destruct (Val.isTruthy (Server.defaultComponent m))
       | |- context [negb ?a || negb ?b] => destruct (negb a || negb b)
       | |- context [negb (Val.isFunction ?x)] => destruct (Val.isFunction x)
       | |- context [renderToString ?c ?p] =>
           let E := fresh "Ehtml" in destruct (renderToString c p) as [html|?] eqn:E
       end; cbn -[Server.defaultComponent]);
      eexists _, _; (split; [reflexivity|]);
      (split;
       [repeat (apply List.Forall_cons;
                [first [ left; reflexivity | right; left; eexists; reflexivity
                       | right; right; reflexivity ]|]);
        apply List.Forall_nil|]);
      (split; [|intros H1 H2; destruct (Hroutes H1 H2)]);
      try (left; reflexivity).
    right. eexists _, _. split; [|exact Ehtml]. cbn. auto.
  - exists [], Server.notFoundLiteral. split; [reflexivity|].
    split; [constructor|]. split; [now left|]. intros _ _. split; reflexivity.
Qed.

Lemma not_found_signal_yields_404_witness :
  (Val.isTruthy (Val.and Navigation.notFound (Val.get Navigation.notFound "__SATSET_REDIRECT"))
   = false /\
   Val.isTruthy (Val.and Navigation.notFound (Val.get Navigation.notFound "__SATSET_NOT_FOUND"))
   = true) /\
  exists done pageHTML,
    Server.onRenderError Examples.tempDir Examples.okBundler Examples.emptyModule
      Examples.noMarkup Examples.noJson Examples.noOverlay Examples.aboutPage
      [Examples.aboutPage] (Obj []) Navigation.notFound
    = (done, Returns (Server.Page 404 pageHTML)).
Proof.
  split; [split; reflexivity|].
  destruct (not_found_signal_yields_404 Examples.tempDir Examples.okBundler
              Examples.emptyModule Examples.noMarkup Examples.noJson Examples.noOverlay
              Examples.aboutPage [Examples.aboutPage] (Obj []) Navigation.notFound
              eq_refl eq_refl) as (done & pageHTML & H & _).
  exists done, pageHTML. exact H.
Defined.

(** X26: a thrown value whose [__SATSET_REDIRECT] is truthy always ends in a
    redirect, whatever the payload holds: the response is one head with a
    non-empty [Location] and a status that is not 0, and an end without a
    body. A payload without a non-empty string [url] redirects to [/], one
    without a numeric [status] uses 307, and the status 0 is sent as 200. *)
Theorem redirect_signal_always_redirects
  (tempDir : string) (bundler : string -> string -> bool -> outcome unit)
  (requireModule : string -> outcome value)
  (renderToString : value -> value -> outcome string)
  (jsonStringify : value -> string)
  (generateErrorOverlayHTML : string -> string -> string)
  (route : Router.Route) (allRoutes : list Router.Route) (initialParams err : value) :
  Val.isTruthy (Val.and err (Val.get err "__SATSET_REDIRECT")) = true ->
  let info := Val.get err "__SATSET_REDIRECT" in
  exists status url,
    Server.onRenderError tempDir bundler requireModule renderToString jsonStringify
      generateErrorOverlayHTML route allRoutes initialParams err
    = ([WriteHead status {[ "Location" := url ]}; End None], Returns Server.Responded)
    /\ Js.nonEmpty url = true
    /\ status <> 0%Z
    /\ url = match Val.get info "url" with
             | Str u => if Js.nonEmpty u then u else "/"
             | _ => "/"
             end
    /\ status = match Val.get info "status" with
                | Num z => if (z =? 0)%Z then 200%Z else z
                | _ => 307%Z
                end.
Proof.
  intros Hr info. unfold Server.onRenderError. rewrite Hr. fold info.
  set (url := match Val.get info "url" with
              | Str u => if Js.nonEmpty u then u else "/"
              | _ => "/"
              end).
  set (status := match Val.get info "status" with Num z => z | _ => 307%Z end).
  assert (Hurl : Js.nonEmpty url = true).
  { subst url. destruct (Val.get info "url") as [| | | |u| |]; try reflexivity.
    destruct (Js.nonEmpty u) eqn:E; [exact E|reflexivity]. }
  exists (if (status =? 0)%Z then 200%Z else status), url.
  split; [|split; [exact Hurl|split; [|split; [reflexivity|]]]].
  - unfold Response.sendSatsetResponse, Response.redirect, Response.new.
    cbn [Response.headers Response.status Response.body].
    unfold Response.hasHeader. rewrite lookup_singleton_eq, Hurl. reflexivity.
  - destruct (Z.eqb_spec status 0); [discriminate|assumption].
  - subst status. destruct (Val.get info "status"); reflexivity.
Qed.

Lemma redirect_signal_always_redirects_witness :
  Val.isTruthy (Val.and (Val.error "Redirect" [("__SATSET_REDIRECT", Bool true)])
                  (Val.get (Val.error "Redirect" [("__SATSET_REDIRECT", Bool true)])
                     "__SATSET_REDIRECT")) = true /\
  Server.onRenderError Examples.tempDir Examples.okBundler Examples.emptyModule
    Examples.noMarkup Examples.noJson Examples.noOverlay Examples.aboutPage
    [Examples.aboutPage] (Obj []) (Val.error "Redirect" [("__SATSET_REDIRECT", Bool true)])
  = ([WriteHead 307 {[ "Location" := "/" ]}; End None], Returns Server.Responded).
Proof.
  split; [reflexivity|].
  destruct (redirect_signal_always_redirects Examples.tempDir Examples.okBundler
              Examples.emptyModule Examples.noMarkup Examples.noJson Examples.noOverlay
              Examples.aboutPage [Examples.aboutPage] (Obj [])
              (Val.error "Redirect" [("__SATSET_REDIRECT", Bool true)]) eq_refl)
    as (status & url & H & _ & _ & Hu & Hs).
  rewrite H. cbn in Hu, Hs. now rewrite Hu, Hs.
Defined.

(** ** Exports of a page module *)

Section PageExportFacts.

Import PageExports.

Lemma firstFunction_cases fields :
  firstFunction fields = Null \/ Val.isFunction (firstFunction fields) = true.
Proof.
  induction fields as [|[k v] fields IH]; [now left|]. cbn [firstFunction].
  destruct (Val.isFunction v) eqn:E; [now right|exact IH].
Qed.

Lemma firstFunction_finds fields key :
  Val.isFunction (Val.lookup fields key) = true ->
  Val.isFunction (firstFunction fields) = true.
Proof.
  induction fields as [|[k v] fields IH]; [discriminate|]. cbn [firstFunction Val.lookup].
  destruct (Val.isFunction v) eqn:E; [trivial|].
  destruct (String.eqb k key); [congruence|exact IH].
Qed.

End PageExportFacts.

(** X27: [resolveExportedComponent] returns [null] or a function, never
    anything else; a module that is a function is returned itself, a
    function under [default] wins over every other export, and a module
    object with a function under any key always resolves to a function. *)
Theorem resolveExportedComponent_finds_a_function (mod_ : value) :
  (PageExports.resolveExportedComponent mod_ = Null
   \/ Val.isFunction (PageExports.resolveExportedComponent mod_) = true)
  /\ (Val.isFunction mod_ = true -> PageExports.resolveExportedComponent mod_ = mod_)
  /\ (Val.isFunction (Val.get mod_ "default") = true ->
      PageExports.resolveExportedComponent mod_ = Val.get mod_ "default")
  /\ (forall key, Val.isFunction (Val.get mod_ key) = true ->
      Val.isFunction (PageExports.resolveExportedComponent mod_) = true).
Proof.
  unfold PageExports.resolveExportedComponent.
  assert (Hnull : forall m : value,
            (forall key, Val.get m key = Undefined) -> Val.isFunction m = false ->
            (Null = Null \/ Val.isFunction Null = true)
            /\ (Val.isFunction m = true -> Null = m)
            /\ (Val.isFunction (Val.get m "default") = true -> Null = Val.get m "default")
            /\ (forall key, Val.isFunction (Val.get m key) = true ->
                Val.isFunction Null = true)).
  { intros m Hget Hfun. split; [now left|]. split; [congruence|].
    split; [rewrite Hget; discriminate|]. intros key. rewrite Hget. discriminate. }
  destruct mod_ as [| |b|z|s|id arity|fields].
  - exact (Hnull Undefined (fun _ => eq_refl) eq_refl).
  - exact (Hnull Null (fun _ => eq_refl) eq_refl).
  - destruct b; exact (Hnull (Bool _) (fun _ => eq_refl) eq_refl).
  - cbn [Val.isTruthy]. destruct (z =? 0)%Z;
      exact (Hnull (Num z) (fun _ => eq_refl) eq_refl).
  - destruct s; exact (Hnull (Str _) (fun _ => eq_refl) eq_refl).
  - cbn [Val.isTruthy negb Val.isFunction Val.get].
    split; [now right|]. split; [reflexivity|]. split; discriminate.
  - cbn [Val.isTruthy negb Val.isFunction].
    destruct (Val.isFunction (Val.get (Obj fields) "default")) eqn:Ed.
    + split; [now right|]. split; [discriminate|]. split; [reflexivity|].
      intros _ _. exact Ed.
    + destruct (Val.isTruthy _ && _ && _) eqn:Edd.
      * apply andb_true_iff in Edd as [_ Edd].
        split; [now right|]. split; [discriminate|]. split; [discriminate|].
        intros _ _. exact Edd.
      * split; [apply firstFunction_cases|]. split; [discriminate|].
        split; [discriminate|]. intros key. apply firstFunction_finds.
Qed.

Lemma resolveExportedComponent_finds_a_function_witness :
  Val.isFunction (Val.get (Obj [("metadata", Obj []); ("Page", Fun 7 1)]) "Page") = true /\
  Val.isFunction
    (PageExports.resolveExportedComponent (Obj [("metadata", Obj []); ("Page", Fun 7 1)]))
  = true.
Proof.
  split; [reflexivity|].
  exact (proj2 (proj2 (proj2 (resolveExportedComponent_finds_a_function
                                (Obj [("metadata", Obj []); ("Page", Fun 7 1)]))))
           "Page" eq_refl).
Defined.

(** ** Request cookies *)

Section RequestCookieFacts.

Import Js Request Text CookieText.

Let noSpace (a : ascii) : bool := negb (isSpace a).

Lemma trimEnd_noSpace s : allChars noSpace s = true -> trimEnd s = s.
Proof.
  induction s as [|a s IH]; [reflexivity|]. cbn [allChars trimEnd]. intros H.
  apply andb_true_iff in H as [Ha Hs]. rewrite (IH Hs).
  unfold noSpace in Ha. apply negb_true_iff in Ha. rewrite Ha. now destruct s.
Qed.

Lemma trim_noSpace s : allChars noSpace s = true -> trim s = s.
Proof.
  intros H. unfold trim.
  assert (Hstart : trimStart s = s).
  { destruct s as [|a s]; [reflexivity|]. cbn [allChars] in H.
    apply andb_true_iff in H as [Ha _]. unfold noSpace in Ha.
    apply negb_true_iff in Ha. cbn [trimStart]. now rewrite Ha. }
  rewrite Hstart. now apply trimEnd_noSpace.
Qed.

Lemma trim_leading_space s : trim (String " " s) = trim s.
Proof. reflexivity. Qed.

Lemma indexOf_app c n v : lacks c n -> indexOf (n +:+ String c v) c = Some (String.length n).
Proof.
  unfold lacks. induction n as [|a n IH]; intros H.
  - change (EmptyString +:+ String c v) with (String c v). cbn [indexOf].
    now rewrite Ascii.eqb_refl.
  - rewrite app_cons. cbn [includesChar] in H. apply orb_false_iff in H as [Ha Hn].
    cbn [indexOf String.length]. now rewrite Ha, (IH Hn).
Qed.

Lemma split_semicolons l :
  Forall (lacks ";") l ->
  split ";" (join "; " l)
  = match l with
    | [] => [EmptyString]
    | x :: rest => x :: map (String " ") rest
    end.
Proof.
  induction 1 as [|x l Hx Hl IH]; [reflexivity|].
  destruct l as [|y l]; [now apply split_without_sep|].
  change (join "; " (x :: y :: l))
    with (x +:+ String ";" (String " " (join "; " (y :: l)))).
  rewrite split_app_sep by exact Hx. f_equal.
  cbn [split]. change (Ascii.eqb " " ";") with false. cbv iota. now rewrite IH.
Qed.

Lemma valueChar_noSpace s : allChars valueChar s = true -> allChars noSpace s = true.
Proof. apply allChars_impl. intros a H. now apply andb_true_iff in H as [H _]. Qed.

Lemma nameChar_valueChar s : allChars nameChar s = true -> allChars valueChar s = true.
Proof. apply allChars_impl. intros a H. now apply andb_true_iff in H as [H _]. Qed.

Lemma cookiePart_pair decode store n v :
  nonEmpty n = true -> allChars nameChar n = true -> allChars valueChar v = true ->
  cookiePart decode store (pairText (n, v)) = assign decode store (n, v).
Proof.
  intros Hne Hn Hv.
  pose proof (valueChar_noSpace _ (nameChar_valueChar _ Hn)) as Hn'.
  pose proof (valueChar_noSpace _ Hv) as Hv'.
  assert (Hlacks : lacks "=" n).
  { apply (allChars_lacks nameChar); [reflexivity|exact Hn]. }
  unfold cookiePart, pairText, assign. cbn [fst snd].
  change (n +:+ "=" +:+ v) with (n +:+ String "=" v).
  rewrite trim_noSpace.
  2:{ rewrite allChars_app. cbn [allChars]. rewrite Hn', Hv'. reflexivity. }
  assert (Hfull : nonEmpty (n +:+ String "=" v) = true) by now destruct n.
  rewrite Hfull. cbn [negb]. rewrite (indexOf_app "=" n v Hlacks).
  rewrite substring_take, (trim_noSpace n Hn'), Hne. cbn [negb].
  replace (sliceFrom (String.length n + 1) (n +:+ String "=" v)) with v.
  - rewrite (trim_noSpace v Hv'). now destruct (decode v).
  - change (n +:+ String "=" v) with (n +:+ ("=" +:+ v)).
    rewrite <- app_assoc_string.
    replace (String.length n + 1)%nat with (String.length (n +:+ "="))
      by (rewrite length_app; reflexivity).
    now rewrite sliceFrom_app.
Qed.

Lemma cookiePart_spaced decode store part :
  cookiePart decode store (String " " part) = cookiePart decode store part.
Proof. reflexivity. Qed.

Lemma pairText_lacks_semicolon n v :
  allChars nameChar n = true -> allChars valueChar v = true -> lacks ";" (pairText (n, v)).
Proof.
  intros Hn Hv. unfold pairText. cbn [fst snd].
  apply lacks_app; [|apply lacks_app; [reflexivity|]].
  - apply (allChars_lacks valueChar); [reflexivity|now apply nameChar_valueChar].
  - now apply (allChars_lacks valueChar).
Qed.

End RequestCookieFacts.

(** X28: [parseRequestCookies] reads back the cookies a browser sends. For
    a [cookie] header made of [name=value] pairs joined by a semicolon and a
    space, where the names are not empty and hold no white space, semicolon
    or equals sign and the values hold no white space or semicolon, the
    store is built by assigning, in header order, to each name the decoded
    value (the raw value when decoding throws); so the last of several
    cookies with one name wins. The assignment to the name [__proto__]
    creates no property: such a cookie is dropped, and the store never has
    a property of that name. *)
Theorem parseRequestCookies_reads_pairs
  (decodeURIComponent : string -> outcome string) (pairs : list (string * string)) :
  pairs <> [] ->
  Forall (fun p => Js.nonEmpty (fst p) = true
                   /\ Text.allChars CookieText.nameChar (fst p) = true
                   /\ Text.allChars CookieText.valueChar (snd p) = true) pairs ->
  Request.parseRequestCookies decodeURIComponent (Some (CookieText.header pairs))
  = Some (fold_left (fun store p =>
                       if String.eqb (fst p) "__proto__" then store
                       else <[fst p := match decodeURIComponent (snd p) with
                                       | Returns decoded => decoded
                                       | Throws _ => snd p
                                       end]> store)
                    pairs ∅).
Proof.
  intros Hne Hpairs. unfold Request.parseRequestCookies, CookieText.header.
  assert (Hsemi : Forall (Js.lacks ";") (map CookieText.pairText pairs)).
  { apply List.Forall_map. eapply Forall_impl; [exact Hpairs|].
    intros [n v] (_ & Hn & Hv). now apply pairText_lacks_semicolon. }
  rewrite (split_semicolons _ Hsemi).
  destruct pairs as [|[n v] rest]; [congruence|].
  assert (Hhead : Js.nonEmpty (Js.join "; " (map CookieText.pairText ((n, v) :: rest)))
                  = true).
  { inversion Hpairs as [|p l (Hn & _) _]; subst. cbn [fst] in Hn.
    unfold Js.join, CookieText.pairText. cbn [map String.concat fst snd].
    destruct n; [discriminate Hn|]. now destruct rest. }
  rewrite Hhead. cbn [negb map fold_left]. f_equal.
  inversion Hpairs as [|p l (Hn & Hnc & Hvc) Hrest]; subst. cbn [fst snd] in *.
  rewrite (cookiePart_pair decodeURIComponent ∅ n v Hn Hnc Hvc).
  change (if String.eqb n "__proto__" then ∅
          else <[n := match decodeURIComponent v with
                      | Returns decoded => decoded
                      | Throws _ => v
                      end]> ∅)
    with (CookieText.assign decodeURIComponent ∅ (n, v)).
  generalize (CookieText.assign decodeURIComponent ∅ (n, v)). clear Hpairs Hsemi Hhead Hne.
  induction Hrest as [|[n' v'] rest' (Hn' & Hnc' & Hvc') Hrest' IH]; intros store;
    [reflexivity|].
  cbn [map fold_left]. cbn [fst snd] in *.
  rewrite cookiePart_spaced, (cookiePart_pair decodeURIComponent store n' v' Hn' Hnc' Hvc').
  apply IH.
Qed.

Lemma parseRequestCookies_reads_pairs_witness :
  ([("SATSET_LANG", "id-ID"); ("__proto__", "x"); ("theme", "dark"); ("theme", "a=b")] <> []
   /\ Forall (fun p => Js.nonEmpty (fst p) = true
                       /\ Text.allChars CookieText.nameChar (fst p) = true
                       /\ Text.allChars CookieText.valueChar (snd p) = true)
        [("SATSET_LANG", "id-ID"); ("__proto__", "x"); ("theme", "dark"); ("theme", "a=b")])
  /\
  Request.parseRequestCookies Samples.decodeOk
    (Some "SATSET_LANG=id-ID; __proto__=x; theme=dark; theme=a=b")
  = Some (<["theme" := "a=b"]> (<["theme" := "dark"]> (<["SATSET_LANG" := "id-ID"]> ∅))).
Proof.
  assert (H : Forall (fun p => Js.nonEmpty (fst p) = true
                       /\ Text.allChars CookieText.nameChar (fst p) = true
                       /\ Text.allChars CookieText.valueChar (snd p) = true)
        [("SATSET_LANG", "id-ID"); ("__proto__", "x"); ("theme", "dark"); ("theme", "a=b")]).
  { repeat (apply List.Forall_cons; [split; [reflexivity|split; reflexivity]|]).
    apply List.Forall_nil. }
  split; [split; [discriminate|exact H]|].
  exact (parseRequestCookies_reads_pairs Samples.decodeOk
           [("SATSET_LANG", "id-ID"); ("__proto__", "x"); ("theme", "dark"); ("theme", "a=b")]
           ltac:(discriminate) H).
Defined.
